(** * Task access and lifecycle policy of the task-management backend

    A shallow embedding of the Express route handlers of the backend
    ([routes/tasks.js], [routes/users.js], [models/Task.js],
    [models/TaskDocument.js], [middleware/error.js]) and the properties of
    the authorization and task-lifecycle rule set.

    The persistent collections, the upload directory and the socket
    channel are one explicit [World]; a route handler is a computation in
    a small monad over it that can fall through, send a response, or throw. *)

From Stdlib Require Import ZArith NArith List String Ascii Bool Lia Permutation.
Import ListNotations.

Local Open Scope string_scope.
Local Open Scope list_scope.

Set Implicit Arguments.

(** ** Data model *)

(** A MongoDB ObjectId.  A 24-digit hexadecimal string that passes
    [isMongoId] denotes exactly one of them. *)
Definition ObjectId := N.

(** A string found where an ObjectId is expected ([req.body.assignedTo],
    a query parameter): either the hexadecimal form of an ObjectId, or any
    other string (the sentinel ['null'] of the update route is one). *)
Inductive IdString :=
| HexId (i : ObjectId)
| NotHex (s : string).

Definition isMongoId (s : IdString) : bool :=
  match s with HexId _ => true | NotHex _ => false end.

(** JavaScript truthiness of a string: every string but the empty one. *)
Definition truthy (s : string) : bool := negb (s =? "").

Definition truthy_id (s : IdString) : bool :=
  match s with HexId _ => true | NotHex s => truthy s end.

Inductive Role := RoleUser | RoleAdmin.

Definition is_admin (r : Role) : bool :=
  match r with RoleAdmin => true | RoleUser => false end.

(** [models/User.js] is read through three fields only. *)
Record User := mkUser {
  user_id : ObjectId;
  email : string;
  role : Role
}.

Inductive Status := pending | in_progress | completed.
Inductive Priority := low | medium | high.

Definition status_name (s : Status) : string :=
  match s with
  | pending => "pending" | in_progress => "in_progress" | completed => "completed"
  end.

Definition priority_name (p : Priority) : string :=
  match p with low => "low" | medium => "medium" | high => "high" end.

(** [models/Task.js].  Dates are milliseconds since the epoch.
    [updatedAt] is written by the driver and read by no handler. *)
Record Task := mkTask {
  task_id : ObjectId;
  title : string;
  description : string;
  status : Status;
  priority : Priority;
  dueDate : option Z;
  assignedTo : option ObjectId;
  createdBy : ObjectId;
  documents : list ObjectId;
  createdAt : Z
}.

(** [models/TaskDocument.js]. *)
Record TaskDocument := mkTaskDocument {
  doc_id : ObjectId;
  taskId : ObjectId;
  filename : string;
  originalName : string;
  filePath : string;
  fileSize : N;
  mimeType : string;
  uploadedBy : ObjectId
}.

(** An entry of [req.files] as multer hands it over. *)
Record File := mkFile {
  file_filename : string;
  file_originalname : string;
  file_path : string;
  file_size : N;
  file_mimetype : string
}.

(** The validated fields of a task payload.  [status], [priority] and
    [dueDate] are typed: a value outside the enumeration, or a date that
    is not ISO 8601, is answered 400 by the validation chain before the
    handler body runs.  [b_createdBy] is a field a client may send; no
    handler reads it. *)
Record TaskBody := mkTaskBody {
  b_title : option string;
  b_description : option string;
  b_status : option Status;
  b_priority : option Priority;
  b_dueDate : option Z;
  b_assignedTo : option IdString;
  b_createdBy : option IdString
}.

(** A user document populated with [select: 'email']. *)
Record PopulatedUser := mkPopulatedUser {
  pu_id : ObjectId;
  pu_email : string
}.

(** A task after [populate('assignedTo','email')],
    [populate('createdBy','email')] and [populate('documents')].  A
    reference whose target is gone populates to [null]. *)
Record PopulatedTask := mkPopulatedTask {
  raw : Task;
  p_assignedTo : option PopulatedUser;
  p_createdBy : option PopulatedUser;
  p_documents : list TaskDocument
}.

(** What a template string [`user_${x}`] interpolates: the hexadecimal
    form of an ObjectId ([ObjectId.prototype.toString]), or the rendering
    of a populated document ([Document.prototype.toString]).  Both are
    non-empty strings, hence truthy. *)
Inductive Shown :=
| HexOf (i : ObjectId)
| InspectOf (i : ObjectId) (mail : string).

Definition Shown_eqb (a b : Shown) : bool :=
  match a, b with
  | HexOf i, HexOf j => N.eqb i j
  | InspectOf i m, InspectOf j n => N.eqb i j && (m =? n)
  | _, _ => false
  end.

Inductive EventName := taskAssigned | taskUpdated.

(** [io.to(`user_${key}`).emit(name, ...)] about the task [about]. *)
Record Event := mkEvent {
  room : Shown;
  name : EventName;
  about : ObjectId
}.

(** A connected socket of user [u] joins [`user_${socket.userId}`]. *)
Definition room_of_user (u : ObjectId) : Shown := HexOf u.

(** The [data] of a response.  Of the pagination block the page carries
    [currentPage] and [totalItems]; the other fields are arithmetic on
    these and the limit. *)
Inductive Payload :=
| NoData
| OneTask (t : PopulatedTask)
| TaskPage (ts : list PopulatedTask) (currentPage : Z) (totalItems : nat).

Record Response := mkResponse {
  statusCode : nat;
  message : string;
  data : Payload
}.

Definition json (code : nat) (msg : string) : Response :=
  mkResponse code msg NoData.

Inductive Exn :=
| ValidationError (msg : string)
| TypeError (msg : string)
| CastError
| MulterError (code : string)
| Error (msg : string)
| ENOENT.

(** ** The world the handlers run in *)

Record World := mkWorld {
  Users : list User;
  Tasks : list Task;
  TaskDocuments : list TaskDocument;
  uploads : list string;
  outbox : list Event;
  nextId : ObjectId
}.

Definition set_Users (f : list User -> list User) (w : World) : World :=
  mkWorld (f (Users w)) (Tasks w) (TaskDocuments w) (uploads w) (outbox w) (nextId w).
Definition set_Tasks (f : list Task -> list Task) (w : World) : World :=
  mkWorld (Users w) (f (Tasks w)) (TaskDocuments w) (uploads w) (outbox w) (nextId w).
Definition set_TaskDocuments (f : list TaskDocument -> list TaskDocument) (w : World) : World :=
  mkWorld (Users w) (Tasks w) (f (TaskDocuments w)) (uploads w) (outbox w) (nextId w).
Definition set_uploads (f : list string -> list string) (w : World) : World :=
  mkWorld (Users w) (Tasks w) (TaskDocuments w) (f (uploads w)) (outbox w) (nextId w).
Definition set_outbox (f : list Event -> list Event) (w : World) : World :=
  mkWorld (Users w) (Tasks w) (TaskDocuments w) (uploads w) (f (outbox w)) (nextId w).

(** ** The handler monad *)

Inductive Outcome (A : Type) :=
| Next (a : A)
| Sent (r : Response)
| Thrown (e : Exn).

Arguments Next {A} a.
Arguments Sent {A} r.
Arguments Thrown {A} e.

Definition Handler (A : Type) := World -> Outcome A * World.

Definition ret {A} (a : A) : Handler A := fun w => (Next a, w).

Definition bind {A B} (c : Handler A) (k : A -> Handler B) : Handler B :=
  fun w =>
    match c w with
    | (Next a, w') => k a w'
    | (Sent r, w') => (Sent r, w')
    | (Thrown e, w') => (Thrown e, w')
    end.

Notation "x <~ c ;; k" := (bind c (fun x => k))
  (at level 61, c at next level, right associativity).
Notation "c ;;; k" := (bind c (fun _ => k))
  (at level 61, right associativity).

(** [return res.status(..).json(..)] *)
Definition reply {A} (r : Response) : Handler A := fun w => (Sent r, w).

Definition throw {A} (e : Exn) : Handler A := fun w => (Thrown e, w).

(** [if (c) { return res... }] *)
Definition reply_if (c : bool) (r : Response) : Handler unit :=
  if c then reply r else ret tt.

(** [try { body } catch (error) { handler }] *)
Definition try_catch {A} (body : Handler A) (handler : Exn -> Handler A) : Handler A :=
  fun w =>
    match body w with
    | (Thrown e, w') => handler e w'
    | other => other
    end.

Definition gets {A} (f : World -> A) : Handler A := fun w => (Next (f w), w).
Definition modify (f : World -> World) : Handler unit := fun w => (Next tt, f w).

(** [middleware/error.js]: the final error handler. *)
Definition errorHandler (e : Exn) : Response :=
  match e with
  | MulterError "LIMIT_FILE_SIZE" => json 400 "File too large"
  | MulterError "LIMIT_FILE_COUNT" => json 400 "Too many files"
  | MulterError "LIMIT_UNEXPECTED_FILE" => json 400 "Unexpected file field"
  | CastError => json 400 "Invalid ID format"
  | ValidationError msg | TypeError msg | Error msg =>
      json 500 (if truthy msg then msg else "Server Error")
  | MulterError _ | ENOENT => json 500 "Server Error"
  end.

(** [asyncHandler(fn)]: a rejected handler goes to [errorHandler]. *)
Definition asyncHandler (h : Handler Response) (w : World) : Response * World :=
  match h w with
  | (Next r, w') => (r, w')
  | (Sent r, w') => (r, w')
  | (Thrown e, w') => (errorHandler e, w')
  end.

(** ** Mongoose, multer and the file system *)

(** [String.prototype.trim] on the ASCII white space characters (the
    [trim: true] setter of the schemas). *)
Definition is_space (c : ascii) : bool :=
  let n := nat_of_ascii c in
  Nat.eqb n 32 || (Nat.leb 9 n && Nat.leb n 13).

Fixpoint trim_start (s : string) : string :=
  match s with
  | EmptyString => EmptyString
  | String c r => if is_space c then trim_start r else s
  end.

Fixpoint trim_end (s : string) : string :=
  match s with
  | EmptyString => EmptyString
  | String c r =>
      match trim_end r with
      | EmptyString => if is_space c then EmptyString else String c EmptyString
      | r' => String c r'
      end
  end.

Definition trim (s : string) : string := trim_end (trim_start s).

Definition find_by {A} (key : A -> ObjectId) (i : ObjectId) (l : list A) : option A :=
  find (fun x => N.eqb (key x) i) l.

Definition isNone {A} (o : option A) : bool :=
  match o with None => true | Some _ => false end.

Definition Task_findById (i : ObjectId) : Handler (option Task) :=
  gets (fun w => find_by task_id i (Tasks w)).

Definition User_findById (i : ObjectId) : Handler (option User) :=
  gets (fun w => find_by user_id i (Users w)).

(** [User.findById(s)] on a request string: a string that is no
    ObjectId does not cast. *)
Definition User_findById_str (s : IdString) : Handler (option User) :=
  match s with
  | HexId i => User_findById i
  | NotHex _ => throw CastError
  end.

Definition belongs_to (tid : ObjectId) (d : TaskDocument) : bool :=
  N.eqb (taskId d) tid.

(** [TaskDocument.findOne({ _id, taskId })] *)
Definition TaskDocument_findOne (i tid : ObjectId) : Handler (option TaskDocument) :=
  gets (fun w => find (fun d => N.eqb (doc_id d) i && belongs_to tid d) (TaskDocuments w)).

(** [TaskDocument.find({ taskId })] *)
Definition TaskDocument_find (tid : ObjectId) : Handler (list TaskDocument) :=
  gets (fun w => filter (belongs_to tid) (TaskDocuments w)).

(** [TaskDocument.countDocuments({ taskId })] *)
Definition TaskDocument_countDocuments (tid : ObjectId) : Handler nat :=
  gets (fun w => List.length (filter (belongs_to tid) (TaskDocuments w))).

(** [TaskDocument.deleteMany({ taskId })] *)
Definition TaskDocument_deleteMany (tid : ObjectId) : Handler unit :=
  modify (set_TaskDocuments (filter (fun d => negb (belongs_to tid d)))).

Definition TaskDocument_findByIdAndDelete (i : ObjectId) : Handler unit :=
  modify (set_TaskDocuments (filter (fun d => negb (N.eqb (doc_id d) i)))).

Definition Task_findByIdAndDelete (i : ObjectId) : Handler unit :=
  modify (set_Tasks (filter (fun t => negb (N.eqb (task_id t) i)))).

Definition User_findByIdAndDelete (i : ObjectId) : Handler unit :=
  modify (set_Users (filter (fun u => negb (N.eqb (user_id u) i)))).

(** [populate(path, 'email')] of one reference. *)
Definition populate_user (w : World) (ref : option ObjectId) : option PopulatedUser :=
  match ref with
  | None => None
  | Some i =>
      match find_by user_id i (Users w) with
      | Some u => Some (mkPopulatedUser (user_id u) (email u))
      | None => None
      end
  end.

Definition populate_documents (w : World) (ids : list ObjectId) : list TaskDocument :=
  flat_map (fun i => match find_by doc_id i (TaskDocuments w) with
                     | Some d => [d]
                     | None => []
                     end) ids.

Definition populate (t : Task) : Handler PopulatedTask :=
  gets (fun w => mkPopulatedTask t
                   (populate_user w (assignedTo t))
                   (populate_user w (Some (createdBy t)))
                   (populate_documents w (documents t))).

(** The [dueDate] validator of the task schema:
    [return !date || date > new Date()]. *)
Definition dueDate_validator (now : Z) (date : option Z) : bool :=
  match date with
  | None => true
  | Some d => (now <? d)%Z
  end.

(** The failing paths of a task, with their messages.  [save] validates
    every path of the document, the unmodified ones included. *)
Definition Task_validate (now : Z) (t : Task) : list (string * string) :=
  (if title t =? "" then [("title", "Task title is required")] else []) ++
  (if Nat.ltb 255 (String.length (title t))
   then [("title", "Title must be less than 255 characters")] else []) ++
  (if dueDate_validator now (dueDate t) then []
   else [("dueDate", "Due date must be in the future")]).

Definition upsert_task (t : Task) (l : list Task) : list Task :=
  if existsb (fun x => N.eqb (task_id x) (task_id t)) l
  then map (fun x => if N.eqb (task_id x) (task_id t) then t else x) l
  else l ++ [t].

Definition validation_message (model : string) (errs : list (string * string)) : string :=
  (model ++ " validation failed: " ++
   String.concat ", " (map (fun e => fst e ++ ": " ++ snd e) errs))%string.

(** [task.save()] at time [now]: validation first; a new document is
    inserted, a loaded one is written back under its [_id]. *)
Definition Task_save (now : Z) (t : Task) : Handler unit :=
  match Task_validate now t with
  | [] => modify (set_Tasks (upsert_task t))
  | errs => throw (ValidationError (validation_message "Task" errs))
  end.

Definition TaskDocument_validate (d : TaskDocument) : list (string * string) :=
  (if filename d =? "" then [("filename", "Filename is required")] else []) ++
  (if Nat.ltb 255 (String.length (filename d))
   then [("filename", "Filename must be less than 255 characters")] else []) ++
  (if originalName d =? "" then [("originalName", "Original filename is required")] else []) ++
  (if filePath d =? "" then [("filePath", "File path is required")] else []) ++
  (if Nat.ltb 500 (String.length (filePath d))
   then [("filePath", "File path must be less than 500 characters")] else []) ++
  (if N.ltb (fileSize d) 1 then [("fileSize", "File size must be greater than 0")] else []) ++
  (if mimeType d =? "application/pdf" then []
   else [("mimeType", "Only PDF files are allowed")]).

Definition document_valid (d : TaskDocument) : bool :=
  match TaskDocument_validate d with [] => true | _ => false end.

(** [await Promise.all(docs.map(d => d.save()))]: every save is started;
    the valid documents are stored, and the whole rejects when one of
    them fails validation. *)
Definition TaskDocument_saveAll (docs : list TaskDocument) : Handler (list TaskDocument) :=
  modify (set_TaskDocuments (fun l => l ++ filter document_valid docs)) ;;;
  match find (fun d => negb (document_valid d)) docs with
  | Some d => throw (ValidationError (validation_message "TaskDocument" (TaskDocument_validate d)))
  | None => ret docs
  end.

(** [new Model(...)] draws a fresh [_id]. *)
Definition newObjectId : Handler ObjectId :=
  fun w => (Next (nextId w),
            mkWorld (Users w) (Tasks w) (TaskDocuments w) (uploads w) (outbox w)
                    (N.succ (nextId w))).

(** [req.files.map(file => new TaskDocument({...}))] *)
Fixpoint new_documents (tid uploader : ObjectId) (files : list File)
  : Handler (list TaskDocument) :=
  match files with
  | [] => ret []
  | f :: rest =>
      i <~ newObjectId ;;
      ds <~ new_documents tid uploader rest ;;
      ret (mkTaskDocument i tid (trim (file_filename f)) (trim (file_originalname f))
             (trim (file_path f)) (file_size f) (file_mimetype f) uploader :: ds)
  end.

(** [fs.unlink(path)] *)
Definition fs_unlink (p : string) : Handler unit :=
  fun w =>
    if existsb (String.eqb p) (uploads w)
    then (Next tt, set_uploads (filter (fun q => negb (q =? p))) w)
    else (Thrown ENOENT, w).

(** [fileFilter] and the [limits] of the multer instance. *)
Definition fileFilter (f : File) : bool := file_mimetype f =? "application/pdf".

Definition fileSize_limit : N := 10 * 1024 * 1024.
Definition files_limit : nat := 3.

Fixpoint multer_scan (left : nat) (files : list File) : option Exn :=
  match files with
  | [] => None
  | f :: rest =>
      match left with
      | O => Some (MulterError "LIMIT_FILE_COUNT")
      | S n =>
          if negb (fileFilter f) then Some (Error "Only PDF files are allowed")
          else if N.ltb fileSize_limit (file_size f) then Some (MulterError "LIMIT_FILE_SIZE")
          else multer_scan n rest
      end
  end.

(** [upload.array('documents', 3)]: the accepted files are on disk when
    the handler starts; a refused request leaves none behind. *)
Definition upload_array (files : list File) : Handler unit :=
  match multer_scan files_limit files with
  | Some e => throw e
  | None => modify (set_uploads (fun l => l ++ map file_path files))
  end.

(** [io.to(`user_${key}`).emit(name, { task, ... })] *)
Definition emit (key : Shown) (n : EventName) (t : ObjectId) : Handler unit :=
  modify (set_outbox (fun l => l ++ [mkEvent key n t])).

(** [id.equals(other)] on ObjectIds. *)
Definition equals (a b : ObjectId) : bool := N.eqb a b.

(** ** The validation chains of the routes *)

Definition within (max : nat) (s : string) : bool := Nat.leb (String.length s) max.

Definition optional {A} (check : A -> bool) (field : option A) : bool :=
  match field with None => true | Some v => check v end.

(** The chain of [router.post('/')]: [title] is required. *)
Definition post_validation (body : TaskBody) : bool :=
  match b_title body with
  | Some t => truthy t && within 255 t
  | None => false
  end
  && optional (within 2000) (b_description body)
  && optional isMongoId (b_assignedTo body).

(** The chain of [router.put('/:id')]: every field is optional. *)
Definition put_validation (body : TaskBody) : bool :=
  optional (fun t => truthy t && within 255 t) (b_title body)
  && optional (within 2000) (b_description body)
  && optional isMongoId (b_assignedTo body).

Definition validation_failed : Response := json 400 "Validation failed".

(** ** The route handlers *)

Definition is_null_string (s : IdString) : bool :=
  match s with NotHex "null" => true | _ => false end.

(** A request string stored into an ObjectId path of a document. *)
Definition cast_ObjectId (s : IdString) : Handler ObjectId :=
  match s with
  | HexId i => ret i
  | NotHex _ => throw CastError
  end.

Definition with_documents (t : Task) (ds : list ObjectId) : Task :=
  mkTask (task_id t) (title t) (description t) (status t) (priority t)
         (dueDate t) (assignedTo t) (createdBy t) ds (createdAt t).

Definition or_else {A} (o : option A) (d : A) : A :=
  match o with Some v => v | None => d end.

(** [for (const doc of documents) { try { await fs.unlink(doc.filePath) }
    catch (error) { console.error(...) } }] *)
Fixpoint unlink_all (docs : list TaskDocument) : Handler unit :=
  match docs with
  | [] => ret tt
  | d :: rest =>
      try_catch (fs_unlink (filePath d)) (fun _ => ret tt) ;;;
      unlink_all rest
  end.

(** The block "Validate assigned user exists if provided" of the create
    route: [if (assignedTo) { ... }]. *)
Definition post_check_assignee (body : TaskBody) : Handler unit :=
  match b_assignedTo body with
  | Some a =>
      if truthy_id a then
        assignedUser <~ User_findById_str a ;;
        reply_if (isNone assignedUser) (json 400 "Assigned user not found")
      else ret tt
  | None => ret tt
  end.

(** The same block of the update route:
    [if (assignedTo && assignedTo !== 'null') { ... }]. *)
Definition put_check_assignee (body : TaskBody) : Handler unit :=
  match b_assignedTo body with
  | Some a =>
      if truthy_id a && negb (is_null_string a) then
        assignedUser <~ User_findById_str a ;;
        reply_if (isNone assignedUser) (json 400 "Assigned user not found")
      else ret tt
  | None => ret tt
  end.

(** [new Task({ title, description, status: status || 'pending', ...,
    assignedTo: assignedTo || null, createdBy: req.user._id })] *)
Definition new_task (now : Z) (user : User) (body : TaskBody) : Handler Task :=
  i <~ newObjectId ;;
  assignee <~ match b_assignedTo body with
              | Some a => if truthy_id a
                          then (j <~ cast_ObjectId a ;; ret (Some j))
                          else ret None
              | None => ret None
              end ;;
  ret (mkTask i
         (trim (or_else (b_title body) ""))
         (trim (or_else (b_description body) ""))
         (or_else (b_status body) pending)
         (or_else (b_priority body) medium)
         (b_dueDate body)
         assignee
         (user_id user)
         []
         now).

(** The block "Update task fields": [if (f !== undefined) task.f = f]
    for the six fields the route reads from the payload. *)
Definition update_fields (body : TaskBody) (task : Task) : Handler Task :=
  assignee <~ match b_assignedTo body with
              | None => ret (assignedTo task)
              | Some a => if is_null_string a then ret None
                          else (j <~ cast_ObjectId a ;; ret (Some j))
              end ;;
  ret (mkTask (task_id task)
         (match b_title body with Some t => trim t | None => title task end)
         (match b_description body with Some d => trim d | None => description task end)
         (or_else (b_status body) (status task))
         (or_else (b_priority body) (priority task))
         (match b_dueDate body with Some d => Some d | None => dueDate task end)
         assignee
         (createdBy task)
         (documents task)
         (createdAt task)).

(** The block "Handle file uploads" of the create route. *)
Definition post_attach (now : Z) (user : User) (task : Task) (files : list File)
  : Handler Task :=
  match files with
  | [] => ret task
  | _ :: _ =>
      docs <~ new_documents (task_id task) (user_id user) files ;;
      saved <~ TaskDocument_saveAll docs ;;
      let task := with_documents task (map doc_id saved) in
      Task_save now task ;;;
      ret task
  end.

(** The block "Handle new file uploads" of the update route. *)
Definition put_attach (now : Z) (user : User) (task : Task) (files : list File)
  : Handler Task :=
  match files with
  | [] => ret task
  | _ :: _ =>
      currentDocCount <~ TaskDocument_countDocuments (task_id task) ;;
      reply_if (Nat.ltb 3 (currentDocCount + List.length files))
        (json 400 "Maximum 3 documents allowed per task") ;;;
      docs <~ new_documents (task_id task) (user_id user) files ;;
      newDocuments <~ TaskDocument_saveAll docs ;;
      let task := with_documents task (documents task ++ map doc_id newDocuments) in
      Task_save now task ;;;
      ret task
  end.

(** The block "Emit real-time event" of the create route:
    [if (assignedTo && assignedTo !== req.user._id.toString())].  A
    non-empty string that is no ObjectId does not get here: the save of
    the task has failed on it. *)
Definition post_notify (user : User) (body : TaskBody) (task : Task) : Handler unit :=
  match b_assignedTo body with
  | Some (HexId j) =>
      if negb (N.eqb j (user_id user))
      then emit (HexOf j) taskAssigned (task_id task)
      else ret tt
  | _ => ret tt
  end.

(** The permission check of the update route. *)
Definition update_denied (user : User) (task : Task) : bool :=
  negb (is_admin (role user))
  && negb (equals (createdBy task) (user_id user))
  && match assignedTo task with
     | None => true
     | Some a => negb (equals a (user_id user))
     end.

Section Routes.

(** [Document.prototype.toString] of a populated user belongs to the
    database driver; the routes are read for any such rendering. *)
Variable docToString : PopulatedUser -> Shown.

(** [router.get('/:id')] *)
Definition get_task (user : User) (id : ObjectId) : Handler Response :=
  found <~ Task_findById id ;;
  match found with
  | None => reply (json 404 "Task not found")
  | Some t =>
      task <~ populate t ;;
      denied <~
        (if negb (is_admin (role user)) then
           if negb (match p_assignedTo task with
                    | Some a => equals (pu_id a) (user_id user)
                    | None => false
                    end)
           then match p_createdBy task with
                | Some c => ret (negb (equals (pu_id c) (user_id user)))
                | None => throw (TypeError "Cannot read properties of null (reading 'equals')")
                end
           else ret false
         else ret false) ;;
      reply_if denied
        (json 403 "Access denied. You can only view tasks assigned to you or created by you.") ;;;
      ret (mkResponse 200 "" (OneTask task))
  end.

(** [router.post('/')] *)
Definition post_task (now : Z) (user : User) (body : TaskBody) (files : list File)
  : Handler Response :=
  reply_if (negb (post_validation body)) validation_failed ;;;
  post_check_assignee body ;;;
  try_catch
    (task <~ new_task now user body ;;
     Task_save now task ;;;
     task <~ post_attach now user task files ;;
     populated <~ populate task ;;
     post_notify user body task ;;;
     ret (mkResponse 201 "Task created successfully" (OneTask populated)))
    (fun _ => ret (json 500 "Error creating task")).

(** The block "Emit real-time events" of the update route.
    [oldAssignedTo] was read from the unpopulated task, [newAssignedTo]
    is read after [populate]. *)
Definition put_notify (oldAssignedTo : option Shown) (task : PopulatedTask)
  : Handler unit :=
  let newAssignedTo := option_map docToString (p_assignedTo task) in
  match newAssignedTo with
  | Some key =>
      if negb (match oldAssignedTo with
               | Some old => Shown_eqb key old
               | None => false
               end)
      then emit key taskAssigned (task_id (raw task))
      else ret tt
  | None => ret tt
  end ;;;
  match newAssignedTo with
  | Some key => emit key taskUpdated (task_id (raw task))
  | None => ret tt
  end.

(** [router.put('/:id')] *)
Definition put_task (now : Z) (user : User) (id : ObjectId) (body : TaskBody)
           (files : list File) : Handler Response :=
  reply_if (negb (put_validation body)) validation_failed ;;;
  found <~ Task_findById id ;;
  match found with
  | None => reply (json 404 "Task not found")
  | Some task =>
      reply_if (update_denied user task)
        (json 403 "Access denied. Only admins, task creators, and assigned users can update tasks.") ;;;
      let oldAssignedTo := option_map HexOf (assignedTo task) in
      put_check_assignee body ;;;
      try_catch
        (task <~ update_fields body task ;;
         Task_save now task ;;;
         task <~ put_attach now user task files ;;
         populated <~ populate task ;;
         put_notify oldAssignedTo populated ;;;
         ret (mkResponse 200 "Task updated successfully" (OneTask populated)))
        (fun _ => ret (json 500 "Error updating task"))
  end.

(** [router.delete('/:id')] of the task routes *)
Definition delete_task (user : User) (id : ObjectId) : Handler Response :=
  found <~ Task_findById id ;;
  match found with
  | None => reply (json 404 "Task not found")
  | Some task =>
      reply_if (negb (is_admin (role user))
                && negb (equals (createdBy task) (user_id user)))
        (json 403 "Access denied. Only task creators and admins can delete tasks.") ;;;
      try_catch
        (docs <~ TaskDocument_find (task_id task) ;;
         unlink_all docs ;;;
         TaskDocument_deleteMany (task_id task) ;;;
         Task_findByIdAndDelete id ;;;
         ret (json 200 "Task deleted successfully"))
        (fun _ => ret (json 500 "Error deleting task"))
  end.

(** [router.delete('/:id/documents/:documentId')] *)
Definition delete_document (now : Z) (user : User) (id documentId : ObjectId)
  : Handler Response :=
  found <~ Task_findById id ;;
  match found with
  | None => reply (json 404 "Task not found")
  | Some task =>
      d <~ TaskDocument_findOne documentId id ;;
      match d with
      | None => reply (json 404 "Document not found")
      | Some document =>
          reply_if (negb (is_admin (role user))
                    && negb (equals (createdBy task) (user_id user))
                    && negb (equals (uploadedBy document) (user_id user)))
            (json 403 "Access denied. You can only delete documents you uploaded or from tasks you created.") ;;;
          try_catch
            (try_catch (fs_unlink (filePath document)) (fun _ => ret tt) ;;;
             let task := with_documents task
                           (filter (fun docId => negb (equals docId (doc_id document)))
                                   (documents task)) in
             Task_save now task ;;;
             TaskDocument_findByIdAndDelete (doc_id document) ;;;
             ret (json 200 "Document deleted successfully"))
            (fun _ => ret (json 500 "Error deleting document"))
      end
  end.

(** Modelled from the spec: [middleware/auth.js] is not among the
    sources.  The spec gives a Principal the roles [user] and [admin];
    the route is documented "Delete user (Admin only)" and the
    integration test "should not allow regular user to delete users"
    expects 403: [adminAuth] answers a Principal that is no admin with
    403 and lets an admin through. *)
Definition adminAuth (user : User) : Handler unit :=
  reply_if (negb (is_admin (role user)))
    (json 403 "Access denied. Admin privileges required.").

(** [router.delete('/:id')] of the user routes, behind [adminAuth] *)
Definition delete_user (user : User) (id : ObjectId) : Handler Response :=
  adminAuth user ;;;
  reply_if (equals (user_id user) id) (json 400 "You cannot delete your own account") ;;;
  found <~ User_findById id ;;
  match found with
  | None => reply (json 404 "User not found")
  | Some _ =>
      try_catch
        (User_findByIdAndDelete id ;;;
         ret (json 200 "User deleted successfully"))
        (fun _ => ret (json 500 "Error deleting user"))
  end.

(** The routes as mounted: middleware first, then the handler under
    [asyncHandler]. *)
Definition GET_task (user : User) (id : ObjectId) :=
  asyncHandler (get_task user id).
Definition POST_task (now : Z) (user : User) (body : TaskBody) (files : list File) :=
  asyncHandler (upload_array files ;;; post_task now user body files).
Definition PUT_task (now : Z) (user : User) (id : ObjectId) (body : TaskBody)
           (files : list File) :=
  asyncHandler (upload_array files ;;; put_task now user id body files).
Definition DELETE_task (user : User) (id : ObjectId) :=
  asyncHandler (delete_task user id).
Definition DELETE_document (now : Z) (user : User) (id documentId : ObjectId) :=
  asyncHandler (delete_document now user id documentId).
Definition DELETE_user (user : User) (id : ObjectId) :=
  asyncHandler (delete_user user id).

End Routes.

(** ** The list route *)

(** A date found in the query string: [new Date(s)] is a date or
    [Invalid Date]. *)
Inductive DateString :=
| ValidDate (ms : Z)
| InvalidDate (s : string).

Definition truthy_date (s : DateString) : bool :=
  match s with ValidDate _ => true | InvalidDate s => truthy s end.

Definition isValidDate (s : DateString) : bool :=
  match s with ValidDate _ => true | InvalidDate _ => false end.

(** [req.query] of [router.get('/')].  [q_page] and [q_limit] hold the
    result of [parseInt] on a parameter that was sent. *)
Record ListQuery := mkListQuery {
  q_page : option Z;
  q_limit : option Z;
  q_search : option string;
  q_status : option string;
  q_priority : option string;
  q_assignedTo : option IdString;
  q_createdBy : option IdString;
  q_dueDateFrom : option DateString;
  q_dueDateTo : option DateString;
  q_sortBy : option string;
  q_sortOrder : option string
}.

(** The query object the route builds, key by key. *)
Record Filter := mkFilter {
  f_or : option ObjectId;
  f_and : option string;
  f_status : option string;
  f_priority : option string;
  f_assignedTo : option IdString;
  f_createdBy : option IdString;
  f_dueDate : option (option DateString * option DateString)
}.

Definition if_truthy {A} (t : A -> bool) (o : option A) : option A :=
  match o with
  | Some v => if t v then Some v else None
  | None => None
  end.

Definition build_query (user : User) (q : ListQuery) : Filter :=
  mkFilter
    (if negb (is_admin (role user)) then Some (user_id user) else None)
    (if_truthy truthy (q_search q))
    (if_truthy truthy (q_status q))
    (if_truthy truthy (q_priority q))
    (if_truthy truthy_id (q_assignedTo q))
    (if_truthy truthy_id (q_createdBy q))
    (match if_truthy truthy_date (q_dueDateFrom q), if_truthy truthy_date (q_dueDateTo q) with
     | None, None => None
     | from, to => Some (from, to)
     end).

(** The query casts when its identifiers and dates do. *)
Definition filter_casts (f : Filter) : bool :=
  optional isMongoId (f_assignedTo f)
  && optional isMongoId (f_createdBy f)
  && match f_dueDate f with
     | Some (from, to) => optional isValidDate from && optional isValidDate to
     | None => true
     end.

Definition id_is (s : IdString) (i : option ObjectId) : bool :=
  match s, i with
  | HexId j, Some k => N.eqb j k
  | _, _ => false
  end.

Definition date_bound (cmp : Z -> Z -> bool) (bound : option DateString) (d : Z) : bool :=
  match bound with
  | Some (ValidDate b) => cmp b d
  | Some (InvalidDate _) => false
  | None => true
  end.

(** The keys of the query but [$or]. *)
Definition matches_requested (re : string -> bool) (f : Filter) (t : Task) : bool :=
  optional (fun _ => re (title t) || re (description t)) (f_and f)
  && optional (fun s => status_name (status t) =? s) (f_status f)
  && optional (fun s => priority_name (priority t) =? s) (f_priority f)
  && optional (fun s => id_is s (assignedTo t)) (f_assignedTo f)
  && optional (fun s => id_is s (Some (createdBy t))) (f_createdBy f)
  && optional (fun range =>
                 match dueDate t with
                 | Some d => date_bound Z.leb (fst range) d
                             && date_bound Z.geb (snd range) d
                 | None => false
                 end) (f_dueDate f).

(** [$or: [{ assignedTo: u }, { createdBy: u }]] *)
Definition matches_or (u : ObjectId) (t : Task) : bool :=
  match assignedTo t with Some a => N.eqb a u | None => false end
  || N.eqb (createdBy t) u.

Definition matches (re : string -> bool) (f : Filter) (t : Task) : bool :=
  optional (fun u => matches_or u t) (f_or f) && matches_requested re f t.

(** [cursor.skip(skip).limit(limit)]: a negative skip is refused, a limit
    of zero is no limit, a negative limit counts as its absolute value. *)
Definition cursor_page {A} (skip limit : Z) (l : list A) : option (list A) :=
  if (skip <? 0)%Z then None
  else let rest := skipn (Z.to_nat skip) l in
       Some (if (limit =? 0)%Z then rest else firstn (Z.to_nat (Z.abs limit)) rest).

Fixpoint populate_all (ts : list Task) : Handler (list PopulatedTask) :=
  match ts with
  | [] => ret []
  | t :: rest =>
      p <~ populate t ;;
      ps <~ populate_all rest ;;
      ret (p :: ps)
  end.

Section Listing.

(** The regular expressions and the sort order are the database's:
    [regex pattern] is the case-insensitive matcher of a pattern the
    database accepts, and [sort field ascending] reorders a result. *)
Variable regex : string -> option (string -> bool).
Variable sort : string -> bool -> list Task -> list Task.

Definition compile_search (f : Filter) : Handler (string -> bool) :=
  match f_and f with
  | Some pattern =>
      match regex pattern with
      | Some re => ret re
      | None => throw (Error "Regular expression is invalid")
      end
  | None => ret (fun _ => true)
  end.

(** [Task.find(query)] and [Task.countDocuments(query)] *)
Definition Task_find (f : Filter) : Handler (list Task) :=
  if filter_casts f
  then re <~ compile_search f ;; gets (fun w => filter (matches re f) (Tasks w))
  else throw CastError.

(** [router.get('/')] *)
Definition get_tasks (user : User) (q : ListQuery) : Handler Response :=
  let pageNum := or_else (q_page q) 1%Z in
  let limitNum := or_else (q_limit q) 10%Z in
  let skip := ((pageNum - 1) * limitNum)%Z in
  let query := build_query user q in
  let sortBy := or_else (q_sortBy q) "createdAt" in
  let ascending := match q_sortOrder q with Some "asc" => true | _ => false end in
  try_catch
    (found <~ Task_find query ;;
     tasks <~ match cursor_page skip limitNum (sort sortBy ascending found) with
              | Some page => populate_all page
              | None => throw (Error "Skip value must be non-negative")
              end ;;
     counted <~ Task_find query ;;
     ret (mkResponse 200 "" (TaskPage tasks pageNum (List.length counted))))
    (fun _ => ret (json 500 "Error fetching tasks")).

Definition GET_tasks (user : User) (q : ListQuery) :=
  asyncHandler (get_tasks user q).

End Listing.

(** [populate] as a function of the world. *)
Definition populated (w : World) (t : Task) : PopulatedTask :=
  mkPopulatedTask t
    (populate_user w (assignedTo t))
    (populate_user w (Some (createdBy t)))
    (populate_documents w (documents t)).

(** ** The rule set in the words of the specification *)

Definition canView (P : User) (T : Task) : Prop :=
  role P = RoleAdmin \/ createdBy T = user_id P \/ assignedTo T = Some (user_id P).

Definition canDelete (P : User) (T : Task) : Prop :=
  role P = RoleAdmin \/ createdBy T = user_id P.

Definition canRemoveDocument (P : User) (T : Task) (D : TaskDocument) : Prop :=
  role P = RoleAdmin \/ createdBy T = user_id P \/ uploadedBy D = user_id P.

Definition existing_task (w : World) (id : ObjectId) (T : Task) : Prop :=
  find_by task_id id (Tasks w) = Some T.

Definition access_denied (r : Response) : Prop := statusCode r = 403.

(** The answers of the single-task read. *)
Definition viewed (task : Task) (w : World) : Response :=
  mkResponse 200 "" (OneTask (mkPopulatedTask task
                                (populate_user w (assignedTo task))
                                (populate_user w (Some (createdBy task)))
                                (populate_documents w (documents task)))).

Definition view_denied : Response :=
  json 403 "Access denied. You can only view tasks assigned to you or created by you.".

(** The files that remain after the best-effort removal of the blobs of [docs]. *)
Definition unlinked (docs : list TaskDocument) (ups : list string) : list string :=
  fold_left (fun u d => filter (fun q => negb (q =? filePath d)) u) docs ups.


(** ** The server as a transition system *)

Inductive Request :=
| ListTasks (P : User) (q : ListQuery)
| GetTask (P : User) (id : ObjectId)
| CreateTask (now : Z) (P : User) (body : TaskBody) (files : list File)
| UpdateTask (now : Z) (P : User) (id : ObjectId) (body : TaskBody) (files : list File)
| DeleteTask (P : User) (id : ObjectId)
| DeleteDocument (now : Z) (P : User) (id documentId : ObjectId)
| DeleteUser (P : User) (id : ObjectId).

Section Server.

Variable regex : string -> option (string -> bool).
Variable sort : string -> bool -> list Task -> list Task.
Variable docToString : PopulatedUser -> Shown.

Definition serve (r : Request) (w : World) : Response * World :=
  match r with
  | ListTasks P q => GET_tasks regex sort P q w
  | GetTask P id => GET_task P id w
  | CreateTask now P body files => POST_task now P body files w
  | UpdateTask now P id body files => PUT_task docToString now P id body files w
  | DeleteTask P id => DELETE_task P id w
  | DeleteDocument now P id documentId => DELETE_document now P id documentId w
  | DeleteUser P id => DELETE_user P id w
  end.

(** The world after a sequence of requests, served one after the other. *)
Definition run (rs : list Request) (w : World) : World :=
  fold_left (fun w r => snd (serve r w)) rs w.

End Server.

(** A database with accounts and nothing else. *)
Definition initial (accounts : list User) : World :=
  mkWorld accounts [] [] [] [] 0%N.

Definition count_documents (w : World) (tid : ObjectId) : nat :=
  List.length (filter (belongs_to tid) (TaskDocuments w)).

(** What the collections satisfy between two requests: identifiers come
    from the generator, a task lists each of its documents once, every
    listed document is a stored document of that task, and no task has
    more than three stored documents. *)
Record Consistent (w : World) : Prop := {
  task_ids_known : forall T, In T (Tasks w) -> (task_id T < nextId w)%N;
  doc_ids_known : forall D, In D (TaskDocuments w) ->
                    (doc_id D < nextId w)%N /\ (taskId D < nextId w)%N;
  doc_ids_unique : NoDup (map doc_id (TaskDocuments w));
  documents_listed_once : forall T, In T (Tasks w) -> NoDup (documents T);
  documents_stored : forall T d, In T (Tasks w) -> In d (documents T) ->
                       exists D, In D (TaskDocuments w)
                                 /\ doc_id D = d /\ taskId D = task_id T;
  documents_capped : forall tid, count_documents w tid <= 3
}.

(** [new_documents] as a function of the first free identifier. *)
Fixpoint fresh_documents (tid uploader : ObjectId) (first : ObjectId) (files : list File)
  : list TaskDocument :=
  match files with
  | [] => []
  | f :: rest =>
      mkTaskDocument first tid (trim (file_filename f)) (trim (file_originalname f))
        (trim (file_path f)) (file_size f) (file_mimetype f) uploader
      :: fresh_documents tid uploader (N.succ first) rest
  end.

Definition bump (n : nat) (w : World) : World :=
  mkWorld (Users w) (Tasks w) (TaskDocuments w) (uploads w) (outbox w)
          (nextId w + N.of_nat n)%N.

Definition task_valid (now : Z) (t : Task) : bool :=
  match Task_validate now t with [] => true | _ => false end.

(** ** The routes in direct style

    The pieces out of which the unfolding equations of the create, update
    and document-removal routes are stated. *)

(** The assignee named by a validated payload, when no such user is stored. *)
Definition assignee_missing (w : World) (body : TaskBody) : bool :=
  match b_assignedTo body with
  | Some (HexId i) => isNone (find_by user_id i (Users w))
  | _ => false
  end.

(** The task after the block "Update task fields", for a validated payload. *)
Definition edit (body : TaskBody) (task : Task) : Task :=
  mkTask (task_id task)
    (match b_title body with Some t => trim t | None => title task end)
    (match b_description body with Some d => trim d | None => description task end)
    (or_else (b_status body) (status task))
    (or_else (b_priority body) (priority task))
    (match b_dueDate body with Some d => Some d | None => dueDate task end)
    (match b_assignedTo body with Some (HexId j) => Some j | _ => assignedTo task end)
    (createdBy task)
    (documents task)
    (createdAt task).

(** The task a validated create request builds under the identifier [i]. *)
Definition created (now : Z) (user : User) (body : TaskBody) (i : ObjectId) : Task :=
  mkTask i
    (trim (or_else (b_title body) ""))
    (trim (or_else (b_description body) ""))
    (or_else (b_status body) pending)
    (or_else (b_priority body) medium)
    (b_dueDate body)
    (match b_assignedTo body with Some (HexId j) => Some j | _ => None end)
    (user_id user)
    []
    now.

(** The events of the block "Emit real-time events" of the update route. *)
Definition update_events (docToString : PopulatedUser -> Shown)
           (old : option ObjectId) (task : PopulatedTask) : list Event :=
  match p_assignedTo task with
  | Some a =>
      (if match old with
          | Some o => Shown_eqb (docToString a) (HexOf o)
          | None => false
          end
       then []
       else [mkEvent (docToString a) taskAssigned (task_id (raw task))])
      ++ [mkEvent (docToString a) taskUpdated (task_id (raw task))]
  | None => []
  end.

(** The event of the block "Emit real-time event" of the create route. *)
Definition create_events (user : User) (body : TaskBody) (task : Task) : list Event :=
  match b_assignedTo body with
  | Some (HexId j) =>
      if N.eqb j (user_id user) then [] else [mkEvent (HexOf j) taskAssigned (task_id task)]
  | _ => []
  end.

(** The end of a successful update: populate, emit, answer 200. *)
Definition updated (docToString : PopulatedUser -> Shown) (old : option ObjectId)
           (task : Task) (w : World) : Response * World :=
  (mkResponse 200 "Task updated successfully" (OneTask (populated w task)),
   set_outbox (fun l => l ++ update_events docToString old (populated w task)) w).

Definition add_documents (docs : list TaskDocument) (w : World) : World :=
  set_TaskDocuments (fun l => l ++ filter document_valid docs) w.

Definition store_uploads (files : list File) (w : World) : World :=
  set_uploads (fun l => l ++ map file_path files) w.

Definition update_forbidden : Response :=
  json 403 "Access denied. Only admins, task creators, and assigned users can update tasks.".

Definition limit_exceeded : Response :=
  json 400 "Maximum 3 documents allowed per task".

Definition removal_forbidden : Response :=
  json 403 "Access denied. You can only delete documents you uploaded or from tasks you created.".

Definition existing_document (w : World) (id documentId : ObjectId) (D : TaskDocument) : Prop :=
  find (fun d => N.eqb (doc_id d) documentId && belongs_to id d) (TaskDocuments w) = Some D.

(** The task without the document [D] in its list. *)
Definition without_document (D : TaskDocument) (T : Task) : Task :=
  with_documents T (filter (fun docId => negb (equals docId (doc_id D))) (documents T)).

(** The end of a successful creation: populate, emit, answer 201. *)
Definition posted (user : User) (body : TaskBody) (task : Task) (w : World)
  : Response * World :=
  (mkResponse 201 "Task created successfully" (OneTask (populated w task)),
   set_outbox (fun l => l ++ create_events user body task) w).

(** A task that may be saved into [w]: its identifier was generated, it
    lists each document once, and each is a stored document of the task. *)
Definition good_task (w : World) (t : Task) : Prop :=
  (task_id t < nextId w)%N
  /\ NoDup (documents t)
  /\ forall d, In d (documents t) ->
       exists D, In D (TaskDocuments w) /\ doc_id D = d /\ taskId D = task_id t.

(** No request has changed the creator of a task of [w0]: the generator
    has only advanced, and a task that [w] finds under an identifier
    generated before [w0] is a task of [w0] with the same creator. *)
Definition same_creators (w0 w : World) : Prop :=
  (nextId w0 <= nextId w)%N
  /\ forall i T', (i < nextId w0)%N -> find_by task_id i (Tasks w) = Some T' ->
       exists T, find_by task_id i (Tasks w0) = Some T /\ createdBy T' = createdBy T.

(** The payload [body] with the field [createdBy] set by the client. *)
Definition with_createdBy (body : TaskBody) (c : option IdString) : TaskBody :=
  mkTaskBody (b_title body) (b_description body) (b_status body) (b_priority body)
             (b_dueDate body) (b_assignedTo body) c.

(** The two readings of [Document.prototype.toString] on a populated
    user: the rendering of the whole document (what the driver prints),
    and the bare identifier. *)
Definition inspectOf (u : PopulatedUser) : Shown := InspectOf (pu_id u) (pu_email u).
Definition hexOf (u : PopulatedUser) : Shown := HexOf (pu_id u).

(** ** A small world to run the routes on *)

Module Sample.

Local Open Scope N_scope.

Definition alice : User := mkUser 1 "alice@example.com" RoleAdmin.
Definition bob : User := mkUser 2 "bob@example.com" RoleUser.
Definition carol : User := mkUser 3 "carol@example.com" RoleUser.
Definition dave : User := mkUser 4 "dave@example.com" RoleUser.

Definition now : Z := 1000%Z.

(** Created by bob, assigned to carol, due after [now], one document
    uploaded by carol. *)
Definition report : Task :=
  mkTask 10 "Write report" "" pending medium (Some 2000%Z) (Some 3) 2 [20] 500%Z.

Definition report_pdf : TaskDocument :=
  mkTaskDocument 20 10 "documents-1.pdf" "report.pdf"
    "uploads/tasks/documents-1.pdf" 42 "application/pdf" 3.

(** Created by bob, assigned to nobody, without a due date. *)
Definition notes : Task :=
  mkTask 11 "Take notes" "" pending low None None 2 [] 600%Z.

(** Created by bob, assigned to carol, due before [now]. *)
Definition taxes : Task :=
  mkTask 12 "File taxes" "" pending high (Some 900%Z) (Some 3) 2 [] 100%Z.

Definition world : World :=
  mkWorld [alice; bob; carol; dave] [report; notes; taxes] [report_pdf]
    ["uploads/tasks/documents-1.pdf"] [] 100.

Definition mark_completed : TaskBody :=
  mkTaskBody None None (Some completed) None None None None.

Definition assign_to (u : User) : TaskBody :=
  mkTaskBody None None None None None (Some (HexId (user_id u))) None.


Definition titled (t : string) (assignee : option User) (creator : option IdString)
  : TaskBody :=
  mkTaskBody (Some t) None None None None
    (match assignee with Some u => Some (HexId (user_id u)) | None => None end)
    creator.

Definition empty_body : TaskBody := mkTaskBody None None None None None None None.

Definition pdf (n : string) : File :=
  mkFile n "notes.pdf" ("uploads/tasks/" ++ n)%string 7 "application/pdf".

(** The world after the admin alice has deleted the account of bob,
    the creator of [report]. *)
Definition world_without_bob : World :=
  snd (DELETE_user alice (user_id bob) world).

Definition all_tasks : ListQuery :=
  mkListQuery None None None None None None None None None None None.

Definition no_regex (pattern : string) : option (string -> bool) := None.

Definition unsorted (field : string) (ascending : bool) (l : list Task) : list Task := l.

(** carol creates a task with two files, then bob, its assignee, sends
    an update with two more. *)
Definition two_then_two : list Request :=
  [CreateTask now carol
     (mkTaskBody (Some "Plan") None None None None (Some (HexId (user_id bob))) None)
     [pdf "a.pdf"; pdf "b.pdf"];
   UpdateTask now bob 0 empty_body [pdf "c.pdf"; pdf "d.pdf"]].

End Sample.

(** ** Further code of the models and routes *)

(** The virtual [isOverdue] of the task schema:
    [this.dueDate && this.dueDate < new Date() && this.status !== 'completed'],
    read for its truthiness. *)
Definition isOverdue (now : Z) (t : Task) : bool :=
  match dueDate t with
  | Some d => (d <? now)%Z && negb (status_name (status t) =? "completed")
  | None => false
  end.

(** The update rule in the words of the route's comment: "Allow admins,
    task creators, and assigned users to update". *)
Definition canUpdate (P : User) (T : Task) : Prop :=
  role P = RoleAdmin \/ createdBy T = user_id P \/ assignedTo T = Some (user_id P).

(** What a document route sends: a JSON answer, or the file at [path]
    with the headers the route sets before [res.sendFile]. *)
Inductive Served :=
| Json (r : Response)
| SentFile (disposition : string) (contentType : string) (contentLength : N) (path : string).

(** [asyncHandler] around a handler that ends in [res.sendFile]. *)
Definition asyncServe (h : Handler Served) (w : World) : Served * World :=
  match h w with
  | (Next s, w') => (s, w')
  | (Sent r, w') => (Json r, w')
  | (Thrown e, w') => (Json (errorHandler e), w')
  end.

(** [fs.access(path)] *)
Definition fs_access (p : string) : Handler unit :=
  fun w => if existsb (String.eqb p) (uploads w) then (Next tt, w) else (Thrown ENOENT, w).

(** The check "user has access to this task" of the two document
    routes, on the unpopulated task:
    [role !== 'admin' && !task.assignedTo?.equals(id) && !task.createdBy.equals(id)]. *)
Definition access_refused (user : User) (task : Task) : bool :=
  negb (is_admin (role user))
  && negb (match assignedTo task with
           | Some a => equals a (user_id user)
           | None => false
           end)
  && negb (equals (createdBy task) (user_id user)).

(** The double quote around the file name in [Content-Disposition]. *)
Definition dquote : string := String (ascii_of_nat 34) EmptyString.

(** The common end of the two document routes: find the document of the
    task, check that the file exists, set the headers, send the file. *)
Definition send_document (kind : string) (id documentId : ObjectId) : Handler Served :=
  d <~ TaskDocument_findOne documentId id ;;
  match d with
  | None => reply (json 404 "Document not found")
  | Some document =>
      try_catch
        (fs_access (filePath document) ;;;
         ret (SentFile (kind ++ "; filename=" ++ dquote ++ originalName document ++ dquote)%string
                (mimeType document) (fileSize document) (filePath document)))
        (fun error =>
           match error with
           | ENOENT => reply (json 404 "File not found on server")
           | _ => throw error
           end)
  end.

(** [router.get('/:id/documents/:documentId/download')] *)
Definition download_document (user : User) (id documentId : ObjectId) : Handler Served :=
  found <~ Task_findById id ;;
  match found with
  | None => reply (json 404 "Task not found")
  | Some task =>
      reply_if (access_refused user task)
        (json 403 "Access denied. You can only download documents from tasks assigned to you or created by you.") ;;;
      send_document "attachment" id documentId
  end.

Definition GET_download (user : User) (id documentId : ObjectId) :=
  asyncServe (download_document user id documentId).

(** [s.replace(pattern, replacement)] with a string pattern: the first
    occurrence only. *)
Fixpoint replace_first (pattern replacement s : string) : string :=
  if String.prefix pattern s
  then (replacement
        ++ String.substring (String.length pattern)
             (String.length s - String.length pattern) s)%string
  else match s with
       | EmptyString => EmptyString
       | String c rest => String c (replace_first pattern replacement rest)
       end.

(** [a || b] on two optional strings. *)
Definition or_string (a b : option string) : option string :=
  match a with
  | Some s => if truthy s then Some s else b
  | None => b
  end.

Section ViewRoute.

(** [jwt.verify(token, process.env.JWT_SECRET)]: [None] when it throws,
    else [decoded.id || decoded._id] of the payload, when it has one. *)
Variable jwt_verify : string -> option (option IdString).

(** The block "Verify and decode token" of the view route, with its
    [try]/[catch]. *)
Definition token_user (token : string) : Handler User :=
  try_catch
    (match jwt_verify token with
     | None => throw (Error "invalid token")
     | Some decoded =>
         found <~ match decoded with
                  | Some s => User_findById_str s
                  | None => ret None
                  end ;;
         match found with
         | Some user => ret user
         | None => reply (json 401 "Invalid token. User not found.")
         end
     end)
    (fun _ => reply (json 401 "Invalid token.")).

(** [router.get('/:id/documents/:documentId/view')]: the token comes from
    the [Authorization] header or from the query string. *)
Definition view_document (authorization query_token : option string)
           (id documentId : ObjectId) : Handler Served :=
  let token := or_string (option_map (replace_first "Bearer " "") authorization) query_token in
  match token with
  | Some tok =>
      if truthy tok then
        user <~ token_user tok ;;
        found <~ Task_findById id ;;
        match found with
        | None => reply (json 404 "Task not found")
        | Some task =>
            reply_if (access_refused user task)
              (json 403 "Access denied. You can only view documents from tasks assigned to you or created by you.") ;;;
            send_document "inline" id documentId
        end
      else reply (json 401 "Authentication required")
  | None => reply (json 401 "Authentication required")
  end.

Definition GET_view (authorization query_token : option string) (id documentId : ObjectId) :=
  asyncServe (view_document authorization query_token id documentId).

End ViewRoute.

(** What the profile route sends: a JSON answer without data, or the
    user document (selected without its password). *)
Inductive ProfileAnswer :=
| Refused (r : Response)
| Profile (u : User).

(** [router.get('/:id')] of the user routes *)
Definition get_user (user : User) (id : ObjectId) : Handler ProfileAnswer :=
  reply_if (negb (is_admin (role user)) && negb (equals (user_id user) id))
    (json 403 "Access denied. You can only view your own profile.") ;;;
  found <~ User_findById id ;;
  match found with
  | None => reply (json 404 "User not found")
  | Some u => ret (Profile u)
  end.

Definition GET_user (user : User) (id : ObjectId) (w : World) : ProfileAnswer * World :=
  match get_user user id w with
  | (Next a, w') => (a, w')
  | (Sent r, w') => (Refused r, w')
  | (Thrown e, w') => (Refused (errorHandler e), w')
  end.

(** The status a client sees, and the file it receives, if any. *)
Definition status_of (s : Served) : nat :=
  match s with
  | Json r => statusCode r
  | SentFile _ _ _ _ => 200
  end.

Definition file_of (s : Served) : option (string * N * string) :=
  match s with
  | Json _ => None
  | SentFile _ contentType contentLength path => Some (contentType, contentLength, path)
  end.

Definition download_refused : Served :=
  Json (json 403 "Access denied. You can only download documents from tasks assigned to you or created by you.").

Definition content_disposition (kind : string) (D : TaskDocument) : string :=
  (kind ++ "; filename=" ++ dquote ++ originalName D ++ dquote)%string.

(** ** More sample data *)

Module Demo.

Local Open Scope N_scope.

(** [taxes] of the sample world with one document, uploaded by carol. *)
Definition taxes_with_form : Task :=
  mkTask 12 "File taxes" "" pending high (Some 900%Z) (Some 3) 2 [21] 100%Z.

Definition form_pdf : TaskDocument :=
  mkTaskDocument 21 12 "documents-2.pdf" "form.pdf"
    "uploads/tasks/documents-2.pdf" 99 "application/pdf" 3.

Definition world : World :=
  mkWorld [Sample.alice; Sample.bob; Sample.carol; Sample.dave]
    [Sample.report; Sample.notes; taxes_with_form]
    [Sample.report_pdf; form_pdf]
    ["uploads/tasks/documents-1.pdf"; "uploads/tasks/documents-2.pdf"] [] 100.

(** The sample world after the file of the report was lost. *)
Definition world_without_file : World :=
  mkWorld (Users Sample.world) (Tasks Sample.world) (TaskDocuments Sample.world)
    [] [] 100.

(** A token service that knows one token per sample user. *)
Definition tokens (t : string) : option (option IdString) :=
  if (t =? "alice-token")%string then Some (Some (HexId 1))
  else if (t =? "carol-token")%string then Some (Some (HexId 3))
  else if (t =? "dave-token")%string then Some (Some (HexId 4))
  else if (t =? "ghost-token")%string then Some (Some (HexId 77))
  else if (t =? "empty-token")%string then Some None
  else None.

Definition empty_pdf (n : string) : File :=
  mkFile n "empty.pdf" ("uploads/tasks/" ++ n)%string 0 "application/pdf".

(** What the list route shows carol, and what it shows an admin. *)
Definition carol_page : list PopulatedTask :=
  map (populated Sample.world) [Sample.report; Sample.taxes].

Definition admin_page : list PopulatedTask :=
  map (populated Sample.world) [Sample.report; Sample.notes; Sample.taxes].

End Demo.
(** ** Auxiliary facts *)

Lemma find_by_id {A} (key : A -> ObjectId) i l x :
  find_by key i l = Some x -> key x = i /\ In x l.
Proof.
  unfold find_by. intros H. apply find_some in H as [Hin Heq].
  apply N.eqb_eq in Heq. auto.
Qed.

Lemma find_by_filter_out {A} (key : A -> ObjectId) i l :
  find_by key i (filter (fun x => negb (N.eqb (key x) i)) l) = None.
Proof.
  unfold find_by. induction l as [|x l IH]; simpl; trivial.
  destruct (N.eqb (key x) i) eqn:E; simpl; trivial.
  now rewrite E.
Qed.

Lemma is_admin_true r : is_admin r = true <-> r = RoleAdmin.
Proof. destruct r; simpl; split; congruence. Qed.

Lemma filter_absent (p : string) (l : list string) :
  existsb (String.eqb p) l = false -> filter (fun q => negb (q =? p)) l = l.
Proof.
  induction l as [|q l IH]; simpl; trivial.
  intros H. apply orb_false_elim in H as [Hq Hl].
  rewrite String.eqb_sym, Hq. simpl. now rewrite IH.
Qed.

Lemma unlink_one_best_effort p w :
  try_catch (fs_unlink p) (fun _ => ret tt) w
  = (Next tt, set_uploads (filter (fun q => negb (q =? p))) w).
Proof.
  unfold try_catch, fs_unlink, ret.
  destruct (existsb (String.eqb p) (uploads w)) eqn:E; trivial.
  destruct w as [us ts ds ups ob n]; unfold set_uploads; simpl in *.
  now rewrite filter_absent.
Qed.

Lemma unlink_all_best_effort docs w :
  unlink_all docs w = (Next tt, set_uploads (unlinked docs) w).
Proof.
  revert w. induction docs as [|d docs IH]; intros w.
  - destruct w; reflexivity.
  - simpl. unfold bind at 1. rewrite unlink_one_best_effort, IH.
    destruct w; reflexivity.
Qed.

(** ** Deleting a task *)

Lemma DELETE_task_existing user id w task :
  existing_task w id task ->
  DELETE_task user id w =
    if negb (is_admin (role user)) && negb (equals (createdBy task) (user_id user))
    then (json 403 "Access denied. Only task creators and admins can delete tasks.", w)
    else (json 200 "Task deleted successfully",
          mkWorld (Users w)
                  (filter (fun t => negb (N.eqb (task_id t) id)) (Tasks w))
                  (filter (fun d => negb (belongs_to (task_id task) d)) (TaskDocuments w))
                  (unlinked (filter (belongs_to (task_id task)) (TaskDocuments w)) (uploads w))
                  (outbox w) (nextId w)).
Proof.
  intros H. unfold DELETE_task, asyncHandler, delete_task, existing_task in *.
  unfold bind at 1. unfold Task_findById, gets. rewrite H.
  destruct (negb (is_admin (role user)) && negb (equals (createdBy task) (user_id user)));
    unfold bind, reply_if, reply, ret, try_catch; simpl; trivial.
  unfold TaskDocument_find, gets. rewrite unlink_all_best_effort.
  reflexivity.
Qed.

(** C2: on an existing task the delete operation answers 200 exactly for
    an admin or the creator; every other principal is answered 403 and the
    world is left as it was; a successful deletion removes the task.  In
    particular a principal who is only the assignee may view the task and
    is still denied its deletion. *)
Theorem delete_task_admin_or_creator (P : User) (id : ObjectId) (T : Task) (w : World)
  (Hexists : existing_task w id T) :
  (statusCode (fst (DELETE_task P id w)) = 200 <-> canDelete P T)
  /\ (~ canDelete P T ->
      access_denied (fst (DELETE_task P id w)) /\ snd (DELETE_task P id w) = w)
  /\ (canDelete P T -> find_by task_id id (Tasks (snd (DELETE_task P id w))) = None)
  /\ (role P = RoleUser -> createdBy T <> user_id P -> assignedTo T = Some (user_id P) ->
      canView P T /\ access_denied (fst (DELETE_task P id w))).
Proof.
  rewrite (DELETE_task_existing P Hexists).
  unfold canDelete, canView, access_denied, equals.
  destruct (N.eqb_spec (createdBy T) (user_id P)) as [Hc|Hc];
    destruct (role P) eqn:Hr; simpl;
    repeat split; intros; auto using find_by_filter_out;
    try congruence; try tauto; try discriminate;
    try (exfalso; intuition congruence).
Qed.

Lemma delete_task_admin_or_creator_witness :
  (statusCode (fst (DELETE_task Sample.bob 10%N Sample.world)) = 200
   <-> canDelete Sample.bob Sample.report)
  /\ access_denied (fst (DELETE_task Sample.carol 10%N Sample.world)).
Proof.
  assert (H : existing_task Sample.world 10%N Sample.report) by reflexivity.
  split.
  - apply (delete_task_admin_or_creator Sample.bob H).
  - apply (delete_task_admin_or_creator Sample.carol H); [reflexivity | discriminate | reflexivity].
Defined.

Lemma delete_missing_task_lemma P id w :
  find_by task_id id (Tasks w) = None ->
  DELETE_task P id w = (json 404 "Task not found", w).
Proof.
  intros Hmissing.
  unfold DELETE_task, asyncHandler, delete_task, bind, Task_findById, gets.
  now rewrite Hmissing.
Qed.

(** C9: deleting under an identifier that names no task answers 404
    "Task not found" and changes nothing: users, tasks, document records,
    stored files and the emitted events are all as before. *)
Theorem delete_missing_task_is_404 (P : User) (id : ObjectId) (w : World)
  (Hmissing : find_by task_id id (Tasks w) = None) :
  DELETE_task P id w = (json 404 "Task not found", w).
Proof. now apply delete_missing_task_lemma. Qed.

Lemma delete_missing_task_is_404_witness :
  DELETE_task Sample.bob 99%N Sample.world = (json 404 "Task not found", Sample.world).
Proof.
  apply (delete_missing_task_is_404 Sample.bob 99%N Sample.world). reflexivity.
Defined.

(** ** Deleting a user account *)

(** C7 (amended): a principal who asks for the deletion of their own
    account never gets it, and the world is left as it was; an admin is
    answered 400 "You cannot delete your own account", while a principal
    with the role [user] is stopped by the admin gate of the route and
    answered 403. *)
Theorem self_deletion_never_succeeds (P : User) (w : World) :
  DELETE_user P (user_id P) w =
    (match role P with
     | RoleAdmin => json 400 "You cannot delete your own account"
     | RoleUser => json 403 "Access denied. Admin privileges required."
     end, w).
Proof.
  unfold DELETE_user, asyncHandler, delete_user, adminAuth, bind, reply_if, equals.
  destruct (role P); simpl; trivial.
  now rewrite N.eqb_refl.
Qed.

(** C7 as stated fails for the role [user]: bob asks for the deletion of
    his own account and is answered 403, not the self-deletion error. *)
Lemma self_deletion_by_user_is_403 :
  role Sample.bob = RoleUser
  /\ fst (DELETE_user Sample.bob (user_id Sample.bob) Sample.world)
     = json 403 "Access denied. Admin privileges required."
  /\ fst (DELETE_user Sample.bob (user_id Sample.bob) Sample.world)
     <> json 400 "You cannot delete your own account".
Proof.
  repeat split; try reflexivity. discriminate.
Qed.

(** ** Reading one task *)

Lemma GET_task_existing user id w task :
  existing_task w id task ->
  GET_task user id w =
    (if is_admin (role user) then viewed task w
     else if match populate_user w (assignedTo task) with
             | Some a => equals (pu_id a) (user_id user)
             | None => false
             end then viewed task w
     else match populate_user w (Some (createdBy task)) with
          | Some c => if equals (pu_id c) (user_id user) then viewed task w else view_denied
          | None => json 500 "Cannot read properties of null (reading 'equals')"
          end, w).
Proof.
  intros H. unfold GET_task, asyncHandler, get_task, existing_task in *.
  unfold bind at 1. unfold Task_findById, gets. rewrite H.
  unfold bind at 1. unfold populate, gets. cbv beta iota.
  unfold viewed, view_denied. cbn [p_assignedTo p_createdBy].
  destruct (is_admin (role user)); [reflexivity|].
  destruct (populate_user w (assignedTo task)) as [a|];
    [destruct (equals (pu_id a) (user_id user)); [reflexivity|]|];
    (destruct (populate_user w (Some (createdBy task))) as [c|];
     [destruct (equals (pu_id c) (user_id user))|]; reflexivity).
Qed.

Lemma populate_user_id w i p :
  populate_user w (Some i) = Some p -> pu_id p = i.
Proof.
  unfold populate_user. destruct (find_by user_id i (Users w)) as [u|] eqn:E; [|discriminate].
  intros [= <-]. simpl. now apply find_by_id in E.
Qed.

Lemma populate_stored_user w P :
  find_by user_id (user_id P) (Users w) = Some P ->
  populate_user w (Some (user_id P)) = Some (mkPopulatedUser (user_id P) (email P)).
Proof. unfold populate_user. now intros ->. Qed.

(** X7: the view rule of the single-task read: for an authenticated principal
    (a stored user) the read answers 200 exactly when the principal is an
    admin, the creator or the assignee; and the refusal is the 403 answer
    whenever the creator of the task is still a stored user. *)
Lemma get_task_view_rule (P : User) (id : ObjectId) (T : Task) (w : World) :
  find_by user_id (user_id P) (Users w) = Some P ->
  existing_task w id T ->
  (statusCode (fst (GET_task P id w)) = 200 <-> canView P T)
  /\ snd (GET_task P id w) = w
  /\ (~ canView P T -> find_by user_id (createdBy T) (Users w) <> None ->
      fst (GET_task P id w) = view_denied).
Proof.
  intros HP HT. rewrite (GET_task_existing P HT). cbn [fst snd].
  unfold canView, equals.
  destruct (role P) eqn:Hr; cbn [is_admin].
  2:{ repeat split; auto; intros; tauto. }
  assert (Ha : match populate_user w (assignedTo T) with
               | Some a => N.eqb (pu_id a) (user_id P)
               | None => false
               end = true <-> assignedTo T = Some (user_id P)).
  { destruct (assignedTo T) as [a|] eqn:Ea.
    - destruct (populate_user w (Some a)) as [p|] eqn:Ep.
      + apply populate_user_id in Ep. rewrite Ep, N.eqb_eq. split; congruence.
      + split; [discriminate|]. intros [= ->].
        rewrite (@populate_stored_user w P HP) in Ep. discriminate.
    - simpl. split; discriminate. }
  destruct (match populate_user w (assignedTo T) with
            | Some a => N.eqb (pu_id a) (user_id P)
            | None => false
            end) eqn:Eas.
  { repeat split; auto; intros; try tauto. }
  assert (Hna : assignedTo T <> Some (user_id P)).
  { intros E. apply Ha in E. discriminate. }
  destruct (populate_user w (Some (createdBy T))) as [c|] eqn:Ec.
  - pose proof (@populate_user_id _ _ _ Ec) as Hid. rewrite Hid.
    destruct (N.eqb_spec (createdBy T) (user_id P)) as [E|E]; simpl.
    + repeat split; auto; intros; tauto.
    + repeat split; auto; try discriminate.
      intros [?|[?|?]]; congruence.
  - simpl. repeat split; auto; try discriminate.
    + intros [?|[E|?]]; try congruence.
      rewrite E, (@populate_stored_user w P HP) in Ec. discriminate.
    + intros _ Hc. exfalso. apply Hc. unfold populate_user in Ec.
      destruct (find_by user_id (createdBy T) (Users w)); [discriminate|reflexivity].
Qed.

Lemma get_task_view_rule_witness :
  (statusCode (fst (GET_task Sample.carol 10%N Sample.world)) = 200
   <-> canView Sample.carol Sample.report)
  /\ fst (GET_task Sample.dave 10%N Sample.world) = view_denied.
Proof.
  split.
  - apply (@get_task_view_rule Sample.carol 10%N Sample.report Sample.world); reflexivity.
  - apply (@get_task_view_rule Sample.dave 10%N Sample.report Sample.world);
      try reflexivity; try discriminate.
    unfold canView. simpl. intros [?|[?|?]]; discriminate.
Defined.

(** C1 at the failing input: once the account of the creator of a task
    is gone, a stored principal who may not view the task is not answered
    403 by the single-task read: the creator populates to [null], the
    permission check dereferences it, and the error handler answers 500.
    The delete route, which checks the unpopulated task, answers 403 in
    the same world. *)
Theorem get_task_dangling_creator_is_500 :
  existing_task Sample.world_without_bob 10%N Sample.report
  /\ find_by user_id (user_id Sample.dave) (Users Sample.world_without_bob) = Some Sample.dave
  /\ ~ canView Sample.dave Sample.report
  /\ GET_task Sample.dave 10%N Sample.world_without_bob
     = (json 500 "Cannot read properties of null (reading 'equals')",
        Sample.world_without_bob)
  /\ ~ access_denied (fst (GET_task Sample.dave 10%N Sample.world_without_bob))
  /\ access_denied (fst (DELETE_task Sample.dave 10%N Sample.world_without_bob)).
Proof.
  repeat split; try reflexivity.
  - unfold canView. simpl. intros [?|[?|?]]; discriminate.
  - discriminate.
Qed.

(** ** Listing tasks *)

Lemma populate_all_populated ts w :
  populate_all ts w = (Next (map (populated w) ts), w).
Proof.
  induction ts as [|t ts IH]; simpl; trivial.
  unfold bind, populate, gets. rewrite IH. reflexivity.
Qed.

Lemma map_raw_populated w ts : map raw (map (populated w) ts) = ts.
Proof. induction ts as [|t ts IH]; simpl; congruence. Qed.

Lemma matches_or_spec u T :
  matches_or u T = true <-> createdBy T = u \/ assignedTo T = Some u.
Proof.
  unfold matches_or. rewrite orb_true_iff.
  destruct (N.eqb_spec (createdBy T) u) as [Hc|Hc].
  - split; auto.
  - destruct (assignedTo T) as [a|].
    + destruct (N.eqb_spec a u) as [Ha|Ha].
      * subst a. split; auto.
      * split; intros [H|H]; try discriminate; try contradiction.
        exfalso. apply Ha. congruence.
    + split; intros [H|H]; try discriminate; contradiction.
Qed.

Lemma In_skipn {A} n (l : list A) x : In x (skipn n l) -> In x l.
Proof. intros H. rewrite <- (firstn_skipn n l). apply in_or_app. now right. Qed.

Lemma In_firstn {A} n (l : list A) x : In x (firstn n l) -> In x l.
Proof. intros H. rewrite <- (firstn_skipn n l). apply in_or_app. now left. Qed.

Lemma cursor_page_incl {A} skip limit (l page : list A) :
  cursor_page skip limit l = Some page -> incl page l.
Proof.
  unfold cursor_page. destruct (skip <? 0)%Z; [discriminate|].
  intros [= <-] x Hx.
  destruct (limit =? 0)%Z.
  - eapply In_skipn; eassumption.
  - eapply In_skipn, In_firstn; eassumption.
Qed.

Lemma cursor_page_whole {A} limit (l : list A) :
  (limit = 0 \/ Z.of_nat (List.length l) <= Z.abs limit)%Z ->
  cursor_page 0 limit l = Some l.
Proof.
  unfold cursor_page. simpl. intros [->|H]; simpl; trivial.
  destruct (limit =? 0)%Z; trivial.
  rewrite firstn_all2; trivial. lia.
Qed.

Section ListingFacts.

Variable regex : string -> option (string -> bool).
Variable sort : string -> bool -> list Task -> list Task.
Hypothesis sort_Permutation : forall field asc l, Permutation (sort field asc l) l.

(** X8: the list route for a principal who is no admin: a 200 answer
    carries tasks of the collection that the principal created or is
    assigned to and that pass the requested filters, [totalItems] counts
    exactly the tasks of that kind, and a page that starts at the first
    task and is long enough holds every one of them. *)
Lemma list_shows_own_tasks (P : User) (q : ListQuery) (w : World)
      (ts : list PopulatedTask) (page : Z) (total : nat) :
  role P = RoleUser ->
  fst (GET_tasks regex sort P q w) = mkResponse 200 "" (TaskPage ts page total) ->
  exists re : string -> bool,
    let own := filter (fun T => matches_or (user_id P) T
                                && matches_requested re (build_query P q) T) (Tasks w) in
    snd (GET_tasks regex sort P q w) = w
    /\ total = List.length own
    /\ (forall T, In T (map raw ts) ->
          In T (Tasks w)
          /\ (createdBy T = user_id P \/ assignedTo T = Some (user_id P))
          /\ matches_requested re (build_query P q) T = true)
    /\ (or_else (q_page q) 1 = 1 ->
        or_else (q_limit q) 10 = 0 \/ Z.of_nat total <= Z.abs (or_else (q_limit q) 10) ->
        Permutation (map raw ts) own)%Z.
Proof.
  intros Hr. unfold GET_tasks, asyncHandler, get_tasks, try_catch, Task_find.
  destruct (filter_casts (build_query P q)); [|simpl; discriminate].
  unfold bind at 2. unfold compile_search.
  set (f := build_query P q).
  assert (Hor : f_or f = Some (user_id P)) by (subst f; simpl; now rewrite Hr).
  assert (Hm : forall re T, matches re f T
                            = matches_or (user_id P) T && matches_requested re f T).
  { intros re T. unfold matches. now rewrite Hor. }
  set (search := match f_and f with
                 | Some pattern => match regex pattern with
                                   | Some re => ret re
                                   | None => throw (Error "Regular expression is invalid")
                                   end
                 | None => ret (fun _ : string => true)
                 end).
  assert (Hs : (exists re, search = ret re) \/ search = throw (Error "Regular expression is invalid")).
  { subst search. destruct (f_and f) as [p|]; [destruct (regex p)|]; eauto. }
  destruct Hs as [[re Hs]|Hs]; rewrite Hs; [|simpl; discriminate].
  unfold bind, ret, gets. cbn beta iota.
  set (own := filter (matches re f) (Tasks w)).
  destruct (cursor_page _ _ _) as [pg|] eqn:Hpg; [|simpl; discriminate].
  rewrite populate_all_populated. cbn [fst snd].
  intros [= <- <- <-]. exists re. cbn zeta.
  rewrite map_raw_populated.
  assert (Hown : filter (fun T => matches_or (user_id P) T && matches_requested re f T) (Tasks w) = own).
  { subst own. apply filter_ext. intros T. now rewrite Hm. }
  rewrite Hown. repeat split; trivial.
  - apply cursor_page_incl in Hpg. apply Hpg in H.
    apply (Permutation_in _ (sort_Permutation _ _ _)) in H.
    subst own. apply filter_In in H. tauto.
  - apply matches_or_spec.
    apply cursor_page_incl in Hpg. apply Hpg in H.
    apply (Permutation_in _ (sort_Permutation _ _ _)) in H.
    subst own. apply filter_In in H. rewrite Hm in H.
    destruct H as [_ H]. now apply andb_true_iff in H.
  - apply cursor_page_incl in Hpg. apply Hpg in H.
    apply (Permutation_in _ (sort_Permutation _ _ _)) in H.
    subst own. apply filter_In in H. rewrite Hm in H.
    destruct H as [_ H]. now apply andb_true_iff in H.
  - intros Hp Hl. rewrite Hp in Hpg. simpl in Hpg.
    rewrite cursor_page_whole in Hpg.
    + injection Hpg as <-. apply sort_Permutation.
    + rewrite (Permutation_length (sort_Permutation _ _ _)). exact Hl.
Qed.

End ListingFacts.

(** ** Saving, identifiers, and the consistency of the collections *)

Lemma Task_save_run now t w :
  Task_save now t w =
    if task_valid now t
    then (Next tt, set_Tasks (upsert_task t) w)
    else (Thrown (ValidationError (validation_message "Task" (Task_validate now t))), w).
Proof.
  unfold Task_save, task_valid. now destruct (Task_validate now t).
Qed.

Lemma task_valid_with_documents now t ds :
  task_valid now (with_documents t ds) = task_valid now t.
Proof. reflexivity. Qed.

Lemma overdue_is_invalid now t d :
  dueDate t = Some d -> (d <= now)%Z -> task_valid now t = false.
Proof.
  intros Hd Hle. unfold task_valid, Task_validate, dueDate_validator. rewrite Hd.
  replace (now <? d)%Z with false by (symmetry; apply Z.ltb_ge; exact Hle).
  destruct (title t =? ""); destruct (Nat.ltb 255 (String.length (title t))); reflexivity.
Qed.

Lemma new_documents_run tid u files w :
  new_documents tid u files w
  = (Next (fresh_documents tid u (nextId w) files), bump (List.length files) w).
Proof.
  revert w. induction files as [|f files IH]; intros w.
  - simpl. unfold ret, bump. destruct w; simpl. now rewrite N.add_0_r.
  - simpl. unfold bind at 1. unfold newObjectId. unfold bind at 1. rewrite IH.
    unfold ret, bump. simpl. do 2 f_equal. lia.
Qed.

Lemma fresh_documents_length tid u first files :
  List.length (fresh_documents tid u first files) = List.length files.
Proof. revert first. induction files; intros; simpl; auto. Qed.

Lemma fresh_documents_In tid u first files D :
  In D (fresh_documents tid u first files) ->
  taskId D = tid /\ (first <= doc_id D < first + N.of_nat (List.length files))%N.
Proof.
  revert first. induction files as [|f files IH]; intros first; simpl; [tauto|].
  intros [<-|H]; simpl.
  - split; trivial. lia.
  - apply IH in H. split; [tauto|lia].
Qed.

Lemma fresh_documents_NoDup tid u first files :
  NoDup (map doc_id (fresh_documents tid u first files)).
Proof.
  revert first. induction files as [|f files IH]; intros first; simpl; constructor; auto.
  intros H. apply in_map_iff in H as (D & Hid & HD).
  apply fresh_documents_In in HD. simpl in *. lia.
Qed.

Lemma In_upsert_task t l T :
  In T (upsert_task t l) -> T = t \/ (In T l /\ task_id T <> task_id t).
Proof.
  unfold upsert_task. destruct (existsb _ l) eqn:E.
  - intros H. apply in_map_iff in H as (x & Hx & Hin).
    destruct (N.eqb_spec (task_id x) (task_id t)); subst; auto.
  - intros H. apply in_app_or in H as [H|[H|[]]]; auto.
    right. split; trivial. intros Heq.
    assert (existsb (fun x => N.eqb (task_id x) (task_id t)) l = true).
    { apply existsb_exists. exists T. split; trivial. now apply N.eqb_eq. }
    congruence.
Qed.

Lemma upsert_task_stores t l : In t (upsert_task t l).
Proof.
  unfold upsert_task. destruct (existsb _ l) eqn:E.
  - apply existsb_exists in E as (x & Hin & Hx).
    apply in_map_iff. exists x. now rewrite Hx.
  - apply in_or_app. right. now left.
Qed.

Lemma find_by_upsert_task t l i :
  find_by task_id i (upsert_task t l) =
    if N.eqb (task_id t) i
    then Some t
    else find_by task_id i l.
Proof.
  unfold upsert_task, find_by.
  destruct (existsb _ l) eqn:E.
  - induction l as [|x l IH]; [discriminate|]. simpl in *.
    destruct (N.eqb_spec (task_id x) (task_id t)) as [Hx|Hx]; simpl.
    + rewrite Hx. destruct (N.eqb (task_id t) i); trivial.
      destruct (existsb (fun x0 => N.eqb (task_id x0) (task_id t)) l) eqn:El; auto.
      clear -El. induction l as [|y l IH]; simpl; trivial.
      simpl in El. apply orb_false_elim in El as [Hy Hl]. rewrite Hy.
      destruct (N.eqb (task_id y) i); auto.
    + destruct (N.eqb_spec (task_id x) i) as [Hi|Hi].
      * destruct (N.eqb_spec (task_id t) i); [congruence|trivial].
      * auto.
  - induction l as [|x l IH]; simpl in *.
    + destruct (N.eqb (task_id t) i); trivial.
    + apply orb_false_elim in E as [Hx Hl].
      destruct (N.eqb_spec (task_id x) i) as [Hi|Hi].
      * destruct (N.eqb_spec (task_id t) i) as [Ht|Ht]; trivial.
        apply N.eqb_neq in Hx. congruence.
      * auto.
Qed.

Lemma NoDup_map_injective {A B} (f : A -> B) l a b :
  NoDup (map f l) -> In a l -> In b l -> f a = f b -> a = b.
Proof.
  induction l as [|x l IH]; simpl; [tauto|].
  intros Hnd [Ha|Ha] [Hb|Hb] E; inversion Hnd; subst; auto.
  - exfalso. apply H1. rewrite E. now apply in_map.
  - exfalso. apply H1. rewrite <- E. now apply in_map.
Qed.

Lemma NoDup_map_filter {A B} (f : A -> B) p l :
  NoDup (map f l) -> NoDup (map f (filter p l)).
Proof.
  induction l as [|x l IH]; simpl; trivial.
  intros H. inversion H; subst. destruct (p x); simpl; auto.
  constructor; auto. intros Hin. apply H2.
  apply in_map_iff in Hin as (y & Hy & Hin). apply filter_In in Hin as [Hin _].
  apply in_map_iff. eauto.
Qed.

Lemma NoDup_filter {A} p (l : list A) : NoDup l -> NoDup (filter p l).
Proof.
  intros H. rewrite <- (map_id (filter p l)). apply NoDup_map_filter.
  now rewrite map_id.
Qed.

Lemma filter_length_le {A} p (l : list A) : List.length (filter p l) <= List.length l.
Proof. induction l; simpl; [|destruct (p a); simpl]; lia. Qed.

Lemma count_documents_filter w tid p :
  count_documents (set_TaskDocuments (filter p) w) tid <= count_documents w tid.
Proof.
  unfold count_documents. simpl.
  induction (TaskDocuments w) as [|D l IH]; simpl; trivial.
  destruct (p D); simpl; destruct (belongs_to tid D); simpl; lia.
Qed.

(** In a consistent world no task lists more than three documents. *)
Lemma consistent_at_most_three w T :
  Consistent w -> In T (Tasks w) -> List.length (documents T) <= 3.
Proof.
  intros C HT.
  transitivity (count_documents w (task_id T)); [|apply (documents_capped C)].
  unfold count_documents.
  rewrite <- (length_map doc_id (filter (belongs_to (task_id T)) (TaskDocuments w))).
  apply NoDup_incl_length; [apply (documents_listed_once C _ HT)|].
  intros d Hd. destruct (documents_stored C _ _ HT Hd) as (D & HD & Hid & Htid).
  apply in_map_iff. exists D. split; trivial.
  apply filter_In. split; trivial. unfold belongs_to. now apply N.eqb_eq.
Qed.

(** ** The unfolding equation of the update route *)

Lemma put_validation_assignee body :
  put_validation body = true ->
  b_assignedTo body = None \/ exists i, b_assignedTo body = Some (HexId i).
Proof.
  unfold put_validation. intros H. apply andb_true_iff in H as [_ H].
  destruct (b_assignedTo body) as [[i|s]|]; simpl in H; eauto. discriminate.
Qed.

Lemma put_check_assignee_run body w :
  put_validation body = true ->
  put_check_assignee body w =
    if assignee_missing w body
    then (Sent (json 400 "Assigned user not found"), w)
    else (Next tt, w).
Proof.
  intros H. unfold put_check_assignee, assignee_missing.
  destruct (put_validation_assignee body H) as [->|[i ->]]; trivial.
  simpl. unfold bind, User_findById, gets, reply_if.
  now destruct (find_by user_id i (Users w)).
Qed.

Lemma update_fields_run body task w :
  put_validation body = true ->
  update_fields body task w = (Next (edit body task), w).
Proof.
  intros H. unfold update_fields, edit.
  destruct (put_validation_assignee body H) as [->|[i ->]]; reflexivity.
Qed.

Lemma saveAll_run docs w :
  TaskDocument_saveAll docs w =
    if forallb document_valid docs
    then (Next docs, add_documents docs w)
    else (Thrown (ValidationError
                    (validation_message "TaskDocument"
                       (match find (fun d => negb (document_valid d)) docs with
                        | Some d => TaskDocument_validate d
                        | None => []
                        end))), add_documents docs w).
Proof.
  unfold TaskDocument_saveAll, bind, modify, add_documents.
  induction docs as [|d docs IH]; simpl; trivial.
  destruct (document_valid d); simpl; trivial.
  destruct (forallb document_valid docs);
    destruct (find (fun d0 => negb (document_valid d0)) docs); simpl in *;
    try discriminate; trivial.
Qed.

Lemma put_notify_run show old task w :
  put_notify show (option_map HexOf old) task w
  = (Next tt, set_outbox (fun l => l ++ update_events show old task) w).
Proof.
  unfold put_notify, update_events, bind, emit, modify, ret.
  destruct (p_assignedTo task) as [a|]; simpl.
  - destruct old as [o|]; simpl;
      [destruct (Shown_eqb (show a) (HexOf o))|]; simpl;
      destruct w; unfold set_outbox; simpl; rewrite <- ?app_assoc; reflexivity.
  - destruct w; unfold set_outbox; simpl. now rewrite app_nil_r.
Qed.

Lemma put_attach_run now P task files w :
  task_valid now task = true ->
  put_attach now P task files w =
    match files with
    | [] => (Next task, w)
    | _ :: _ =>
        if Nat.ltb 3 (count_documents w (task_id task) + List.length files)
        then (Sent limit_exceeded, w)
        else
          let docs := fresh_documents (task_id task) (user_id P) (nextId w) files in
          let w3 := add_documents docs (bump (List.length files) w) in
          if forallb document_valid docs
          then let t2 := with_documents task (documents task ++ map doc_id docs) in
               (Next t2, set_Tasks (upsert_task t2) w3)
          else (Thrown (ValidationError
                          (validation_message "TaskDocument"
                             (match find (fun d => negb (document_valid d)) docs with
                              | Some d => TaskDocument_validate d
                              | None => []
                              end))), w3)
    end.
Proof.
  intros Hv. unfold put_attach. destruct files as [|f files]; trivial.
  unfold bind at 1. unfold TaskDocument_countDocuments, gets.
  fold (count_documents w (task_id task)).
  unfold bind at 1. unfold reply_if, limit_exceeded.
  destruct (Nat.ltb 3 _); trivial.
  unfold ret at 1. unfold bind at 1. rewrite new_documents_run.
  unfold bind at 1. rewrite saveAll_run. cbv zeta.
  destruct (forallb document_valid _); trivial.
  unfold bind. rewrite Task_save_run, task_valid_with_documents, Hv. reflexivity.
Qed.

Theorem PUT_task_run show now P id body files w :
  PUT_task show now P id body files w =
    match multer_scan files_limit files with
    | Some e => (errorHandler e, w)
    | None =>
        let w1 := store_uploads files w in
        if negb (put_validation body) then (validation_failed, w1) else
        match find_by task_id id (Tasks w) with
        | None => (json 404 "Task not found", w1)
        | Some task =>
            if update_denied P task then (update_forbidden, w1) else
            if assignee_missing w body then (json 400 "Assigned user not found", w1) else
            let t1 := edit body task in
            if negb (task_valid now t1) then (json 500 "Error updating task", w1) else
            let w2 := set_Tasks (upsert_task t1) w1 in
            match files with
            | [] => updated show (assignedTo task) t1 w2
            | _ :: _ =>
                if Nat.ltb 3 (count_documents w (task_id t1) + List.length files)
                then (limit_exceeded, w2)
                else
                  let docs := fresh_documents (task_id t1) (user_id P) (nextId w) files in
                  let w3 := add_documents docs (bump (List.length files) w2) in
                  if forallb document_valid docs
                  then let t2 := with_documents t1 (documents t1 ++ map doc_id docs) in
                       updated show (assignedTo task) t2 (set_Tasks (upsert_task t2) w3)
                  else (json 500 "Error updating task", w3)
            end
        end
    end.
Proof.
  unfold PUT_task, asyncHandler, put_task, upload_array, Task_findById, populate.
  unfold try_catch, bind, reply_if, reply, ret, throw, modify, gets.
  destruct (multer_scan files_limit files) as [e|]; [reflexivity|].
  cbv beta iota zeta. fold (store_uploads files w).
  set (w1 := store_uploads files w).
  destruct (put_validation body) eqn:Hval; [|reflexivity].
  cbn [negb]. cbv beta iota.
  change (Tasks w1) with (Tasks w).
  destruct (find_by task_id id (Tasks w)) as [task|]; [|reflexivity].
  fold update_forbidden.
  destruct (update_denied P task); [reflexivity|]. cbv beta iota.
  rewrite put_check_assignee_run by exact Hval.
  change (assignee_missing w1 body) with (assignee_missing w body).
  destruct (assignee_missing w body); [reflexivity|]. cbv beta iota.
  rewrite update_fields_run by exact Hval. cbv beta iota.
  rewrite Task_save_run.
  destruct (task_valid now (edit body task)) eqn:Hv; [|reflexivity].
  cbn [negb]. cbv beta iota.
  rewrite put_attach_run by exact Hv.
  destruct files as [|f files].
  - cbv beta iota. rewrite put_notify_run. reflexivity.
  - change (count_documents (set_Tasks (upsert_task (edit body task)) w1) (task_id (edit body task)))
      with (count_documents w (task_id (edit body task))).
    destruct (Nat.ltb 3 _); [reflexivity|].
    cbv zeta.
    change (nextId (set_Tasks (upsert_task (edit body task)) w1)) with (nextId w).
    destruct (forallb document_valid _); [|reflexivity].
    cbv beta iota. rewrite put_notify_run. reflexivity.
Qed.

(** ** Rejected attachments, notifications and overdue tasks *)

Ltac split_matches :=
  repeat match goal with
         | |- context [match ?c with _ => _ end] => destruct c
         | |- context [if ?c then _ else _] => destruct c
         end.

Lemma errorHandler_code e :
  statusCode (errorHandler e) = 400 \/ statusCode (errorHandler e) = 500.
Proof. unfold errorHandler. split_matches; simpl; auto. Qed.

Lemma errorHandler_not_limit e : errorHandler e <> limit_exceeded.
Proof. unfold errorHandler, limit_exceeded. split_matches; discriminate. Qed.

(** X22: whenever an update is answered "Maximum 3 documents allowed per
    task", the field changes of the request are already stored: the task
    found under the identifier is the edited one, and no document record
    was added. *)
Lemma limit_rejection_keeps_edits show now P id body files w T :
  existing_task w id T ->
  fst (PUT_task show now P id body files w) = limit_exceeded ->
  find_by task_id id (Tasks (snd (PUT_task show now P id body files w)))
  = Some (edit body T)
  /\ TaskDocuments (snd (PUT_task show now P id body files w)) = TaskDocuments w.
Proof.
  intros HT. rewrite PUT_task_run. unfold existing_task in HT. rewrite HT.
  pose proof (find_by_id _ _ _ HT) as [Hid _].
  destruct (multer_scan files_limit files) as [e|].
  { intros H. now apply errorHandler_not_limit in H. }
  cbv zeta.
  destruct (put_validation body); [|discriminate]. cbn [negb].
  destruct (update_denied P T); [discriminate|].
  destruct (assignee_missing w body); [discriminate|].
  destruct (task_valid now (edit body T)); [|discriminate]. cbn [negb].
  destruct files as [|f files]; [discriminate|].
  destruct (Nat.ltb 3 _).
  - intros _. cbn [snd]. split; [|reflexivity].
    cbn [Tasks set_Tasks store_uploads set_uploads].
    rewrite find_by_upsert_task. cbn [task_id edit]. rewrite Hid.
    now rewrite N.eqb_refl.
  - destruct (forallb document_valid _); discriminate.
Qed.

(** C4 at the failing input: bob, the creator of [report] (one document),
    sends [status: completed] together with three files.  The answer is
    the 400 of the document limit and no file is attached, but the stored
    status has changed from [pending] to [completed]. *)
Theorem rejected_update_has_changed_the_task (show : PopulatedUser -> Shown) :
  let files := [Sample.pdf "a.pdf"; Sample.pdf "b.pdf"; Sample.pdf "c.pdf"] in
  let r := PUT_task show Sample.now Sample.bob 10%N Sample.mark_completed files Sample.world in
  status Sample.report = pending
  /\ fst r = limit_exceeded
  /\ TaskDocuments (snd r) = TaskDocuments Sample.world
  /\ option_map documents (find_by task_id 10%N (Tasks (snd r))) = Some (documents Sample.report)
  /\ option_map status (find_by task_id 10%N (Tasks (snd r))) = Some completed.
Proof.
  cbv zeta. rewrite PUT_task_run. repeat split; reflexivity.
Qed.

(** C5 at the failing input: bob assigns his unassigned task [notes] to
    himself.  Whatever the rendering of the populated assignee, the update
    route emits [taskAssigned] (and [taskUpdated]) under it, although the
    new assignee is the updater; the create route emits nothing when bob
    creates a task assigned to himself. *)
Theorem self_assignment_emits_taskAssigned (show : PopulatedUser -> Shown) :
  let me := mkPopulatedUser (user_id Sample.bob) (email Sample.bob) in
  let r := PUT_task show Sample.now Sample.bob 11%N (Sample.assign_to Sample.bob) []
             Sample.world in
  statusCode (fst r) = 200
  /\ outbox (snd r) = [mkEvent (show me) taskAssigned 11%N; mkEvent (show me) taskUpdated 11%N]
  /\ outbox (snd (POST_task Sample.now Sample.bob
                    (Sample.titled "Mine" (Some Sample.bob) None) [] Sample.world)) = [].
Proof.
  cbv zeta. rewrite PUT_task_run. repeat split; reflexivity.
Qed.




(** ** Removing a document *)

Lemma DELETE_document_existing now P id documentId w T D :
  existing_task w id T ->
  existing_document w id documentId D ->
  DELETE_document now P id documentId w =
    if negb (is_admin (role P))
       && negb (equals (createdBy T) (user_id P))
       && negb (equals (uploadedBy D) (user_id P))
    then (removal_forbidden, w)
    else
      let w1 := set_uploads (filter (fun q => negb (q =? filePath D))) w in
      if task_valid now T
      then (json 200 "Document deleted successfully",
            set_TaskDocuments (filter (fun d => negb (N.eqb (doc_id d) (doc_id D))))
              (set_Tasks (upsert_task (without_document D T)) w1))
      else (json 500 "Error deleting document", w1).
Proof.
  intros HT HD. unfold existing_task, existing_document in *.
  unfold DELETE_document, asyncHandler, delete_document, Task_findById, TaskDocument_findOne.
  unfold bind at 1. unfold gets at 1. rewrite HT.
  unfold bind at 1. unfold gets at 1. rewrite HD.
  unfold bind at 1. unfold reply_if. fold removal_forbidden.
  destruct (negb (is_admin (role P)) && negb (equals (createdBy T) (user_id P))
            && negb (equals (uploadedBy D) (user_id P))); [reflexivity|].
  unfold ret at 1. unfold try_catch at 1. unfold bind at 1.
  rewrite unlink_one_best_effort. unfold bind at 1.
  rewrite Task_save_run. fold (without_document D T).
  change (task_valid now (without_document D T)) with (task_valid now T).
  destruct (task_valid now T); reflexivity.
Qed.



(** ** The unfolding equation of the create route *)

Lemma post_validation_assignee body :
  post_validation body = true ->
  b_assignedTo body = None \/ exists i, b_assignedTo body = Some (HexId i).
Proof.
  unfold post_validation. intros H. apply andb_true_iff in H as [_ H].
  destruct (b_assignedTo body) as [[i|s]|]; simpl in H; eauto. discriminate.
Qed.

Lemma post_check_assignee_run body w :
  post_validation body = true ->
  post_check_assignee body w =
    if assignee_missing w body
    then (Sent (json 400 "Assigned user not found"), w)
    else (Next tt, w).
Proof.
  intros H. unfold post_check_assignee, assignee_missing.
  destruct (post_validation_assignee body H) as [->|[i ->]]; trivial.
  simpl. unfold bind, User_findById, gets, reply_if.
  now destruct (find_by user_id i (Users w)).
Qed.

Lemma new_task_run now P body w :
  post_validation body = true ->
  new_task now P body w = (Next (created now P body (nextId w)), bump 1 w).
Proof.
  intros H. unfold new_task, created, bind, newObjectId, bump.
  destruct (post_validation_assignee body H) as [->|[i ->]]; simpl;
    unfold ret; do 2 f_equal; lia.
Qed.

Lemma post_notify_run P body task w :
  post_notify P body task w
  = (Next tt, set_outbox (fun l => l ++ create_events P body task) w).
Proof.
  unfold post_notify, create_events, emit, modify, ret.
  destruct (b_assignedTo body) as [[j|s]|]; simpl;
    [destruct (N.eqb j (user_id P)); simpl|..];
    destruct w; unfold set_outbox; simpl; rewrite ?app_nil_r; reflexivity.
Qed.

Lemma post_attach_run now P task files w :
  task_valid now task = true ->
  post_attach now P task files w =
    match files with
    | [] => (Next task, w)
    | _ :: _ =>
        let docs := fresh_documents (task_id task) (user_id P) (nextId w) files in
        let w3 := add_documents docs (bump (List.length files) w) in
        if forallb document_valid docs
        then let t2 := with_documents task (map doc_id docs) in
             (Next t2, set_Tasks (upsert_task t2) w3)
        else (Thrown (ValidationError
                        (validation_message "TaskDocument"
                           (match find (fun d => negb (document_valid d)) docs with
                            | Some d => TaskDocument_validate d
                            | None => []
                            end))), w3)
    end.
Proof.
  intros Hv. unfold post_attach. destruct files as [|f files]; trivial.
  unfold bind at 1. rewrite new_documents_run.
  unfold bind at 1. rewrite saveAll_run. cbv zeta.
  destruct (forallb document_valid _); trivial.
  unfold bind. rewrite Task_save_run, task_valid_with_documents, Hv. reflexivity.
Qed.

Theorem POST_task_run now P body files w :
  POST_task now P body files w =
    match multer_scan files_limit files with
    | Some e => (errorHandler e, w)
    | None =>
        let w1 := store_uploads files w in
        if negb (post_validation body) then (validation_failed, w1) else
        if assignee_missing w body then (json 400 "Assigned user not found", w1) else
        let t := created now P body (nextId w) in
        let w2 := bump 1 w1 in
        if negb (task_valid now t) then (json 500 "Error creating task", w2) else
        let w3 := set_Tasks (upsert_task t) w2 in
        match files with
        | [] => posted P body t w3
        | _ :: _ =>
            let docs := fresh_documents (task_id t) (user_id P) (nextId w3) files in
            let w4 := add_documents docs (bump (List.length files) w3) in
            if forallb document_valid docs
            then let t2 := with_documents t (map doc_id docs) in
                 posted P body t2 (set_Tasks (upsert_task t2) w4)
            else (json 500 "Error creating task", w4)
        end
    end.
Proof.
  unfold POST_task, asyncHandler, post_task, upload_array, populate.
  unfold try_catch, bind, reply_if, reply, ret, throw, modify, gets.
  destruct (multer_scan files_limit files) as [e|]; [reflexivity|].
  cbv beta iota zeta. fold (store_uploads files w).
  set (w1 := store_uploads files w).
  destruct (post_validation body) eqn:Hval; [|reflexivity].
  cbn [negb]. cbv beta iota.
  rewrite post_check_assignee_run by exact Hval.
  change (assignee_missing w1 body) with (assignee_missing w body).
  destruct (assignee_missing w body); [reflexivity|]. cbv beta iota.
  rewrite new_task_run by exact Hval. cbv beta iota.
  change (nextId w1) with (nextId w).
  rewrite Task_save_run.
  destruct (task_valid now (created now P body (nextId w))) eqn:Hv; [|reflexivity].
  cbn [negb]. cbv beta iota.
  rewrite post_attach_run by exact Hv.
  destruct files as [|f files].
  - cbv beta iota. rewrite post_notify_run. reflexivity.
  - cbv zeta. destruct (forallb document_valid _); [|reflexivity].
    cbv beta iota. rewrite post_notify_run. reflexivity.
Qed.

(** ** Consistency is kept by every request *)

Lemma Consistent_same w w' :
  Tasks w' = Tasks w -> TaskDocuments w' = TaskDocuments w -> nextId w' = nextId w ->
  Consistent w -> Consistent w'.
Proof.
  intros Ht Hd Hn [C1 C2 C3 C4 C5 C6].
  constructor; unfold count_documents in *; rewrite ?Ht, ?Hd, ?Hn; auto.
Qed.

Lemma good_task_same w w' t :
  TaskDocuments w' = TaskDocuments w -> nextId w' = nextId w ->
  good_task w t -> good_task w' t.
Proof. unfold good_task. intros -> ->. trivial. Qed.

Lemma Consistent_bump n w : Consistent w -> Consistent (bump n w).
Proof.
  intros [C1 C2 C3 C4 C5 C6]. constructor; simpl; auto.
  - intros T HT. specialize (C1 T HT). lia.
  - intros D HD. specialize (C2 D HD). lia.
Qed.

Lemma stored_task_is_good w T : Consistent w -> In T (Tasks w) -> good_task w T.
Proof.
  intros C HT. repeat split.
  - apply (task_ids_known C _ HT).
  - apply (documents_listed_once C _ HT).
  - intros d Hd. apply (documents_stored C _ _ HT Hd).
Qed.

Lemma Consistent_upsert w t :
  Consistent w -> good_task w t -> Consistent (set_Tasks (upsert_task t) w).
Proof.
  intros C (G1 & G2 & G3). destruct C as [C1 C2 C3 C4 C5 C6].
  constructor; simpl; auto.
  - intros T HT. apply In_upsert_task in HT as [->|[HT _]]; auto.
  - intros T HT. apply In_upsert_task in HT as [->|[HT _]]; auto.
  - intros T d HT Hd. apply In_upsert_task in HT as [->|[HT _]]; eauto.
Qed.

Lemma count_documents_add docs w tid :
  count_documents (add_documents docs w) tid
  = count_documents w tid
    + List.length (filter (belongs_to tid) (filter document_valid docs)).
Proof.
  unfold count_documents, add_documents. simpl.
  now rewrite filter_app, length_app.
Qed.

Lemma filter_none {A} (p : A -> bool) l :
  (forall x, In x l -> p x = false) -> filter p l = [].
Proof.
  induction l as [|x l IH]; simpl; trivial.
  intros H. rewrite (H x) by now left. apply IH. intros y Hy. apply H. now right.
Qed.

Lemma Consistent_add_documents w tid u files :
  Consistent w -> (tid < nextId w)%N ->
  count_documents w tid + List.length files <= 3 ->
  Consistent (add_documents (fresh_documents tid u (nextId w) files)
                (bump (List.length files) w)).
Proof.
  intros [C1 C2 C3 C4 C5 C6] Htid Hcap.
  set (docs := fresh_documents tid u (nextId w) files).
  constructor; simpl.
  - intros T HT. specialize (C1 T HT). lia.
  - intros D HD. apply in_app_or in HD as [HD|HD].
    + specialize (C2 D HD). lia.
    + apply filter_In in HD as [HD _]. apply fresh_documents_In in HD. lia.
  - rewrite map_app. apply NoDup_app; trivial.
    + apply NoDup_map_filter, fresh_documents_NoDup.
    + intros i Hold Hnew.
      apply in_map_iff in Hold as (D & <- & HD). specialize (C2 D HD).
      apply in_map_iff in Hnew as (D' & Heq & HD').
      apply filter_In in HD' as [HD' _]. apply fresh_documents_In in HD'. lia.
  - auto.
  - intros T d HT Hd. destruct (C5 T d HT Hd) as (D & HD & Hid & Ht).
    exists D. split; auto. apply in_or_app. now left.
  - intros tid'.
    change (count_documents (add_documents docs (bump (List.length files) w)) tid' <= 3).
    rewrite count_documents_add.
    change (count_documents (bump (List.length files) w) tid') with (count_documents w tid').
    destruct (N.eqb_spec tid' tid) as [->|Hneq].
    + pose proof (filter_length_le (belongs_to tid) (filter document_valid docs)).
      pose proof (filter_length_le document_valid docs).
      unfold docs in *. rewrite fresh_documents_length in *. lia.
    + replace (filter (belongs_to tid') (filter document_valid docs)) with (@nil TaskDocument).
      * specialize (C6 tid'). simpl. lia.
      * symmetry. apply filter_none. intros D HD.
        apply filter_In in HD as [HD _]. apply fresh_documents_In in HD as [HD _].
        unfold belongs_to. apply N.eqb_neq. congruence.
Qed.

Lemma filter_all {A} (p : A -> bool) l : forallb p l = true -> filter p l = l.
Proof.
  induction l as [|x l IH]; simpl; trivial.
  intros H. apply andb_true_iff in H as [-> H]. now rewrite IH.
Qed.

(** Attaching the accepted files of a request to a task keeps the
    collections consistent, whether or not every document is saved. *)
Lemma attach_Consistent w t u files :
  Consistent w -> good_task w t ->
  count_documents w (task_id t) + List.length files <= 3 ->
  let docs := fresh_documents (task_id t) u (nextId w) files in
  let w3 := add_documents docs (bump (List.length files) w) in
  Consistent w3
  /\ (forallb document_valid docs = true ->
      Consistent (set_Tasks (upsert_task (with_documents t (documents t ++ map doc_id docs)))
                    w3)).
Proof.
  intros C G Hcap docs w3.
  assert (C3 : Consistent w3).
  { apply Consistent_add_documents; trivial. apply G. }
  split; trivial. intros Hvalid.
  apply Consistent_upsert; trivial.
  destruct G as (G1 & G2 & G3). repeat split; simpl.
  - lia.
  - apply NoDup_app; trivial.
    + apply fresh_documents_NoDup.
    + intros d Hold Hnew. destruct (G3 d Hold) as (D & HD & <- & _).
      apply (doc_ids_known C) in HD.
      apply in_map_iff in Hnew as (D' & Heq & HD').
      apply fresh_documents_In in HD'. lia.
  - intros d Hd. apply in_app_or in Hd as [Hd|Hd].
    + destruct (G3 d Hd) as (D & HD & Hid & Ht).
      exists D. split; auto. apply in_or_app. now left.
    + apply in_map_iff in Hd as (D & Hid & HD). exists D. split; [|split]; trivial.
      * apply in_or_app. right. fold docs. now rewrite (filter_all _ _ Hvalid).
      * now apply fresh_documents_In in HD.
Qed.

Lemma find_by_filter_other {A} (key : A -> ObjectId) x i l :
  find_by key i (filter (fun a => negb (N.eqb (key a) x)) l)
  = if N.eqb i x then None else find_by key i l.
Proof.
  destruct (N.eqb_spec i x) as [->|Hne]; [apply find_by_filter_out|].
  unfold find_by. induction l as [|a l IH]; simpl; trivial.
  destruct (N.eqb_spec (key a) x) as [Hx|Hx]; simpl.
  - destruct (N.eqb_spec (key a) i); [congruence|trivial].
  - destruct (N.eqb (key a) i); trivial.
Qed.

Lemma same_creators_refl w : same_creators w w.
Proof. split; [lia|]. eauto. Qed.

Lemma same_creators_trans w0 w1 w2 :
  same_creators w0 w1 -> same_creators w1 w2 -> same_creators w0 w2.
Proof.
  intros [H01 K01] [H12 K12]. split; [lia|].
  intros i T2 Hi H2. destruct (K12 i T2) as (T1 & H1 & E1); [lia|trivial|].
  destruct (K01 i T1 Hi H1) as (T0 & H0 & E0). exists T0. split; congruence.
Qed.

Lemma same_creators_same w0 w w' :
  Tasks w' = Tasks w -> (nextId w <= nextId w')%N ->
  same_creators w0 w -> same_creators w0 w'.
Proof. intros Ht Hn [H K]. split; [lia|]. now rewrite Ht. Qed.

Lemma same_creators_upsert w0 w t :
  same_creators w0 w ->
  ((task_id t < nextId w0)%N ->
   exists T, find_by task_id (task_id t) (Tasks w0) = Some T /\ createdBy t = createdBy T) ->
  same_creators w0 (set_Tasks (upsert_task t) w).
Proof.
  intros [H K] Ht. split; trivial. simpl. intros i T' Hi.
  rewrite find_by_upsert_task.
  destruct (N.eqb_spec (task_id t) i) as [<-|_]; auto.
  intros [= <-]. auto.
Qed.

Lemma same_creators_delete w0 w x :
  same_creators w0 w ->
  same_creators w0 (set_Tasks (filter (fun t => negb (N.eqb (task_id t) x))) w).
Proof.
  intros [H K]. split; trivial. simpl. intros i T' Hi.
  rewrite find_by_filter_other. destruct (N.eqb i x); [discriminate|auto].
Qed.

Lemma Consistent_delete_task w x ups :
  Consistent w ->
  Consistent (mkWorld (Users w)
                (filter (fun t => negb (N.eqb (task_id t) x)) (Tasks w))
                (filter (fun d => negb (belongs_to x d)) (TaskDocuments w))
                ups (outbox w) (nextId w)).
Proof.
  intros [C1 C2 C3 C4 C5 C6]. constructor; simpl.
  - intros T HT. apply filter_In in HT as [HT _]. auto.
  - intros D HD. apply filter_In in HD as [HD _]. auto.
  - now apply NoDup_map_filter.
  - intros T HT. apply filter_In in HT as [HT _]. auto.
  - intros T d HT Hd. apply filter_In in HT as [HT Hx].
    destruct (C5 T d HT Hd) as (D & HD & Hid & Ht). exists D. split; auto.
    apply filter_In. split; trivial. unfold belongs_to. rewrite Ht. exact Hx.
  - intros tid. specialize (C6 tid).
    pose proof (count_documents_filter w tid (fun d => negb (belongs_to x d))) as H.
    unfold count_documents in *. simpl in *. lia.
Qed.

Lemma Consistent_remove_document w x :
  Consistent w ->
  (forall T, In T (Tasks w) -> ~ In x (documents T)) ->
  Consistent (set_TaskDocuments (filter (fun d => negb (N.eqb (doc_id d) x))) w).
Proof.
  intros [C1 C2 C3 C4 C5 C6] Hx. constructor; simpl; auto.
  - intros D HD. apply filter_In in HD as [HD _]. auto.
  - now apply NoDup_map_filter.
  - intros T d HT Hd. destruct (C5 T d HT Hd) as (D & HD & Hid & Ht).
    exists D. split; auto. apply filter_In. split; trivial.
    apply negb_true_iff, N.eqb_neq. intros E. apply (Hx T HT). congruence.
  - intros tid. specialize (C6 tid).
    pose proof (count_documents_filter w tid (fun d => negb (N.eqb (doc_id d) x))) as H.
    unfold count_documents in *. simpl in *. lia.
Qed.

Lemma GET_task_world P id w : snd (GET_task P id w) = w.
Proof.
  destruct (find_by task_id id (Tasks w)) as [T|] eqn:E.
  - now rewrite (@GET_task_existing P id w T E).
  - unfold GET_task, asyncHandler, get_task, bind, Task_findById, gets. now rewrite E.
Qed.

Lemma GET_tasks_world regex sort P q w : snd (GET_tasks regex sort P q w) = w.
Proof.
  unfold GET_tasks, asyncHandler, get_tasks, try_catch, Task_find, compile_search.
  destruct (filter_casts (build_query P q)); [|reflexivity].
  destruct (f_and (build_query P q)) as [p|]; [destruct (regex p)|];
    unfold bind, ret, throw, gets; cbv beta iota; try reflexivity;
    (destruct (cursor_page _ _ _); [rewrite populate_all_populated|]; reflexivity).
Qed.

Lemma DELETE_user_world P id w :
  Tasks (snd (DELETE_user P id w)) = Tasks w
  /\ TaskDocuments (snd (DELETE_user P id w)) = TaskDocuments w
  /\ nextId (snd (DELETE_user P id w)) = nextId w.
Proof.
  unfold DELETE_user, asyncHandler, delete_user, adminAuth, try_catch,
    bind, reply_if, reply, ret, User_findById, User_findByIdAndDelete, gets, modify.
  destruct (negb (is_admin (role P))); [auto|].
  destruct (equals (user_id P) id); [auto|]. cbv beta iota.
  destruct (find_by user_id id (Users w)); auto.
Qed.

Lemma DELETE_task_sound P id w :
  Consistent w ->
  Consistent (snd (DELETE_task P id w)) /\ same_creators w (snd (DELETE_task P id w)).
Proof.
  intros C. destruct (find_by task_id id (Tasks w)) as [T|] eqn:E.
  - rewrite (@DELETE_task_existing P id w T E).
    destruct (negb (is_admin (role P)) && negb (equals (createdBy T) (user_id P)));
      [split; [trivial|apply same_creators_refl]|].
    cbn [snd]. destruct (find_by_id _ _ _ E) as [-> _]. split.
    + now apply Consistent_delete_task.
    + apply same_creators_same
        with (w := set_Tasks (filter (fun t => negb (N.eqb (task_id t) id))) w);
        [reflexivity|simpl; lia|].
      apply same_creators_delete, same_creators_refl.
  - rewrite (delete_missing_task_lemma P id w E).
    split; [trivial|apply same_creators_refl].
Qed.

Ltac same_collections C := (eapply Consistent_same; [| | |exact C]; reflexivity).
Ltac same_tasks R := (eapply same_creators_same; [| |exact R]; [reflexivity|simpl; lia]).

Lemma PUT_task_sound show now P id body files w :
  Consistent w ->
  Consistent (snd (PUT_task show now P id body files w))
  /\ same_creators w (snd (PUT_task show now P id body files w)).
Proof.
  intros C. rewrite PUT_task_run.
  assert (R := same_creators_refl w).
  destruct (multer_scan files_limit files) as [e|]; [now split|].
  cbv zeta. set (w1 := store_uploads files w).
  assert (C1 : Consistent w1) by same_collections C.
  assert (R1 : same_creators w w1) by same_tasks R.
  destruct (put_validation body); cbn [negb]; [|now split].
  destruct (find_by task_id id (Tasks w)) as [T|] eqn:E; [|now split].
  destruct (find_by_id _ _ _ E) as [Hid HT].
  destruct (update_denied P T); [now split|].
  destruct (assignee_missing w body); [now split|].
  destruct (task_valid now (edit body T)); cbn [negb]; [|now split].
  set (t1 := edit body T). set (w2 := set_Tasks (upsert_task t1) w1).
  assert (G1 : good_task w1 t1).
  { apply (@good_task_same w w1 t1 eq_refl eq_refl). exact (@stored_task_is_good w T C HT). }
  assert (C2 : Consistent w2) by (now apply Consistent_upsert).
  assert (K : forall ds, (task_id (with_documents t1 ds) < nextId w)%N ->
                exists T0, find_by task_id (task_id (with_documents t1 ds)) (Tasks w) = Some T0
                           /\ createdBy (with_documents t1 ds) = createdBy T0).
  { intros ds _. exists T. simpl. now rewrite Hid. }
  assert (R2 : same_creators w w2).
  { apply same_creators_upsert; trivial. apply (K (documents t1)). }
  assert (G2 : good_task w2 t1) by exact G1.
  destruct files as [|f files].
  - unfold updated. cbn [snd]. split.
    + same_collections C2.
    + same_tasks R2.
  - destruct (Nat.ltb 3 _) eqn:Hcap; [now split|].
    apply Nat.ltb_ge in Hcap. cbv zeta.
    destruct (@attach_Consistent w2 t1 (user_id P) (f :: files) C2 G2 Hcap) as [C3 C4].
    set (docs := fresh_documents (task_id t1) (user_id P) (nextId w) (f :: files)) in *.
    set (w3 := add_documents docs (bump (List.length (f :: files)) w2)) in *.
    assert (R3 : same_creators w w3).
    { same_tasks R2. }
    destruct (forallb document_valid docs) eqn:Hall; [|now split].
    unfold updated. cbn [snd]. split.
    + specialize (C4 Hall). same_collections C4.
    + assert (R4 : same_creators w
                     (set_Tasks (upsert_task (with_documents t1 (documents t1 ++ map doc_id docs)))
                        w3))
        by (apply same_creators_upsert; [exact R3|apply K]).
      same_tasks R4.
Qed.

Lemma POST_task_sound now P body files w :
  Consistent w ->
  Consistent (snd (POST_task now P body files w))
  /\ same_creators w (snd (POST_task now P body files w)).
Proof.
  intros C. rewrite POST_task_run.
  assert (R := same_creators_refl w).
  destruct (multer_scan files_limit files) as [e|] eqn:Hm; [now split|].
  cbv zeta. set (w1 := store_uploads files w).
  assert (C1 : Consistent w1) by same_collections C.
  assert (R1 : same_creators w w1) by same_tasks R.
  destruct (post_validation body); cbn [negb]; [|now split].
  destruct (assignee_missing w body); [now split|].
  set (t := created now P body (nextId w)). set (w2 := bump 1 w1).
  assert (C2 : Consistent w2) by (now apply Consistent_bump).
  assert (R2 : same_creators w w2) by same_tasks R.
  destruct (task_valid now t); cbn [negb]; [|now split].
  set (w3 := set_Tasks (upsert_task t) w2).
  assert (G : good_task w2 t).
  { repeat split; simpl; [lia|constructor|tauto]. }
  assert (C3 : Consistent w3) by (now apply Consistent_upsert).
  assert (K : forall ds, (task_id (with_documents t ds) < nextId w)%N ->
                exists T0, find_by task_id (task_id (with_documents t ds)) (Tasks w) = Some T0
                           /\ createdBy (with_documents t ds) = createdBy T0).
  { simpl. intros _ H. lia. }
  assert (R3 : same_creators w w3).
  { apply same_creators_upsert; trivial. apply (K []). }
  destruct files as [|f files].
  - unfold posted. cbn [snd]. split.
    + same_collections C3.
    + same_tasks R3.
  - cbv zeta.
    assert (Hcap : count_documents w3 (task_id t) + List.length (f :: files) <= 3).
    { assert (Hlen : List.length (f :: files) <= 3).
      { clear -Hm. unfold files_limit in Hm.
        destruct files as [|f2 [|f3 [|f4 files]]]; simpl; try lia.
        simpl in Hm. repeat (match type of Hm with
                             | (if ?c then _ else _) = None => destruct c; try discriminate
                             end). }
      assert (H0 : count_documents w3 (task_id t) = 0).
      { unfold count_documents. simpl. rewrite filter_none; trivial.
        intros D HD. apply (doc_ids_known C) in HD. unfold belongs_to.
        apply N.eqb_neq. lia. }
      lia. }
    destruct (@attach_Consistent w3 t (user_id P) (f :: files) C3 G Hcap) as [C4 C5].
    set (docs := fresh_documents (task_id t) (user_id P) (nextId w3) (f :: files)) in *.
    set (w4 := add_documents docs (bump (List.length (f :: files)) w3)) in *.
    assert (R4 : same_creators w w4).
    { same_tasks R3. }
    destruct (forallb document_valid docs) eqn:Hall; [|now split].
    unfold posted. cbn [snd]. split.
    + specialize (C5 eq_refl). same_collections C5.
    + assert (R5 : same_creators w
                     (set_Tasks (upsert_task (with_documents t (map doc_id docs))) w4))
        by (apply same_creators_upsert; [exact R4|apply K]).
      same_tasks R5.
Qed.

Lemma DELETE_document_missing now P id documentId w :
  find_by task_id id (Tasks w) = None
  \/ find (fun d => N.eqb (doc_id d) documentId && belongs_to id d) (TaskDocuments w) = None ->
  snd (DELETE_document now P id documentId w) = w.
Proof.
  unfold DELETE_document, asyncHandler, delete_document, Task_findById, TaskDocument_findOne.
  unfold bind at 1. unfold gets at 1.
  destruct (find_by task_id id (Tasks w)) as [T|]; [|reflexivity].
  intros [H|H]; [discriminate|].
  unfold bind at 1. unfold gets at 1. now rewrite H.
Qed.

Lemma DELETE_document_sound now P id documentId w :
  Consistent w ->
  Consistent (snd (DELETE_document now P id documentId w))
  /\ same_creators w (snd (DELETE_document now P id documentId w)).
Proof.
  intros C. assert (R := same_creators_refl w).
  destruct (find_by task_id id (Tasks w)) as [T|] eqn:ET;
    [|rewrite DELETE_document_missing by auto; now split].
  destruct (find (fun d => N.eqb (doc_id d) documentId && belongs_to id d) (TaskDocuments w))
    as [D|] eqn:ED; [|rewrite DELETE_document_missing by auto; now split].
  rewrite (@DELETE_document_existing now P id documentId w T D ET ED).
  destruct (find_by_id _ _ _ ET) as [Hid HT].
  apply find_some in ED as [HD HDt]. apply andb_true_iff in HDt as [_ HDt].
  unfold belongs_to in HDt. apply N.eqb_eq in HDt.
  destruct (negb (is_admin (role P)) && negb (equals (createdBy T) (user_id P))
            && negb (equals (uploadedBy D) (user_id P))); [now split|].
  cbv zeta. set (w1 := set_uploads _ w).
  assert (C1 : Consistent w1) by same_collections C.
  assert (R1 : same_creators w w1) by same_tasks R.
  destruct (task_valid now T); [|now split].
  cbn [snd]. set (t' := without_document D T).
  set (w2 := set_Tasks (upsert_task t') w1).
  assert (G : good_task w1 t').
  { destruct (@stored_task_is_good w T C HT) as (G1 & G2 & G3).
    repeat split; simpl; trivial.
    - now apply NoDup_filter.
    - intros d Hd. apply filter_In in Hd as [Hd _]. now apply G3. }
  assert (C2 : Consistent w2) by (now apply Consistent_upsert).
  split.
  - apply Consistent_remove_document; trivial.
    intros T' HT' Hin. apply In_upsert_task in HT' as [->|[HT' Hne]].
    + simpl in Hin. apply filter_In in Hin as [_ Hin].
      unfold equals in Hin. now rewrite N.eqb_refl in Hin.
    + destruct (documents_stored C _ _ HT' Hin) as (D' & HD' & Hid' & Ht').
      assert (D' = D) by (apply (NoDup_map_injective doc_id _ _ _ (doc_ids_unique C) HD' HD Hid')).
      subst D'. simpl in Hne. congruence.
  - assert (R2 : same_creators w w2).
    { apply same_creators_upsert; trivial. intros _. exists T. simpl. now rewrite Hid. }
    same_tasks R2.
Qed.

Section ServerFacts.

Variable regex : string -> option (string -> bool).
Variable sort : string -> bool -> list Task -> list Task.
Variable docToString : PopulatedUser -> Shown.

Lemma serve_sound r w :
  Consistent w ->
  Consistent (snd (serve regex sort docToString r w))
  /\ same_creators w (snd (serve regex sort docToString r w)).
Proof.
  intros C. destruct r as [P q|P id|now P body files|now P id body files|P id|now P id d|P id];
    cbn [serve].
  - rewrite GET_tasks_world. split; [trivial|apply same_creators_refl].
  - rewrite GET_task_world. split; [trivial|apply same_creators_refl].
  - now apply POST_task_sound.
  - now apply PUT_task_sound.
  - now apply DELETE_task_sound.
  - now apply DELETE_document_sound.
  - destruct (DELETE_user_world P id w) as (Ht & Hd & Hn). split.
    + eapply Consistent_same; [exact Ht|exact Hd|exact Hn|exact C].
    + eapply same_creators_same; [exact Ht|rewrite Hn; apply N.le_refl|apply same_creators_refl].
Qed.

Lemma run_sound rs w :
  Consistent w ->
  Consistent (run regex sort docToString rs w)
  /\ same_creators w (run regex sort docToString rs w).
Proof.
  revert w. induction rs as [|r rs IH]; intros w C; simpl.
  - split; [trivial|apply same_creators_refl].
  - destruct (serve_sound r C) as [C1 R1].
    destruct (IH _ C1) as [C2 R2]. split; trivial.
    eapply same_creators_trans; eassumption.
Qed.

End ServerFacts.

Lemma initial_Consistent accounts : Consistent (initial accounts).
Proof.
  constructor; simpl; try tauto; try constructor.
  unfold count_documents. simpl. intros. lia.
Qed.

(** ** The document limit and the creator of a task *)

Lemma multer_scan_length n files :
  multer_scan n files = None -> List.length files <= n.
Proof.
  revert n. induction files as [|f files IH]; intros n H; [simpl; lia|].
  destruct n as [|n]; [discriminate|].
  unfold multer_scan in H. fold multer_scan in H.
  destruct (negb (fileFilter f)); [discriminate|].
  destruct (N.ltb fileSize_limit (file_size f)); [discriminate|].
  apply IH in H. simpl. lia.
Qed.

Lemma multer_scan_too_many n files :
  forallb (fun f => fileFilter f && negb (N.ltb fileSize_limit (file_size f))) files = true ->
  n < List.length files ->
  multer_scan n files = Some (MulterError "LIMIT_FILE_COUNT").
Proof.
  revert n. induction files as [|f files IH]; intros n Hgood Hlen; [simpl in Hlen; lia|].
  destruct n as [|n]; [reflexivity|].
  unfold multer_scan. fold multer_scan.
  cbn [forallb] in Hgood. apply andb_true_iff in Hgood as [Hf Hgood].
  apply andb_true_iff in Hf as [Hpdf Hsize]. rewrite Hpdf. cbn [negb].
  apply negb_true_iff in Hsize. rewrite Hsize.
  apply IH; trivial. simpl in Hlen. lia.
Qed.

Lemma rejected_attach_attaches_nothing show now P id body files w T :
  existing_task w id T -> files <> [] ->
  3 < count_documents w id + List.length files ->
  statusCode (fst (PUT_task show now P id body files w)) <> 200
  /\ TaskDocuments (snd (PUT_task show now P id body files w)) = TaskDocuments w
  /\ (forall i, option_map documents
                  (find_by task_id i (Tasks (snd (PUT_task show now P id body files w))))
                = option_map documents (find_by task_id i (Tasks w)))
  /\ (multer_scan files_limit files = None -> put_validation body = true ->
      update_denied P T = false -> assignee_missing w body = false ->
      task_valid now (edit body T) = true ->
      fst (PUT_task show now P id body files w) = limit_exceeded).
Proof.
  intros HT Hfiles Hcap. rewrite PUT_task_run.
  unfold existing_task in HT. rewrite HT.
  destruct (find_by_id _ _ _ HT) as [Hid _].
  destruct (multer_scan files_limit files) as [e|].
  { repeat split; trivial; try discriminate.
    destruct (errorHandler_code e) as [H|H]; simpl; rewrite H; discriminate. }
  cbv zeta.
  destruct (put_validation body); cbn [negb]; [|repeat split; trivial; discriminate].
  destruct (update_denied P T); [repeat split; trivial; discriminate|].
  destruct (assignee_missing w body); [repeat split; trivial; discriminate|].
  destruct (task_valid now (edit body T)); cbn [negb]; [|repeat split; trivial; discriminate].
  destruct files as [|f files]; [congruence|].
  replace (Nat.ltb 3 (count_documents w (task_id (edit body T)) + List.length (f :: files)))
    with true
    by (symmetry; apply Nat.ltb_lt; cbn [task_id edit]; rewrite Hid; exact Hcap).
  repeat split; trivial; try discriminate.
  intros i. cbn [snd Tasks set_Tasks store_uploads set_uploads].
  rewrite find_by_upsert_task. cbn [task_id edit].
  destruct (N.eqb_spec (task_id T) i) as [<-|_]; trivial.
  rewrite Hid, HT. reflexivity.
Qed.

(** C3: from a consistent database (the empty one is), after any
    sequence of requests no task lists more than three documents; an
    update that carries files and would bring the stored documents of its
    task above three never answers 200, stores no document record and
    changes the document list of no task, and answers "Maximum 3
    documents allowed per task" once it gets as far as the attachment; a
    create request with more than three files is refused by the upload
    middleware and leaves the world as it was. *)
Theorem documents_never_exceed_three
        (regex : string -> option (string -> bool))
        (sort : string -> bool -> list Task -> list Task)
        (show : PopulatedUser -> Shown)
        (rs : list Request) (w0 : World)
  (Hconsistent : Consistent w0) :
  (forall T, In T (Tasks (run regex sort show rs w0)) -> List.length (documents T) <= 3)
  /\ (forall now P id body files w T,
        existing_task w id T -> files <> [] ->
        3 < count_documents w id + List.length files ->
        statusCode (fst (PUT_task show now P id body files w)) <> 200
        /\ TaskDocuments (snd (PUT_task show now P id body files w)) = TaskDocuments w
        /\ (forall i, option_map documents
                        (find_by task_id i (Tasks (snd (PUT_task show now P id body files w))))
                      = option_map documents (find_by task_id i (Tasks w)))
        /\ (multer_scan files_limit files = None -> put_validation body = true ->
            update_denied P T = false -> assignee_missing w body = false ->
            task_valid now (edit body T) = true ->
            fst (PUT_task show now P id body files w) = limit_exceeded))
  /\ (forall now P body files w,
        3 < List.length files ->
        statusCode (fst (POST_task now P body files w)) <> 201
        /\ snd (POST_task now P body files w) = w
        /\ (forallb (fun f => fileFilter f && negb (N.ltb fileSize_limit (file_size f))) files
            = true ->
            fst (POST_task now P body files w) = json 400 "Too many files")).
Proof.
  split; [|split].
  - intros T HT. destruct (run_sound regex sort show rs Hconsistent) as [C _].
    exact (@consistent_at_most_three _ T C HT).
  - intros. now apply rejected_attach_attaches_nothing.
  - intros now P body files w Hlen. rewrite POST_task_run.
    destruct (multer_scan files_limit files) as [e|] eqn:Hm.
    + split; [|split]; trivial.
      * destruct (errorHandler_code e) as [H|H]; simpl; rewrite H; discriminate.
      * intros Hgood. cbn [fst].
        rewrite (@multer_scan_too_many files_limit files Hgood Hlen) in Hm.
        now injection Hm as <-.
    + apply multer_scan_length in Hm. unfold files_limit in Hm. lia.
Qed.

Lemma documents_never_exceed_three_witness :
  Forall (fun T => List.length (documents T) <= 3)
    (Tasks (run Sample.no_regex Sample.unsorted inspectOf Sample.two_then_two
              (initial [Sample.alice; Sample.bob; Sample.carol]))).
Proof.
  apply Forall_forall.
  apply (documents_never_exceed_three Sample.no_regex Sample.unsorted inspectOf
           Sample.two_then_two
           (initial_Consistent [Sample.alice; Sample.bob; Sample.carol])).
Defined.

Example two_then_two_keeps_two :
  map documents
    (Tasks (run Sample.no_regex Sample.unsorted inspectOf Sample.two_then_two
              (initial [Sample.alice; Sample.bob; Sample.carol])))
  = [[1%N; 2%N]].
Proof. vm_compute. reflexivity. Qed.

Lemma POST_task_ignores_createdBy now P body files w c :
  POST_task now P (with_createdBy body c) files w = POST_task now P body files w.
Proof. reflexivity. Qed.

Lemma PUT_task_ignores_createdBy show now P id body files w c :
  PUT_task show now P id (with_createdBy body c) files w
  = PUT_task show now P id body files w.
Proof. reflexivity. Qed.



Lemma Sample_world_Consistent : Consistent Sample.world.
Proof.
  constructor; simpl.
  - intros T [<-|[<-|[<-|[]]]]; simpl; lia.
  - intros D [<-|[]]; simpl; lia.
  - repeat constructor. simpl. tauto.
  - intros T [<-|[<-|[<-|[]]]]; simpl; repeat constructor; simpl; tauto.
  - intros T d [<-|[<-|[<-|[]]]]; simpl; try tauto.
    intros [<-|[]]. exists Sample.report_pdf. simpl. auto.
  - intros tid. unfold count_documents. simpl.
    destruct (belongs_to tid Sample.report_pdf); simpl; lia.
Qed.


(** ** The routes on the sample world *)

Example trim_both_ends : trim "  a b  " = "a b".
Proof. reflexivity. Qed.

Example carol_lists_her_tasks :
  match data (fst (GET_tasks Sample.no_regex Sample.unsorted Sample.carol
                     Sample.all_tasks Sample.world)) with
  | TaskPage ts page total => (map (fun t => task_id (raw t)) ts, page, total)
  | _ => ([], 0%Z, 0)
  end = ([10%N; 12%N], 1%Z, 2).
Proof. vm_compute. reflexivity. Qed.

Example alice_lists_every_task :
  match data (fst (GET_tasks Sample.no_regex Sample.unsorted Sample.alice
                     Sample.all_tasks Sample.world)) with
  | TaskPage ts page total => (map (fun t => task_id (raw t)) ts, page, total)
  | _ => ([], 0%Z, 0)
  end = ([10%N; 11%N; 12%N], 1%Z, 3).
Proof. vm_compute. reflexivity. Qed.

Example creation_notifies_the_assignee :
  outbox (snd (POST_task Sample.now Sample.bob
                 (Sample.titled "T1" (Some Sample.carol) (Some (HexId 1%N)))
                 [] Sample.world))
  = [mkEvent (room_of_user (user_id Sample.carol)) taskAssigned 100%N]
  /\ option_map createdBy
       (find_by task_id 100%N
          (Tasks (snd (POST_task Sample.now Sample.bob
                         (Sample.titled "T1" (Some Sample.carol) (Some (HexId 1%N)))
                         [] Sample.world))))
     = Some (user_id Sample.bob).
Proof. split; vm_compute; reflexivity. Qed.

Example deleting_report_removes_its_document :
  DELETE_task Sample.bob 10%N Sample.world
  = (json 200 "Task deleted successfully",
     mkWorld (Users Sample.world) [Sample.notes; Sample.taxes] [] [] [] 100%N).
Proof. vm_compute. reflexivity. Qed.

(** An update that leaves the assignee of [report] in place, under the
    two readings of the rendering of the populated assignee: as the bare
    identifier, only [taskUpdated] goes to the room of carol; as the
    rendering of the document, the new value never equals the old
    identifier, [taskAssigned] is emitted as well, and neither event is
    addressed to the room carol has joined. *)
Example unchanged_assignee_by_identifier :
  outbox (snd (PUT_task hexOf Sample.now Sample.bob 10%N Sample.mark_completed []
                 Sample.world))
  = [mkEvent (room_of_user (user_id Sample.carol)) taskUpdated 10%N].
Proof. vm_compute. reflexivity. Qed.

Example unchanged_assignee_by_rendering :
  outbox (snd (PUT_task inspectOf Sample.now Sample.bob 10%N Sample.mark_completed []
                 Sample.world))
  = [mkEvent (InspectOf 3%N "carol@example.com") taskAssigned 10%N;
     mkEvent (InspectOf 3%N "carol@example.com") taskUpdated 10%N].
Proof. vm_compute. reflexivity. Qed.

(** ** The overdue flag and the due-date validator *)

(** X1: a task that the virtual [isOverdue] flags can no longer be saved:
    [task.save()] rejects with the due-date message and stores nothing.
    A completed task, and a task without due date, is never flagged. *)
Theorem overdue_task_cannot_be_saved (now : Z) (t : Task) (w : World)
  (Hoverdue : isOverdue now t = true) :
  Task_save now t w
  = (Thrown (ValidationError (validation_message "Task" (Task_validate now t))), w)
  /\ In ("dueDate", "Due date must be in the future") (Task_validate now t)
  /\ status t <> completed
  /\ dueDate t <> None.
Proof.
  unfold isOverdue in Hoverdue.
  destruct (dueDate t) as [d|] eqn:Hd; [|discriminate].
  apply andb_true_iff in Hoverdue as [Hlt Hst]. apply Z.ltb_lt in Hlt.
  assert (Hinv : task_valid now t = false) by (apply overdue_is_invalid with d; [assumption|lia]).
  repeat split.
  - rewrite Task_save_run. now rewrite Hinv.
  - unfold Task_validate. apply in_or_app. right. apply in_or_app. right.
    unfold dueDate_validator. rewrite Hd.
    replace (now <? d)%Z with false by (symmetry; apply Z.ltb_ge; lia). now left.
  - intros E. rewrite E in Hst. discriminate.
  - discriminate.
Qed.

Lemma overdue_task_cannot_be_saved_witness :
  isOverdue Sample.now Sample.taxes = true
  /\ snd (Task_save Sample.now Sample.taxes Sample.world) = Sample.world.
Proof.
  split; [reflexivity|].
  destruct (@overdue_task_cannot_be_saved Sample.now Sample.taxes Sample.world eq_refl)
    as [H _].
  now rewrite H.
Defined.

(** ** The document routes *)

Lemma existsb_eqb_In (p : string) (l : list string) :
  existsb (String.eqb p) l = true <-> In p l.
Proof.
  rewrite existsb_exists. split.
  - intros (q & Hq & E). apply String.eqb_eq in E. now subst.
  - intros H. exists p. split; trivial. apply String.eqb_refl.
Qed.

Lemma send_document_run kind id documentId w :
  send_document kind id documentId w =
    match find (fun d => N.eqb (doc_id d) documentId && belongs_to id d) (TaskDocuments w) with
    | None => (Sent (json 404 "Document not found"), w)
    | Some D =>
        if existsb (String.eqb (filePath D)) (uploads w)
        then (Next (SentFile (content_disposition kind D) (mimeType D) (fileSize D) (filePath D)), w)
        else (Sent (json 404 "File not found on server"), w)
    end.
Proof.
  unfold send_document, bind, TaskDocument_findOne, gets.
  destruct (find _ (TaskDocuments w)) as [D|]; [|reflexivity].
  unfold try_catch, fs_access, content_disposition.
  destruct (existsb (String.eqb (filePath D)) (uploads w)); reflexivity.
Qed.

Lemma access_refused_spec P T : access_refused P T = false <-> canView P T.
Proof.
  unfold access_refused, canView, equals.
  destruct (role P); simpl; [|split; auto].
  destruct (N.eqb_spec (createdBy T) (user_id P)) as [Hc|Hc].
  - rewrite andb_false_r. split; auto.
  - rewrite andb_true_r.
    destruct (assignedTo T) as [a|]; [destruct (N.eqb_spec a (user_id P)) as [Ha|Ha]|]; simpl.
    + subst a. split; auto.
    + split; [discriminate|]. intros [H|[H|H]]; try discriminate; try contradiction.
      congruence.
    + split; [discriminate|]. intros [H|[H|H]]; try discriminate; contradiction.
Qed.

Lemma GET_download_existing P id documentId w T :
  existing_task w id T ->
  GET_download P id documentId w =
    if access_refused P T then (download_refused, w)
    else asyncServe (send_document "attachment" id documentId) w.
Proof.
  intros HT. unfold existing_task in HT.
  unfold GET_download, asyncServe, download_document, Task_findById.
  unfold bind at 1. unfold gets at 1. rewrite HT.
  unfold bind at 1. unfold reply_if, download_refused.
  destruct (access_refused P T); reflexivity.
Qed.

(** X2: the download route on an existing task never changes the world;
    it refuses with 403 exactly the principals who are neither admin,
    creator nor assignee -- whether or not the creator's account still
    exists --; for the others, a stored document of the task whose file is
    on disk is sent as an attachment under its original name with its
    stored type and size, a stored document whose file is gone is
    answered 404 "File not found on server", and an identifier that names
    no document of the task 404 "Document not found". *)
Theorem download_rule (P : User) (id documentId : ObjectId) (w : World) (T : Task)
  (HT : existing_task w id T) :
  snd (GET_download P id documentId w) = w
  /\ (fst (GET_download P id documentId w) = download_refused <-> ~ canView P T)
  /\ (canView P T ->
      match find (fun d => N.eqb (doc_id d) documentId && belongs_to id d) (TaskDocuments w) with
      | Some D =>
          (In (filePath D) (uploads w) ->
           fst (GET_download P id documentId w)
           = SentFile (content_disposition "attachment" D) (mimeType D) (fileSize D) (filePath D))
          /\ (~ In (filePath D) (uploads w) ->
              fst (GET_download P id documentId w) = Json (json 404 "File not found on server"))
      | None => fst (GET_download P id documentId w) = Json (json 404 "Document not found")
      end).
Proof.
  rewrite (@GET_download_existing P id documentId w T HT).
  pose proof (access_refused_spec P T) as Hspec.
  unfold asyncServe. rewrite send_document_run.
  destruct (access_refused P T).
  - assert (Hno : ~ canView P T) by (intros H; apply Hspec in H; discriminate).
    repeat split; auto. intros H. contradiction.
  - assert (Hyes : canView P T) by (now apply Hspec).
    destruct (find _ (TaskDocuments w)) as [D|].
    + pose proof (existsb_eqb_In (filePath D) (uploads w)) as HIn.
      destruct (existsb (String.eqb (filePath D)) (uploads w)); cbn [fst snd].
      * repeat split; auto; try (intros H; discriminate H); try tauto.
      * repeat split; auto; try (intros H; discriminate H); try tauto.
        intros Hi. apply HIn in Hi. discriminate.
    + cbn [fst snd]. repeat split; auto; try (intros H; discriminate H); tauto.
Qed.

Lemma download_rule_witness :
  fst (GET_download Sample.carol 10%N 20%N Sample.world)
  = SentFile (content_disposition "attachment" Sample.report_pdf)
      "application/pdf" 42%N "uploads/tasks/documents-1.pdf"
  /\ fst (GET_download Sample.dave 10%N 20%N Sample.world_without_bob) = download_refused
  /\ fst (GET_download Sample.carol 10%N 20%N Demo.world_without_file)
     = Json (json 404 "File not found on server").
Proof.
  split; [|split].
  - destruct (@download_rule Sample.carol 10%N 20%N Sample.world Sample.report eq_refl)
      as (_ & _ & H).
    assert (Hc : canView Sample.carol Sample.report) by (right; right; reflexivity).
    specialize (H Hc). simpl in H. apply H. now left.
  - apply (@download_rule Sample.dave 10%N 20%N Sample.world_without_bob Sample.report eq_refl).
    unfold canView. simpl. intros [?|[?|?]]; discriminate.
  - destruct (@download_rule Sample.carol 10%N 20%N Demo.world_without_file Sample.report
                eq_refl) as (_ & _ & H).
    assert (Hc : canView Sample.carol Sample.report) by (right; right; reflexivity).
    specialize (H Hc). simpl in H. apply H. simpl. tauto.
Defined.

Lemma replace_first_unfold p r s :
  replace_first p r s =
    if String.prefix p s
    then (r ++ String.substring (String.length p) (String.length s - String.length p) s)%string
    else match s with
         | EmptyString => EmptyString
         | String c rest => String c (replace_first p r rest)
         end.
Proof. destruct s; reflexivity. Qed.

Lemma prefix_append p t : String.prefix p (p ++ t) = true.
Proof.
  induction p as [|c p IH]; simpl.
  - now destruct t.
  - destruct (ascii_dec c c); [exact IH|congruence].
Qed.

Lemma substring_whole t : String.substring 0 (String.length t) t = t.
Proof. induction t as [|c t IH]; simpl; congruence. Qed.

Lemma substring_after p t :
  String.substring (String.length p) (String.length (p ++ t) - String.length p) (p ++ t) = t.
Proof.
  induction p as [|c p IH]; simpl.
  - rewrite Nat.sub_0_r. apply substring_whole.
  - exact IH.
Qed.

Lemma replace_first_prefix p t : replace_first p "" (p ++ t) = t.
Proof.
  rewrite replace_first_unfold, prefix_append. simpl. apply substring_after.
Qed.

Section ViewFacts.

Variable jwt_verify : string -> option (option IdString).

Lemma token_user_run tok w :
  token_user jwt_verify tok w =
    match jwt_verify tok with
    | None | Some (Some (NotHex _)) => (Sent (json 401 "Invalid token."), w)
    | Some None => (Sent (json 401 "Invalid token. User not found."), w)
    | Some (Some (HexId i)) =>
        match find_by user_id i (Users w) with
        | Some user => (Next user, w)
        | None => (Sent (json 401 "Invalid token. User not found."), w)
        end
    end.
Proof.
  unfold token_user, try_catch.
  destruct (jwt_verify tok) as [[[i|s]|]|]; try reflexivity.
  unfold bind, User_findById_str, User_findById, gets.
  destruct (find_by user_id i (Users w)); reflexivity.
Qed.

Lemma GET_view_with_user auth q id documentId w tok P :
  or_string (option_map (replace_first "Bearer " "") auth) q = Some tok ->
  truthy tok = true ->
  token_user jwt_verify tok w = (Next P, w) ->
  GET_view jwt_verify auth q id documentId w =
    match find_by task_id id (Tasks w) with
    | None => (Json (json 404 "Task not found"), w)
    | Some T =>
        if access_refused P T
        then (Json (json 403 "Access denied. You can only view documents from tasks assigned to you or created by you."), w)
        else asyncServe (send_document "inline" id documentId) w
    end.
Proof.
  intros Htok Htruthy Huser.
  unfold GET_view, asyncServe, view_document. rewrite Htok, Htruthy.
  unfold bind at 1. rewrite Huser.
  unfold bind at 1. unfold Task_findById, gets.
  destruct (find_by task_id id (Tasks w)) as [T|]; [|reflexivity].
  unfold bind at 1. unfold reply_if.
  destruct (access_refused P T); reflexivity.
Qed.

(** X3: the view route gives a principal what the download route gives:
    when the token of the request (from the header or the query string)
    verifies to the identifier of a stored user, the view route answers
    with the same status as the download route does for that user and
    sends the same file (inline instead of as an attachment), and it
    changes nothing. *)
Theorem view_agrees_with_download
        (authorization query_token : option string) (id documentId : ObjectId)
        (w : World) (tok : string) (P : User)
  (Htoken : or_string (option_map (replace_first "Bearer " "") authorization) query_token
            = Some tok)
  (Htruthy : truthy tok = true)
  (Hverify : jwt_verify tok = Some (Some (HexId (user_id P))))
  (Hstored : find_by user_id (user_id P) (Users w) = Some P) :
  status_of (fst (GET_view jwt_verify authorization query_token id documentId w))
  = status_of (fst (GET_download P id documentId w))
  /\ file_of (fst (GET_view jwt_verify authorization query_token id documentId w))
     = file_of (fst (GET_download P id documentId w))
  /\ snd (GET_view jwt_verify authorization query_token id documentId w) = w.
Proof.
  assert (Huser : token_user jwt_verify tok w = (Next P, w))
    by (rewrite token_user_run, Hverify, Hstored; reflexivity).
  rewrite (@GET_view_with_user authorization query_token id documentId w tok P
             Htoken Htruthy Huser).
  destruct (find_by task_id id (Tasks w)) as [T|] eqn:ET.
  - rewrite (@GET_download_existing P id documentId w T ET).
    destruct (access_refused P T); [now repeat split|].
    unfold asyncServe. rewrite !send_document_run.
    destruct (find _ (TaskDocuments w)) as [D|]; [|now repeat split].
    destruct (existsb (String.eqb (filePath D)) (uploads w)); now repeat split.
  - unfold GET_download, asyncServe, download_document, bind, Task_findById, gets.
    rewrite ET. now repeat split.
Qed.

(** X4: the view route authenticates by itself.  A header
    [Bearer <token>] with a non-empty token wins over the query string; a
    header that is just [Bearer ] (or absent) leaves the token of the
    query string.  Without a non-empty token the answer is 401
    "Authentication required"; a token that does not verify, or whose
    identifier is no ObjectId, is answered 401 "Invalid token."; a token
    without identifier, or for an account that is not stored, 401
    "Invalid token. User not found.".  None of these changes the world. *)
Theorem view_token_rule
        (authorization query_token : option string) (id documentId : ObjectId) (w : World) :
  (forall tok, truthy tok = true ->
     or_string (option_map (replace_first "Bearer " "") (Some ("Bearer " ++ tok)%string))
       query_token = Some tok)
  /\ or_string (option_map (replace_first "Bearer " "") (Some "Bearer ")) query_token
     = query_token
  /\ or_string (option_map (replace_first "Bearer " "") None) query_token = query_token
  /\ match or_string (option_map (replace_first "Bearer " "") authorization) query_token with
     | None =>
         GET_view jwt_verify authorization query_token id documentId w
         = (Json (json 401 "Authentication required"), w)
     | Some tok =>
         if truthy tok then
           match jwt_verify tok with
           | None | Some (Some (NotHex _)) =>
               GET_view jwt_verify authorization query_token id documentId w
               = (Json (json 401 "Invalid token."), w)
           | Some None =>
               GET_view jwt_verify authorization query_token id documentId w
               = (Json (json 401 "Invalid token. User not found."), w)
           | Some (Some (HexId i)) =>
               find_by user_id i (Users w) = None ->
               GET_view jwt_verify authorization query_token id documentId w
               = (Json (json 401 "Invalid token. User not found."), w)
           end
         else GET_view jwt_verify authorization query_token id documentId w
              = (Json (json 401 "Authentication required"), w)
     end.
Proof.
  split; [|split; [|split]].
  - intros tok Ht. cbn [option_map]. rewrite replace_first_prefix.
    unfold or_string. now rewrite Ht.
  - reflexivity.
  - reflexivity.
  - unfold GET_view, asyncServe, view_document.
    destruct (or_string _ query_token) as [tok|]; [|reflexivity].
    destruct (truthy tok); [|reflexivity].
    destruct (jwt_verify tok) as [[[i|s]|]|] eqn:Ejwt; [intros Hnone| | |];
      unfold bind at 1; rewrite token_user_run, Ejwt; [rewrite Hnone| | |];
      reflexivity.
Qed.

End ViewFacts.

Lemma view_agrees_with_download_witness :
  status_of (fst (GET_view Demo.tokens (Some "Bearer carol-token") None 10%N 20%N
                    Sample.world)) = 200
  /\ file_of (fst (GET_view Demo.tokens None (Some "dave-token") 10%N 20%N Sample.world))
     = None.
Proof.
  split.
  - destruct (@view_agrees_with_download Demo.tokens (Some "Bearer carol-token") None
                10%N 20%N Sample.world "carol-token" Sample.carol
                eq_refl eq_refl eq_refl eq_refl) as (H & _).
    rewrite H. reflexivity.
  - destruct (@view_agrees_with_download Demo.tokens None (Some "dave-token")
                10%N 20%N Sample.world "dave-token" Sample.dave
                eq_refl eq_refl eq_refl eq_refl) as (_ & H & _).
    rewrite H. reflexivity.
Defined.

(** ** The user routes *)

(** X5: the profile route never changes the world; a profile it sends is
    the stored account with the requested identifier, and it is sent
    only to an admin or to the account itself; anyone else is answered
    403 whether or not the requested account exists. *)
Theorem profile_rule (P : User) (id : ObjectId) (w : World) :
  snd (GET_user P id w) = w
  /\ (forall u, fst (GET_user P id w) = Profile u ->
        find_by user_id id (Users w) = Some u
        /\ user_id u = id /\ In u (Users w)
        /\ (role P = RoleAdmin \/ user_id P = id))
  /\ (role P = RoleAdmin \/ user_id P = id ->
      fst (GET_user P id w)
      = match find_by user_id id (Users w) with
        | Some u => Profile u
        | None => Refused (json 404 "User not found")
        end)
  /\ (role P <> RoleAdmin -> user_id P <> id ->
      fst (GET_user P id w)
      = Refused (json 403 "Access denied. You can only view your own profile.")).
Proof.
  unfold GET_user, get_user, bind, reply_if, reply, ret, User_findById, gets, equals.
  destruct (role P) eqn:Hr; cbn [is_admin negb andb].
  - destruct (N.eqb_spec (user_id P) id) as [E|E]; cbn [negb]; cbv beta iota.
    + destruct (find_by user_id id (Users w)) as [u|] eqn:Eu; cbn [fst snd].
      * repeat split; auto; try congruence.
        -- injection H as <-. now apply find_by_id in Eu.
        -- injection H as <-. now apply find_by_id in Eu.
      * repeat split; auto; try discriminate. congruence.
    + cbn [fst snd]. repeat split; auto; try discriminate.
      intros [?|?]; congruence.
  - cbv beta iota.
    destruct (find_by user_id id (Users w)) as [u|] eqn:Eu; cbn [fst snd].
    + repeat split; auto; try congruence.
      * injection H as <-. now apply find_by_id in Eu.
      * injection H as <-. now apply find_by_id in Eu.
    + repeat split; auto; try discriminate. congruence.
Qed.

Lemma In_filter_other (i : ObjectId) (l : list User) (u : User) :
  In u (filter (fun x => negb (N.eqb (user_id x) i)) l) <-> In u l /\ user_id u <> i.
Proof.
  rewrite filter_In, negb_true_iff, N.eqb_neq. tauto.
Qed.

(** X6: an admin who deletes another account is answered 404, and
    nothing changes, when no such account is stored; otherwise the
    answer is 200, exactly the accounts with that identifier are gone,
    and the tasks, the document records and the files stay as they were:
    tasks that the deleted account created or was assigned to keep their
    references to it. *)
Theorem admin_deletes_other_account (P : User) (id : ObjectId) (w : World)
  (Hadmin : role P = RoleAdmin)
  (Hother : user_id P <> id) :
  match find_by user_id id (Users w) with
  | None => DELETE_user P id w = (json 404 "User not found", w)
  | Some _ =>
      let w' := snd (DELETE_user P id w) in
      fst (DELETE_user P id w) = json 200 "User deleted successfully"
      /\ find_by user_id id (Users w') = None
      /\ (forall u, In u (Users w') <-> In u (Users w) /\ user_id u <> id)
      /\ Tasks w' = Tasks w
      /\ TaskDocuments w' = TaskDocuments w
      /\ uploads w' = uploads w
      /\ outbox w' = outbox w
  end.
Proof.
  unfold DELETE_user, asyncHandler, delete_user, adminAuth, try_catch,
    bind, reply_if, reply, ret, User_findById, User_findByIdAndDelete, gets, modify, equals.
  rewrite Hadmin. cbn [is_admin negb].
  apply N.eqb_neq in Hother. rewrite Hother. cbv beta iota.
  destruct (find_by user_id id (Users w)) as [u|] eqn:Eu; [|reflexivity].
  cbv zeta. cbn [fst snd]. destruct w as [us ts ds ups ob n]; simpl.
  repeat split; auto; try (apply find_by_filter_out).
  - now apply In_filter_other in H.
  - now apply In_filter_other in H.
  - intros [? ?]. now apply In_filter_other.
Qed.

Lemma admin_deletes_other_account_witness :
  fst (DELETE_user Sample.alice 2%N Sample.world) = json 200 "User deleted successfully"
  /\ Tasks (snd (DELETE_user Sample.alice 2%N Sample.world)) = Tasks Sample.world.
Proof.
  pose proof (@admin_deletes_other_account Sample.alice 2%N Sample.world eq_refl) as H.
  cbv zeta in H. simpl find_by in H.
  destruct H as (H1 & _ & _ & H2 & _); [discriminate|].
  split; [exact H1|exact H2].
Defined.

(** ** More on the list route *)

Lemma list_shows_own_tasks_witness :
  Forall (fun T => createdBy T = user_id Sample.carol
                   \/ assignedTo T = Some (user_id Sample.carol))
         (map raw Demo.carol_page).
Proof.
  destruct (@list_shows_own_tasks Sample.no_regex Sample.unsorted
              (fun _ _ l => Permutation_refl l)
              Sample.carol Sample.all_tasks Sample.world Demo.carol_page 1%Z 2
              eq_refl eq_refl) as (re & _ & _ & H & _).
  apply Forall_forall. intros T HT. apply (H T HT).
Defined.

Section ListingMore.

Variable regex : string -> option (string -> bool).
Variable sort : string -> bool -> list Task -> list Task.

Lemma compile_search_run (f : Filter) (w : World) :
  compile_search regex f w
  = match f_and f with
    | Some pattern =>
        match regex pattern with
        | Some re => (Next re, w)
        | None => (Thrown (Error "Regular expression is invalid"), w)
        end
    | None => (Next (fun _ => true), w)
    end.
Proof.
  unfold compile_search. destruct (f_and f) as [p|]; [destruct (regex p)|]; reflexivity.
Qed.

Lemma GET_tasks_run (P : User) (q : ListQuery) (w : World) :
  GET_tasks regex sort P q w =
    let f := build_query P q in
    let failed := (json 500 "Error fetching tasks", w) in
    if filter_casts f then
      match compile_search regex f w with
      | (Next re, _) =>
          let found := filter (matches re f) (Tasks w) in
          match cursor_page ((or_else (q_page q) 1 - 1) * or_else (q_limit q) 10)%Z
                  (or_else (q_limit q) 10%Z)
                  (sort (or_else (q_sortBy q) "createdAt")
                        match q_sortOrder q with Some "asc" => true | _ => false end
                        found) with
          | Some page =>
              (mkResponse 200 "" (TaskPage (map (populated w) page) (or_else (q_page q) 1%Z)
                                    (List.length found)), w)
          | None => failed
          end
      | _ => failed
      end
    else failed.
Proof.
  unfold GET_tasks, asyncHandler, get_tasks, try_catch, Task_find. cbv zeta.
  destruct (filter_casts (build_query P q)); [|reflexivity].
  unfold bind, ret, throw, gets. rewrite compile_search_run.
  destruct (f_and (build_query P q)) as [p|] eqn:Ef; [destruct (regex p) eqn:Er|];
    cbv beta iota; try reflexivity;
    (destruct (cursor_page _ _ _);
     [rewrite populate_all_populated; cbv beta iota;
      rewrite compile_search_run, Ef; try rewrite Er|]; reflexivity).
Qed.


Hypothesis sort_Permutation : forall field asc l, Permutation (sort field asc l) l.

(** X10: the list route does not restrict an admin: a 200 answer to an
    admin carries tasks that pass the requested filters, whoever created
    them and whoever they are assigned to; [totalItems] counts all tasks
    that pass, on whatever page; a first page that is long enough holds
    each of them; and without any filter every stored task is counted. *)
Theorem admin_list_is_unrestricted (P : User) (q : ListQuery) (w : World)
        (ts : list PopulatedTask) (page : Z) (total : nat)
  (Hadmin : role P = RoleAdmin)
  (Hok : fst (GET_tasks regex sort P q w) = mkResponse 200 "" (TaskPage ts page total)) :
  exists re : string -> bool,
    let passing := filter (matches_requested re (build_query P q)) (Tasks w) in
    total = List.length passing
    /\ ts = map (populated w) (map raw ts)
    /\ incl (map raw ts) passing
    /\ (or_else (q_page q) 1 = 1 ->
        or_else (q_limit q) 10 = 0 \/ Z.of_nat total <= Z.abs (or_else (q_limit q) 10) ->
        Permutation (map raw ts) passing)%Z
    /\ (build_query P q = mkFilter None None None None None None None ->
        total = List.length (Tasks w)).
Proof.
  revert Hok. rewrite GET_tasks_run. cbv zeta. rewrite compile_search_run.
  destruct (filter_casts (build_query P q)); [|discriminate].
  set (f := build_query P q).
  assert (Hm : forall re, filter (matches re f) (Tasks w)
                          = filter (matches_requested re f) (Tasks w)).
  { intros re. apply filter_ext. intros T. unfold matches, f. simpl. now rewrite Hadmin. }
  assert (Hgo : forall re,
    fst (match cursor_page ((or_else (q_page q) 1 - 1) * or_else (q_limit q) 10)%Z
                 (or_else (q_limit q) 10%Z)
                 (sort (or_else (q_sortBy q) "createdAt")
                       match q_sortOrder q with Some "asc" => true | _ => false end
                       (filter (matches re f) (Tasks w))) with
         | Some pg => (mkResponse 200 "" (TaskPage (map (populated w) pg)
                                           (or_else (q_page q) 1%Z)
                                           (List.length (filter (matches re f) (Tasks w)))), w)
         | None => (json 500 "Error fetching tasks", w)
         end) = mkResponse 200 "" (TaskPage ts page total) ->
    let passing := filter (matches_requested re f) (Tasks w) in
    total = List.length passing
    /\ ts = map (populated w) (map raw ts)
    /\ incl (map raw ts) passing
    /\ (or_else (q_page q) 1 = 1 ->
        or_else (q_limit q) 10 = 0 \/ Z.of_nat total <= Z.abs (or_else (q_limit q) 10) ->
        Permutation (map raw ts) passing)%Z
    /\ (f = mkFilter None None None None None None None ->
        total = List.length (Tasks w))).
  { intros re. rewrite Hm. cbv zeta.
    destruct (cursor_page _ _ _) as [pg|] eqn:Hpg; [|discriminate].
    cbn [fst]. intros [= <- <- <-]. rewrite map_raw_populated.
    repeat split; trivial.
    - intros T HT. apply cursor_page_incl in Hpg. apply Hpg in HT.
      now apply (Permutation_in _ (sort_Permutation _ _ _)) in HT.
    - intros Hp Hl. rewrite Hp in Hpg. simpl in Hpg.
      rewrite cursor_page_whole in Hpg.
      + injection Hpg as <-. apply sort_Permutation.
      + rewrite (Permutation_length (sort_Permutation _ _ _)). exact Hl.
    - intros ->. f_equal. apply filter_all. apply forallb_forall. reflexivity. }
  destruct (f_and f) as [p|]; [destruct (regex p) as [re|]; [|discriminate]|].
  - intros H. exists re. now apply Hgo.
  - intros H. exists (fun _ => true). now apply Hgo.
Qed.

End ListingMore.

Lemma admin_list_is_unrestricted_witness :
  incl (map raw Demo.admin_page) (Tasks Sample.world) /\ 3 = List.length (Tasks Sample.world).
Proof.
  destruct (@admin_list_is_unrestricted Sample.no_regex Sample.unsorted
              (fun _ _ l => Permutation_refl l)
              Sample.alice Sample.all_tasks Sample.world Demo.admin_page 1%Z 3
              eq_refl eq_refl) as (re & _ & _ & H & _ & Hall).
  split.
  - intros T HT. apply H in HT. now apply filter_In in HT.
  - apply Hall. reflexivity.
Defined.

(** ** More on the update route *)

Lemma update_denied_spec P T : update_denied P T = false <-> canUpdate P T.
Proof.
  unfold update_denied, canUpdate, equals.
  destruct (role P); cbn [is_admin negb andb].
  - destruct (N.eqb_spec (createdBy T) (user_id P)) as [E|E]; cbn [negb andb].
    + split; auto.
    + destruct (assignedTo T) as [a|].
      * destruct (N.eqb_spec a (user_id P)) as [Ea|Ea]; cbn [negb].
        -- subst a. split; auto.
        -- split; [discriminate|]. intros [H|[H|H]]; congruence.
      * split; [discriminate|]. intros [H|[H|H]]; congruence.
  - split; auto.
Qed.

Lemma errorHandler_not_200 e : statusCode (errorHandler e) <> 200.
Proof. destruct (errorHandler_code e) as [H|H]; rewrite H; discriminate. Qed.

Lemma errorHandler_not_201 e : statusCode (errorHandler e) <> 201.
Proof. destruct (errorHandler_code e) as [H|H]; rewrite H; discriminate. Qed.

Lemma errorHandler_not_403 e : statusCode (errorHandler e) <> 403.
Proof. destruct (errorHandler_code e) as [H|H]; rewrite H; discriminate. Qed.

(** X11: who may update.  For an upload that passes the upload
    middleware and a payload that passes validation, an update of an
    existing task is answered 403 exactly when the principal is neither
    an admin, nor the creator, nor the assignee of the task.  A refused
    update changes no task and no document record, but the files it
    carried have been written to the upload directory and stay there. *)
Theorem update_permission_rule (show : PopulatedUser -> Shown) (now : Z) (P : User)
        (id : ObjectId) (body : TaskBody) (files : list File) (w : World) (T : Task)
  (HT : existing_task w id T)
  (Hupload : multer_scan files_limit files = None)
  (Hvalid : put_validation body = true) :
  (statusCode (fst (PUT_task show now P id body files w)) = 403 <-> ~ canUpdate P T)
  /\ (~ canUpdate P T ->
      PUT_task show now P id body files w = (update_forbidden, store_uploads files w))
  /\ Tasks (store_uploads files w) = Tasks w
  /\ TaskDocuments (store_uploads files w) = TaskDocuments w
  /\ incl (map file_path files) (uploads (store_uploads files w)).
Proof.
  rewrite PUT_task_run, Hupload. cbv zeta. rewrite Hvalid. cbn [negb].
  unfold existing_task in HT. rewrite HT.
  pose proof (update_denied_spec P T) as Hspec.
  destruct (update_denied P T).
  - assert (Hno : ~ canUpdate P T) by (intros H; apply Hspec in H; discriminate).
    repeat split; auto.
    intros x Hx. simpl. apply in_or_app. now right.
  - assert (Hyes : canUpdate P T) by now apply Hspec.
    repeat split; try tauto.
    + intros H. exfalso. revert H.
      destruct (assignee_missing w body); [discriminate|].
      destruct (task_valid now (edit body T)); cbn [negb]; [|discriminate].
      destruct files as [|f files]; [discriminate|].
      destruct (Nat.ltb 3 _); [discriminate|]. cbv zeta.
      destruct (forallb document_valid _); discriminate.
    + intros x Hx. simpl. apply in_or_app. now right.
Qed.

Lemma update_permission_rule_witness :
  statusCode (fst (PUT_task hexOf Sample.now Sample.dave 10%N Sample.mark_completed
                     [Sample.pdf "x.pdf"] Sample.world)) = 403
  /\ In (file_path (Sample.pdf "x.pdf"))
        (uploads (snd (PUT_task hexOf Sample.now Sample.dave 10%N Sample.mark_completed
                         [Sample.pdf "x.pdf"] Sample.world))).
Proof.
  destruct (@update_permission_rule hexOf Sample.now Sample.dave 10%N Sample.mark_completed
              [Sample.pdf "x.pdf"] Sample.world Sample.report
              eq_refl eq_refl eq_refl) as (H1 & H2 & _ & _ & H3).
  assert (Hno : ~ canUpdate Sample.dave Sample.report)
    by (unfold canUpdate; simpl; intros [?|[?|?]]; discriminate).
  split.
  - now apply H1.
  - rewrite (H2 Hno). apply H3. now left.
Defined.

Lemma edit_assignedTo body T :
  assignedTo (edit body T) = assignedTo T
  \/ exists j, b_assignedTo body = Some (HexId j) /\ assignedTo (edit body T) = Some j.
Proof.
  unfold edit. cbn [assignedTo].
  destruct (b_assignedTo body) as [[j|s]|]; eauto.
Qed.

(** What an update leaves under the identifier of its task: the task as
    it was, the edited task, or the edited task with a longer document
    list. *)
Lemma PUT_task_stored show now P id body files w T :
  existing_task w id T ->
  exists T',
    existing_task (snd (PUT_task show now P id body files w)) id T'
    /\ (T' = T \/ exists ds, T' = with_documents (edit body T) (documents T ++ ds)).
Proof.
  intros HT. rewrite PUT_task_run. unfold existing_task in *. rewrite HT.
  destruct (find_by_id _ _ _ HT) as [Hid _].
  assert (Hup : forall t l, task_id t = id ->
                  find_by task_id id (upsert_task t l) = Some t).
  { intros t l Ht. rewrite find_by_upsert_task, Ht. now rewrite N.eqb_refl. }
  assert (Hedit : edit body T = with_documents (edit body T) (documents T ++ []))
    by (rewrite app_nil_r; reflexivity).
  destruct (multer_scan files_limit files) as [e|]; [exists T; auto|]. cbv zeta.
  destruct (put_validation body); cbn [negb]; [|exists T; auto].
  destruct (update_denied P T); [exists T; auto|].
  destruct (assignee_missing w body); [exists T; auto|].
  destruct (task_valid now (edit body T)); cbn [negb]; [|exists T; auto].
  destruct files as [|f files].
  - exists (edit body T). split; [apply Hup; exact Hid|]. right. now exists [].
  - destruct (Nat.ltb 3 _).
    + exists (edit body T). split; [apply Hup; exact Hid|]. right. now exists [].
    + cbv zeta. destruct (forallb document_valid _).
      * eexists. split; [apply Hup; exact Hid|]. right. eexists. reflexivity.
      * exists (edit body T). split; [apply Hup; exact Hid|]. right. now exists [].
Qed.

(** X12: an update never unassigns a task.  Whatever the request and
    whatever the answer, a task that had an assignee still has one after
    the update: the assignee it had, or the one the payload names; and a
    payload whose [assignedTo] is the string [null] (or any other string
    that is no ObjectId) is answered 400 before the task is read.  The
    creator, the creation date and the documents listed before stay. *)
Theorem update_never_unassigns (show : PopulatedUser -> Shown) (now : Z) (P : User)
        (id : ObjectId) (body : TaskBody) (files : list File) (w : World)
        (T : Task) (a : ObjectId)
  (HT : existing_task w id T)
  (Hassigned : assignedTo T = Some a) :
  (exists T', existing_task (snd (PUT_task show now P id body files w)) id T'
     /\ (assignedTo T' = Some a
         \/ exists j, b_assignedTo body = Some (HexId j) /\ assignedTo T' = Some j)
     /\ createdBy T' = createdBy T
     /\ createdAt T' = createdAt T
     /\ incl (documents T) (documents T'))
  /\ (forall s, b_assignedTo body = Some (NotHex s) ->
        statusCode (fst (PUT_task show now P id body files w)) = 400
        \/ statusCode (fst (PUT_task show now P id body files w)) = 500)
  /\ (forall s, b_assignedTo body = Some (NotHex s) ->
        multer_scan files_limit files = None ->
        PUT_task show now P id body files w = (validation_failed, store_uploads files w)).
Proof.
  split; [|split].
  - destruct (@PUT_task_stored show now P id body files w T HT) as (T' & HT' & Hcase).
    exists T'. split; [exact HT'|].
    destruct Hcase as [->|[ds ->]].
    + repeat split; auto. apply incl_refl.
    + cbn [with_documents assignedTo createdBy createdAt documents].
      repeat split; auto.
      * destruct (edit_assignedTo body T) as [E|E]; [left; congruence|now right].
      * apply incl_appl, incl_refl.
  - intros s Hs. rewrite PUT_task_run.
    destruct (multer_scan files_limit files) as [e|]; [apply errorHandler_code|].
    cbv zeta. unfold put_validation. rewrite Hs. cbn [optional isMongoId].
    rewrite !andb_false_r. now left.
  - intros s Hs Hup. rewrite PUT_task_run, Hup. cbv zeta.
    unfold put_validation. rewrite Hs. cbn [optional isMongoId].
    rewrite !andb_false_r. reflexivity.
Qed.

Lemma update_never_unassigns_witness :
  exists T', existing_task
               (snd (PUT_task hexOf Sample.now Sample.bob 10%N
                       (Sample.assign_to Sample.dave) [] Sample.world)) 10%N T'
             /\ assignedTo T' <> None.
Proof.
  destruct (@update_never_unassigns hexOf Sample.now Sample.bob 10%N
              (Sample.assign_to Sample.dave) [] Sample.world Sample.report 3%N
              eq_refl eq_refl) as ((T' & HT' & Ha & _) & _).
  exists T'. split; [exact HT'|].
  destruct Ha as [Ha|(j & _ & Ha)]; rewrite Ha; discriminate.
Defined.

(** ** More on the create route *)


Lemma fresh_documents_uploader tid u first files D :
  In D (fresh_documents tid u first files) -> uploadedBy D = u.
Proof.
  revert first. induction files as [|f files IH]; intros first; simpl; [tauto|].
  intros [<-|H]; [reflexivity|eauto].
Qed.





Lemma empty_file_is_invalid tid u first files :
  existsb (fun f => N.eqb (file_size f) 0) files = true ->
  forallb document_valid (fresh_documents tid u first files) = false.
Proof.
  revert first. induction files as [|f files IH]; intros first; simpl; [discriminate|].
  intros H. apply orb_true_iff in H as [H|H].
  - apply N.eqb_eq in H. apply andb_false_iff. left.
    unfold document_valid, TaskDocument_validate. cbn [fileSize]. rewrite H.
    change (N.ltb 0 1) with true. cbv iota.
    destruct (_ =? ""); destruct (Nat.ltb 255 _); destruct (_ =? "");
      destruct (_ =? ""); destruct (Nat.ltb 500 _); reflexivity.
  - apply andb_false_iff. right. now apply IH.
Qed.

(** X15: a create request is not atomic.  When the upload passes the
    upload middleware, the payload passes validation and the task is
    valid, but one of the files is empty, the answer is 500 "Error
    creating task" although the task has been stored: it is found under
    its fresh identifier, without documents; the other files that are
    valid documents are stored as records that no task lists; all files
    stay in the upload directory; and nobody is notified. *)
Theorem create_with_empty_file_keeps_task (now : Z) (P : User) (body : TaskBody)
        (files : list File) (w : World)
  (Hupload : multer_scan files_limit files = None)
  (Hvalid : post_validation body = true)
  (Hassignee : assignee_missing w body = false)
  (Htask : task_valid now (created now P body (nextId w)) = true)
  (Hempty : existsb (fun f => N.eqb (file_size f) 0) files = true) :
  let w' := snd (POST_task now P body files w) in
  fst (POST_task now P body files w) = json 500 "Error creating task"
  /\ existing_task w' (nextId w) (created now P body (nextId w))
  /\ documents (created now P body (nextId w)) = []
  /\ TaskDocuments w'
     = TaskDocuments w
       ++ filter document_valid
            (fresh_documents (nextId w) (user_id P) (N.succ (nextId w)) files)
  /\ (forall T, In T (Tasks w') ->
        T = created now P body (nextId w) \/ In T (Tasks w))
  /\ incl (map file_path files) (uploads w')
  /\ outbox w' = outbox w.
Proof.
  cbv zeta. rewrite POST_task_run, Hupload. cbv zeta.
  rewrite Hvalid, Hassignee, Htask. cbn [negb].
  destruct files as [|f files]; [discriminate|].
  replace (nextId (set_Tasks (upsert_task (created now P body (nextId w)))
                     (bump 1 (store_uploads (f :: files) w))))
    with (N.succ (nextId w)) by (simpl; lia).
  change (task_id (created now P body (nextId w))) with (nextId w).
  rewrite (empty_file_is_invalid _ _ _ _ Hempty). cbn [fst snd].
  repeat split; trivial.
  - unfold existing_task. simpl Tasks. rewrite find_by_upsert_task. simpl.
    now rewrite N.eqb_refl.
  - intros T HT. simpl in HT.
    apply In_upsert_task in HT as [->|[HT _]]; auto.
  - intros p Hp. simpl. apply in_or_app. now right.
Qed.

Lemma create_with_empty_file_keeps_task_witness :
  fst (POST_task Sample.now Sample.bob (Sample.titled "Plan" None None)
         [Sample.pdf "a.pdf"; Demo.empty_pdf "b.pdf"] Sample.world)
  = json 500 "Error creating task"
  /\ existing_task
       (snd (POST_task Sample.now Sample.bob (Sample.titled "Plan" None None)
               [Sample.pdf "a.pdf"; Demo.empty_pdf "b.pdf"] Sample.world))
       100%N (created Sample.now Sample.bob (Sample.titled "Plan" None None) 100%N).
Proof.
  destruct (@create_with_empty_file_keeps_task Sample.now Sample.bob
              (Sample.titled "Plan" None None)
              [Sample.pdf "a.pdf"; Demo.empty_pdf "b.pdf"] Sample.world
              eq_refl eq_refl eq_refl eq_refl eq_refl) as (H1 & H2 & _).
  split; [exact H1|exact H2].
Defined.

(** X16: a create request touches nothing that exists.  In a consistent
    database every task is found after the request exactly as before,
    every document record and every file is still there, and the
    accounts are the same, whatever the answer. *)
Theorem create_touches_nothing_else (now : Z) (P : User) (body : TaskBody)
        (files : list File) (w : World)
  (Hconsistent : Consistent w) :
  let w' := snd (POST_task now P body files w) in
  Users w' = Users w
  /\ (forall i T, existing_task w i T -> existing_task w' i T)
  /\ incl (Tasks w) (Tasks w')
  /\ incl (TaskDocuments w) (TaskDocuments w')
  /\ incl (uploads w) (uploads w').
Proof.
  cbv zeta. rewrite POST_task_run.
  destruct (multer_scan files_limit files) as [e|].
  { cbn [snd]. repeat split; auto using incl_refl. }
  cbv zeta.
  assert (Hfresh : forall T, In T (Tasks w) -> task_id T <> nextId w).
  { intros T HT E. pose proof (task_ids_known Hconsistent T HT). lia. }
  assert (Hkeep : forall t l, task_id t = nextId w -> incl l (Tasks w) ->
                    forall T, In T l -> In T (upsert_task t l)).
  { intros t l Ht Hl T HT. unfold upsert_task.
    destruct (existsb _ l) eqn:E.
    - apply existsb_exists in E as (x & Hx & Ex). apply N.eqb_eq in Ex.
      exfalso. apply (Hfresh x); [now apply Hl|congruence].
    - apply in_or_app. now left. }
  assert (Hfind : forall t l i T, task_id t = nextId w -> (i < nextId w)%N ->
                    find_by task_id i l = Some T ->
                    find_by task_id i (upsert_task t l) = Some T).
  { intros t l i T Ht Hi HT. rewrite find_by_upsert_task, Ht.
    destruct (N.eqb_spec (nextId w) i); [lia|exact HT]. }
  assert (Hid : forall i T, existing_task w i T -> (i < nextId w)%N).
  { intros i T HT. apply find_by_id in HT as [<- HT].
    now apply (task_ids_known Hconsistent). }
  assert (Hups : incl (uploads w) (uploads (store_uploads files w))).
  { intros p Hp. simpl. apply in_or_app. now left. }
  destruct (post_validation body); cbn [negb];
    [|cbn [snd]; repeat split; auto using incl_refl].
  destruct (assignee_missing w body); [cbn [snd]; repeat split; auto using incl_refl|].
  destruct (task_valid now (created now P body (nextId w))); cbn [negb];
    [|cbn [snd]; repeat split; auto using incl_refl].
  destruct files as [|f files].
  - unfold posted. cbn [snd]. repeat split; auto using incl_refl.
    + intros i T HT. unfold existing_task. simpl Tasks.
      apply Hfind; trivial. now apply (Hid i T).
    + intros T HT. simpl Tasks. apply Hkeep; auto using incl_refl.
  - cbv zeta. destruct (forallb document_valid _).
    + unfold posted. cbn [snd]. repeat split; auto.
      * intros i T HT. unfold existing_task. simpl Tasks.
        pose proof (Hid i T HT) as Hi.
        apply Hfind; trivial. apply Hfind; trivial.
      * intros T HT. simpl Tasks.
        assert (H1 : In T (upsert_task (created now P body (nextId w)) (Tasks w)))
          by (apply Hkeep; auto using incl_refl).
        unfold upsert_task at 1.
        destruct (existsb _ _) eqn:E.
        -- apply in_map_iff. exists T. split; trivial.
           match goal with
           | |- context [N.eqb ?a ?b] => destruct (N.eqb_spec a b) as [Eq|Eq]
           end; trivial.
           exfalso. apply (Hfresh T HT). exact Eq.
        -- apply in_or_app. now left.
      * intros D HD. simpl. apply in_or_app. now left.
    + cbn [snd]. repeat split; auto.
      * intros i T HT. unfold existing_task. simpl Tasks.
        apply Hfind; trivial. now apply (Hid i T).
      * intros T HT. simpl Tasks. apply Hkeep; auto using incl_refl.
      * intros D HD. simpl. apply in_or_app. now left.
Qed.

Lemma create_touches_nothing_else_witness :
  existing_task
    (snd (POST_task Sample.now Sample.dave (Sample.titled "Plan" (Some Sample.carol) None)
            [Sample.pdf "a.pdf"] Sample.world)) 10%N Sample.report.
Proof.
  apply (@create_touches_nothing_else Sample.now Sample.dave
           (Sample.titled "Plan" (Some Sample.carol) None)
           [Sample.pdf "a.pdf"] Sample.world Sample_world_Consistent).
  reflexivity.
Defined.

(** ** Who hears of an update *)

Lemma update_events_shape show old (pt : PopulatedTask) :
  match p_assignedTo pt with
  | None => update_events show old pt = []
  | Some a =>
      exists first,
        update_events show old pt
        = first ++ [mkEvent (show a) taskUpdated (task_id (raw pt))]
        /\ (first = [] \/ first = [mkEvent (show a) taskAssigned (task_id (raw pt))])
        /\ (first = [] <-> exists o, old = Some o /\ Shown_eqb (show a) (HexOf o) = true)
  end.
Proof.
  unfold update_events. destruct (p_assignedTo pt) as [a|]; [|reflexivity].
  destruct old as [o|].
  - destruct (Shown_eqb (show a) (HexOf o)) eqn:E.
    + exists []. repeat split; auto. intros _. now exists o.
    + eexists. split; [reflexivity|]. split; [now right|].
      split; [discriminate|]. intros (o' & [= <-] & H). congruence.
  - eexists. split; [reflexivity|]. split; [now right|].
    split; [discriminate|]. intros (o' & H & _). discriminate.
Qed.

(** X17: who hears of an update.  An update that is not answered 200
    emits nothing.  One that is answered 200 emits nothing either when
    the updated task has no assignee or its assignee is no stored user;
    otherwise it emits [taskUpdated] about the task, once and last, into
    the room named after the rendering of the populated assignee, and
    before it at most one [taskAssigned] into the same room, which is
    left out exactly when that rendering equals the identifier of the
    previous assignee.  Nobody else -- not the creator -- is notified. *)
Theorem update_events_rule (show : PopulatedUser -> Shown) (now : Z) (P : User)
        (id : ObjectId) (body : TaskBody) (files : list File) (w : World) :
  (statusCode (fst (PUT_task show now P id body files w)) <> 200 ->
   outbox (snd (PUT_task show now P id body files w)) = outbox w)
  /\ (forall T, existing_task w id T ->
      statusCode (fst (PUT_task show now P id body files w)) = 200 ->
      match populate_user w (assignedTo (edit body T)) with
      | None => outbox (snd (PUT_task show now P id body files w)) = outbox w
      | Some a =>
          exists first,
            outbox (snd (PUT_task show now P id body files w))
            = outbox w ++ first ++ [mkEvent (show a) taskUpdated id]
            /\ (first = [] \/ first = [mkEvent (show a) taskAssigned id])
            /\ (first = [] <-> exists o, assignedTo T = Some o
                                         /\ Shown_eqb (show a) (HexOf o) = true)
      end).
Proof.
  assert (Hup : forall T t w', existing_task w id T -> Users w' = Users w ->
                  outbox w' = outbox w -> assignedTo t = assignedTo (edit body T) ->
                  task_id t = task_id T ->
                  match populate_user w (assignedTo (edit body T)) with
                  | None => outbox (snd (updated show (assignedTo T) t w')) = outbox w
                  | Some a =>
                      exists first,
                        outbox (snd (updated show (assignedTo T) t w'))
                        = outbox w ++ first ++ [mkEvent (show a) taskUpdated id]
                        /\ (first = [] \/ first = [mkEvent (show a) taskAssigned id])
                        /\ (first = [] <-> exists o, assignedTo T = Some o
                                                     /\ Shown_eqb (show a) (HexOf o) = true)
                  end).
  { intros T t w' HT Hu Ho Ha Hid. destruct (find_by_id _ _ _ HT) as [HidT _].
    unfold updated. cbn [snd]. unfold set_outbox. cbn [outbox]. rewrite Ho.
    pose proof (update_events_shape show (assignedTo T) (populated w' t)) as Hs.
    unfold populated in *. cbn [p_assignedTo raw] in *.
    assert (Hp : populate_user w' (assignedTo t) = populate_user w (assignedTo (edit body T))).
    { rewrite Ha. unfold populate_user. now rewrite Hu. }
    rewrite Hp, Hid, HidT in Hs. rewrite Hp.
    destruct (populate_user w (assignedTo (edit body T))) as [a|].
    - destruct Hs as (first & -> & Hs). exists first. split; [reflexivity|exact Hs].
    - rewrite Hs. apply app_nil_r. }
  rewrite PUT_task_run.
  destruct (multer_scan files_limit files) as [e|].
  { cbn [fst snd]. split; [reflexivity|]. intros T _ H.
    now apply errorHandler_not_200 in H. }
  cbv zeta.
  destruct (put_validation body); cbn [negb];
    [|split; [reflexivity|intros T _; discriminate]].
  destruct (find_by task_id id (Tasks w)) as [T0|] eqn:HT0;
    [|split; [reflexivity|intros T _; discriminate]].
  destruct (update_denied P T0); [split; [reflexivity|intros T _; discriminate]|].
  destruct (assignee_missing w body); [split; [reflexivity|intros T _; discriminate]|].
  destruct (task_valid now (edit body T0)); cbn [negb];
    [|split; [reflexivity|intros T _; discriminate]].
  destruct files as [|f files].
  - split; [intros H; now contradiction H|].
    intros T HT _. unfold existing_task in HT. rewrite HT0 in HT. injection HT as <-.
    apply Hup; trivial.
  - destruct (Nat.ltb 3 _); [split; [reflexivity|intros T _; discriminate]|].
    cbv zeta. destruct (forallb document_valid _);
      [|split; [reflexivity|intros T _; discriminate]].
    split; [intros H; now contradiction H|].
    intros T HT _. unfold existing_task in HT. rewrite HT0 in HT. injection HT as <-.
    apply Hup; trivial.
Qed.

(** ** Deleting a task and its documents *)

Lemma In_unlinked (docs : list TaskDocument) (ups : list string) (p : string) :
  In p (unlinked docs ups) <-> In p ups /\ forall D, In D docs -> filePath D <> p.
Proof.
  unfold unlinked. revert ups. induction docs as [|d docs IH]; intros ups; simpl.
  - split; [intros H; split; [exact H|intros D []]|tauto].
  - rewrite IH, filter_In, negb_true_iff, String.eqb_neq. split.
    + intros [[Hin Hd] Hrest]. split; trivial.
      intros D [<-|HD]; [congruence|auto].
    + intros [Hin Hall]. repeat split; trivial.
      * intros E. apply (Hall d); auto.
      * intros D HD. apply Hall. now right.
Qed.

(** X18: deleting a task cascades.  After an admin or the creator has
    deleted an existing task, exactly the document records of that task
    are gone and exactly the files of those records have left the upload
    directory; every other task is found as before, the accounts are the
    same and nobody is notified; a second deletion is answered 404, and
    so is every download under the identifier of the task. *)
Theorem delete_cascades (P : User) (id : ObjectId) (w : World) (T : Task)
  (HT : existing_task w id T)
  (Hmay : canDelete P T) :
  let w' := snd (DELETE_task P id w) in
  (forall D, In D (TaskDocuments w') <-> In D (TaskDocuments w) /\ taskId D <> id)
  /\ (forall p, In p (uploads w') <->
        In p (uploads w)
        /\ forall D, In D (TaskDocuments w) -> taskId D = id -> filePath D <> p)
  /\ (forall i, i <> id -> find_by task_id i (Tasks w') = find_by task_id i (Tasks w))
  /\ Users w' = Users w
  /\ outbox w' = outbox w
  /\ DELETE_task P id w' = (json 404 "Task not found", w')
  /\ (forall Q documentId,
        fst (GET_download Q id documentId w') = Json (json 404 "Task not found")).
Proof.
  cbv zeta. rewrite (@DELETE_task_existing P id w T HT).
  destruct (find_by_id _ _ _ HT) as [Hid _].
  assert (Hgo : negb (is_admin (role P)) && negb (equals (createdBy T) (user_id P)) = false).
  { unfold canDelete, equals in *. destruct Hmay as [-> | ->]; simpl.
    - reflexivity.
    - rewrite N.eqb_refl. apply andb_false_r. }
  rewrite Hgo. cbn [snd]. rewrite Hid.
  assert (Hgone : forall l, find_by task_id id
                              (filter (fun t => negb (N.eqb (task_id t) id)) l) = None)
    by (intros l; apply find_by_filter_out).
  split; [|split; [|split; [|split; [|split; [|split]]]]]; cbn [TaskDocuments uploads Tasks Users outbox].
  - intros D. rewrite filter_In. unfold belongs_to.
    rewrite negb_true_iff, N.eqb_neq. tauto.
  - intros p. rewrite In_unlinked. split.
    + intros [Hin Hall]. split; trivial. intros D HD HDid. apply Hall.
      apply filter_In. split; trivial. unfold belongs_to. now apply N.eqb_eq.
    + intros [Hin Hall]. split; trivial. intros D HD.
      apply filter_In in HD as [HD HDid]. apply Hall; trivial.
      unfold belongs_to in HDid. now apply N.eqb_eq in HDid.
  - intros i Hi. rewrite find_by_filter_other.
    now destruct (N.eqb_spec i id).
  - reflexivity.
  - reflexivity.
  - apply delete_missing_task_lemma. apply Hgone.
  - intros Q documentId.
    unfold GET_download, asyncServe, download_document, bind, Task_findById, gets.
    cbn [Tasks]. now rewrite Hgone.
Qed.

Lemma delete_cascades_witness :
  TaskDocuments (snd (DELETE_task Sample.bob 10%N Sample.world)) = []
  /\ ~ In (filePath Sample.report_pdf) (uploads (snd (DELETE_task Sample.bob 10%N Sample.world))).
Proof.
  assert (Hmay : canDelete Sample.bob Sample.report) by (right; reflexivity).
  destruct (@delete_cascades Sample.bob 10%N Sample.world Sample.report eq_refl Hmay)
    as (_ & Hfiles & _).
  split; [reflexivity|].
  intros Hin. apply Hfiles in Hin as [_ Hall].
  apply (Hall Sample.report_pdf); [now left|reflexivity|reflexivity].
Defined.

(** ** Removing a document of a task that cannot be saved *)

(** X19: removing a document of a task whose due date has passed.  The
    route deletes the file first and saves the task next; the save runs
    the due-date validator and fails, so the answer is 500 "Error
    deleting document" -- but the file has left the upload directory
    while the task still lists the document and the record is still
    stored: from then on every download of it by a principal who may view
    the task is answered 404 "File not found on server". *)
Theorem removing_document_of_overdue_task (now : Z) (P : User) (id documentId : ObjectId)
        (w : World) (T : Task) (D : TaskDocument) (d : Z)
  (HT : existing_task w id T)
  (HD : existing_document w id documentId D)
  (Hmay : canRemoveDocument P T D)
  (Hdue : dueDate T = Some d)
  (Hpast : (d <= now)%Z) :
  let w' := snd (DELETE_document now P id documentId w) in
  fst (DELETE_document now P id documentId w) = json 500 "Error deleting document"
  /\ ~ In (filePath D) (uploads w')
  /\ existing_task w' id T
  /\ existing_document w' id documentId D
  /\ (forall Q, canView Q T ->
        GET_download Q id documentId w' = (Json (json 404 "File not found on server"), w')).
Proof.
  cbv zeta. rewrite (@DELETE_document_existing now P id documentId w T D HT HD).
  assert (Hgo : negb (is_admin (role P)) && negb (equals (createdBy T) (user_id P))
                && negb (equals (uploadedBy D) (user_id P)) = false).
  { unfold canRemoveDocument, equals in Hmay |- *.
    destruct Hmay as [-> | [-> | ->]]; simpl; rewrite ?N.eqb_refl; simpl;
      rewrite ?andb_false_r; reflexivity. }
  rewrite Hgo. cbv zeta. rewrite (@overdue_is_invalid now T d Hdue Hpast). cbn [fst snd].
  assert (Hfile : ~ In (filePath D)
                      (uploads (set_uploads (filter (fun q => negb (q =? filePath D))) w))).
  { simpl. intros Hin. apply filter_In in Hin as [_ Hin].
    rewrite String.eqb_refl in Hin. discriminate. }
  repeat split; trivial.
  intros Q HQ.
  assert (HT1 : existing_task (set_uploads (filter (fun q => negb (q =? filePath D))) w) id T)
    by exact HT.
  rewrite (@GET_download_existing Q id documentId _ T HT1).
  apply access_refused_spec in HQ. rewrite HQ.
  unfold asyncServe. rewrite send_document_run.
  unfold existing_document in HD. cbn [TaskDocuments set_uploads]. rewrite HD.
  destruct (existsb _ _) eqn:E; [|reflexivity].
  apply existsb_eqb_In in E. contradiction.
Qed.

Lemma removing_document_of_overdue_task_witness :
  fst (DELETE_document Sample.now Sample.carol 12%N 21%N Demo.world)
  = json 500 "Error deleting document"
  /\ ~ In (filePath Demo.form_pdf)
        (uploads (snd (DELETE_document Sample.now Sample.carol 12%N 21%N Demo.world)))
  /\ existing_document (snd (DELETE_document Sample.now Sample.carol 12%N 21%N Demo.world))
       12%N 21%N Demo.form_pdf.
Proof.
  assert (Hmay : canRemoveDocument Sample.carol Demo.taxes_with_form Demo.form_pdf)
    by (right; right; reflexivity).
  assert (Hpast : (900 <= Sample.now)%Z) by (unfold Sample.now; lia).
  destruct (@removing_document_of_overdue_task Sample.now Sample.carol 12%N 21%N
              Demo.world Demo.taxes_with_form Demo.form_pdf 900%Z
              eq_refl eq_refl Hmay eq_refl Hpast) as (H1 & H2 & _ & H3 & _).
  split; [exact H1|]. split; [exact H2|exact H3].
Defined.

(** ** The rejected attachment, on the sample world *)

Lemma limit_rejection_keeps_edits_witness :
  find_by task_id 10%N
    (Tasks (snd (PUT_task hexOf Sample.now Sample.bob 10%N Sample.mark_completed
                   [Sample.pdf "a.pdf"; Sample.pdf "b.pdf"; Sample.pdf "c.pdf"]
                   Sample.world)))
  = Some (edit Sample.mark_completed Sample.report)
  /\ status (edit Sample.mark_completed Sample.report) = completed.
Proof.
  split; [|reflexivity].
  apply (@limit_rejection_keeps_edits hexOf Sample.now Sample.bob 10%N Sample.mark_completed
           [Sample.pdf "a.pdf"; Sample.pdf "b.pdf"; Sample.pdf "c.pdf"]
           Sample.world Sample.report eq_refl eq_refl).
Defined.

(** ** What the collections satisfy after any sequence of requests *)

(** X20: references between tasks and documents stay sound.  From a
    consistent database (the empty one is), after any sequence of
    requests: every document that a task lists is a stored record of that
    very task; no document is listed by tasks with different identifiers,
    nor twice by one task; no two stored records share an identifier;
    and every identifier in use was drawn from the generator. *)
Theorem listed_documents_belong_to_their_task
        (regex : string -> option (string -> bool))
        (sort : string -> bool -> list Task -> list Task)
        (show : PopulatedUser -> Shown)
        (rs : list Request) (w0 : World)
  (Hconsistent : Consistent w0) :
  let w := run regex sort show rs w0 in
  (forall T d, In T (Tasks w) -> In d (documents T) ->
     exists D, In D (TaskDocuments w) /\ doc_id D = d /\ taskId D = task_id T)
  /\ (forall T1 T2 d, In T1 (Tasks w) -> In T2 (Tasks w) ->
        In d (documents T1) -> In d (documents T2) -> task_id T1 = task_id T2)
  /\ (forall T, In T (Tasks w) -> NoDup (documents T))
  /\ (forall D1 D2, In D1 (TaskDocuments w) -> In D2 (TaskDocuments w) ->
        doc_id D1 = doc_id D2 -> D1 = D2)
  /\ (forall T, In T (Tasks w) -> (task_id T < nextId w)%N)
  /\ (forall D, In D (TaskDocuments w) -> (doc_id D < nextId w)%N).
Proof.
  cbv zeta. destruct (run_sound regex sort show rs Hconsistent) as [C _].
  set (w := run regex sort show rs w0) in *.
  assert (Hinj : forall D1 D2, In D1 (TaskDocuments w) -> In D2 (TaskDocuments w) ->
                   doc_id D1 = doc_id D2 -> D1 = D2).
  { intros D1 D2 H1 H2 E.
    exact (NoDup_map_injective doc_id _ _ _ (doc_ids_unique C) H1 H2 E). }
  repeat split.
  - intros T d HT Hd. exact (documents_stored C T d HT Hd).
  - intros T1 T2 d HT1 HT2 Hd1 Hd2.
    destruct (documents_stored C T1 d HT1 Hd1) as (D1 & HD1 & Hid1 & Ht1).
    destruct (documents_stored C T2 d HT2 Hd2) as (D2 & HD2 & Hid2 & Ht2).
    assert (D1 = D2) by (apply Hinj; congruence). subst D2. congruence.
  - intros T HT. exact (documents_listed_once C T HT).
  - exact Hinj.
  - intros T HT. exact (task_ids_known C T HT).
  - intros D HD. now apply (doc_ids_known C).
Qed.

Lemma listed_documents_belong_to_their_task_witness :
  forallb (fun T => forallb (fun d => existsb (fun D => N.eqb (doc_id D) d
                                                      && N.eqb (taskId D) (task_id T))
                                        (TaskDocuments
                                           (run Sample.no_regex Sample.unsorted hexOf
                                              Sample.two_then_two (initial [Sample.bob; Sample.carol]))))
                            (documents T))
          (Tasks (run Sample.no_regex Sample.unsorted hexOf Sample.two_then_two
                    (initial [Sample.bob; Sample.carol])))
  = true
  /\ NoDup (map doc_id
             (TaskDocuments (run Sample.no_regex Sample.unsorted hexOf Sample.two_then_two
                               (initial [Sample.bob; Sample.carol])))).
Proof.
  destruct (@listed_documents_belong_to_their_task Sample.no_regex Sample.unsorted hexOf
              Sample.two_then_two (initial [Sample.bob; Sample.carol])
              (initial_Consistent [Sample.bob; Sample.carol])) as (H & _).
  split; [|vm_compute; repeat constructor; simpl; intuition discriminate].
  apply forallb_forall. intros T HT. apply forallb_forall. intros d Hd.
  destruct (H T d HT Hd) as (D & HD & Hid & Ht).
  apply existsb_exists. exists D. split; [exact HD|].
  apply andb_true_iff. split; now apply N.eqb_eq.
Defined.

(** ** The upload middleware *)



(** ** From upload to download *)

Lemma fresh_documents_of_file tid u first files f :
  In f files ->
  exists D, In D (fresh_documents tid u first files)
            /\ filePath D = trim (file_path f)
            /\ originalName D = trim (file_originalname f)
            /\ fileSize D = file_size f
            /\ mimeType D = file_mimetype f.
Proof.
  revert first. induction files as [|g files IH]; intros first; simpl; [tauto|].
  intros [->|H].
  - eexists. split; [now left|]. simpl. auto.
  - destruct (IH (N.succ first) H) as (D & HD & Hrest). exists D. auto.
Qed.

Lemma find_unique {A} (p : A -> bool) (l : list A) (x : A) :
  In x l -> p x = true -> (forall y, In y l -> p y = true -> y = x) ->
  find p l = Some x.
Proof.
  induction l as [|a l IH]; simpl; [tauto|].
  intros Hin Hp Huniq. destruct (p a) eqn:Ea.
  - f_equal. apply Huniq; auto.
  - destruct Hin as [->|Hin]; [congruence|]. apply IH; auto.
Qed.

Lemma find_app_none {A} (p : A -> bool) (l1 l2 : list A) :
  (forall y, In y l1 -> p y = false) -> find p (l1 ++ l2) = find p l2.
Proof.
  induction l1 as [|a l1 IH]; simpl; trivial.
  intros H. rewrite (H a) by now left. apply IH. intros y Hy. apply H. now right.
Qed.

(** X23: from upload to download.  After a create request answered
    201 in a consistent database, each uploaded file (whose path has no
    white space at its ends) is a stored document of the new task, and
    the creator can download it at once: the download route sends the
    file under its path in the upload directory, with the size and type
    of the upload, as an attachment named after the original name, and
    changes nothing. *)
Theorem uploaded_file_can_be_downloaded (now : Z) (P : User) (body : TaskBody)
        (files : list File) (w : World) (f : File)
  (Hconsistent : Consistent w)
  (Hcreated : statusCode (fst (POST_task now P body files w)) = 201)
  (Hfile : In f files)
  (Hpath : trim (file_path f) = file_path f) :
  let w' := snd (POST_task now P body files w) in
  exists D,
    In D (TaskDocuments w')
    /\ taskId D = nextId w
    /\ uploadedBy D = user_id P
    /\ originalName D = trim (file_originalname f)
    /\ GET_download P (nextId w) (doc_id D) w'
       = (SentFile (content_disposition "attachment" D)
            (file_mimetype f) (file_size f) (file_path f), w').
Proof.
  cbv zeta. revert Hcreated. rewrite POST_task_run.
  destruct (multer_scan files_limit files) as [e|].
  { cbn [fst]. intros H. now apply errorHandler_not_201 in H. }
  cbv zeta.
  destruct (post_validation body); cbn [negb]; [|discriminate].
  destruct (assignee_missing w body); [discriminate|].
  destruct (task_valid now (created now P body (nextId w))); cbn [negb]; [|discriminate].
  destruct files as [|f0 files]; [destruct Hfile|].
  cbv zeta.
  set (t := created now P body (nextId w)).
  set (docs := fresh_documents (task_id t) (user_id P)
                 (nextId (set_Tasks (upsert_task t) (bump 1 (store_uploads (f0 :: files) w))))
                 (f0 :: files)).
  destruct (forallb document_valid docs) eqn:Hdocs; [|discriminate].
  intros _. unfold posted. cbn [snd].
  set (t2 := with_documents t (map doc_id docs)).
  set (w' := set_outbox _ _).
  destruct (@fresh_documents_of_file (task_id t) (user_id P)
              (nextId (set_Tasks (upsert_task t) (bump 1 (store_uploads (f0 :: files) w))))
              (f0 :: files) f Hfile) as (D & HD & Hp & Ho & Hs & Hm).
  fold docs in HD.
  assert (Hdocs' : TaskDocuments w' = TaskDocuments w ++ docs).
  { subst w'. unfold add_documents. cbn [TaskDocuments set_outbox set_Tasks set_TaskDocuments].
    now rewrite (filter_all _ _ Hdocs). }
  assert (HT : existing_task w' (nextId w) t2).
  { unfold existing_task. subst w'. cbn [Tasks set_outbox set_Tasks].
    rewrite find_by_upsert_task. subst t2 t. simpl. now rewrite N.eqb_refl. }
  pose proof (fresh_documents_In _ _ _ _ _ HD) as [HDt HDid].
  exists D. split; [rewrite Hdocs'; apply in_or_app; now right|].
  split; [exact HDt|].
  split; [exact (fresh_documents_uploader _ _ _ _ _ HD)|].
  split; [exact Ho|].
  rewrite (@GET_download_existing P (nextId w) (doc_id D) w' t2 HT).
  assert (Hview : access_refused P t2 = false).
  { apply access_refused_spec. right. left. reflexivity. }
  rewrite Hview. unfold asyncServe. rewrite send_document_run, Hdocs'.
  rewrite find_app_none.
  2:{ intros y Hy. apply (doc_ids_known Hconsistent) in Hy as [Hy _].
      apply andb_false_iff. left. apply N.eqb_neq.
      simpl in HDid. lia. }
  rewrite (@find_unique _ _ docs D HD).
  - assert (Hon : existsb (String.eqb (filePath D)) (uploads w') = true).
    { apply existsb_eqb_In. rewrite Hp, Hpath. subst w'. simpl.
      apply in_or_app. right. destruct Hfile as [->|Hfile]; [now left|right].
      now apply in_map. }
    rewrite Hon. cbn [fst snd]. now rewrite Hs, Hm, Hp, Hpath.
  - rewrite N.eqb_refl. unfold belongs_to. rewrite HDt. apply N.eqb_refl.
  - intros y Hy Hpy. apply andb_true_iff in Hpy as [Hpy _]. apply N.eqb_eq in Hpy.
    apply (NoDup_map_injective doc_id _ _ _ (fresh_documents_NoDup _ _ _ _) Hy HD Hpy).
Qed.

Lemma uploaded_file_can_be_downloaded_witness :
  exists D,
    originalName D = "notes.pdf"
    /\ fst (GET_download Sample.bob 100%N (doc_id D)
              (snd (POST_task Sample.now Sample.bob (Sample.titled "Plan" None None)
                      [Sample.pdf "a.pdf"] Sample.world)))
       = SentFile (content_disposition "attachment" D) "application/pdf" 7%N
           "uploads/tasks/a.pdf".
Proof.
  destruct (@uploaded_file_can_be_downloaded Sample.now Sample.bob
              (Sample.titled "Plan" None None) [Sample.pdf "a.pdf"] Sample.world
              (Sample.pdf "a.pdf") Sample_world_Consistent eq_refl
              (or_introl eq_refl) eq_refl) as (D & _ & _ & _ & Ho & H).
  exists D. split; [exact Ho|exact (f_equal fst H)].
Defined.

(** ** From create to read *)

Lemma GET_task_reader Q id w T :
  existing_task w id T ->
  find_by user_id (user_id Q) (Users w) = Some Q ->
  createdBy T = user_id Q \/ assignedTo T = Some (user_id Q) ->
  GET_task Q id w = (viewed T w, w).
Proof.
  intros HT HQ Hrel. rewrite (@GET_task_existing Q id w T HT).
  destruct (is_admin (role Q)); [reflexivity|].
  destruct Hrel as [E|E].
  - destruct (match populate_user w (assignedTo T) with
              | Some a => equals (pu_id a) (user_id Q)
              | None => false
              end); [reflexivity|].
    rewrite E, (@populate_stored_user w Q HQ). cbn [pu_id].
    unfold equals. now rewrite N.eqb_refl.
  - rewrite E, (@populate_stored_user w Q HQ). cbn [pu_id].
    unfold equals. now rewrite N.eqb_refl.
Qed.

(** X24: what was created can be read.  After a create request
    answered 201, the single-task read under the fresh identifier gives
    the creator, and the assignee named by the payload, a 200 answer
    that carries exactly the task of the 201 answer, and changes
    nothing. *)
Theorem created_task_can_be_read (now : Z) (P Q : User) (body : TaskBody)
        (files : list File) (w : World)
  (Hcreated : statusCode (fst (POST_task now P body files w)) = 201)
  (Hstored : find_by user_id (user_id Q) (Users w) = Some Q)
  (Hreader : user_id Q = user_id P \/ b_assignedTo body = Some (HexId (user_id Q))) :
  GET_task Q (nextId w) (snd (POST_task now P body files w))
  = (mkResponse 200 "" (data (fst (POST_task now P body files w))),
     snd (POST_task now P body files w)).
Proof.
  revert Hcreated. rewrite POST_task_run.
  destruct (multer_scan files_limit files) as [e|].
  { cbn [fst]. intros H. now apply errorHandler_not_201 in H. }
  cbv zeta.
  destruct (post_validation body); cbn [negb]; [|discriminate].
  destruct (assignee_missing w body); [discriminate|].
  destruct (task_valid now (created now P body (nextId w))); cbn [negb]; [|discriminate].
  assert (Hread : forall t w', Users w' = Users w ->
                    createdBy t = user_id P ->
                    assignedTo t = assignedTo (created now P body (nextId w)) ->
                    existing_task (snd (posted P body t w')) (nextId w) t ->
                    GET_task Q (nextId w) (snd (posted P body t w'))
                    = (mkResponse 200 "" (data (fst (posted P body t w'))),
                       snd (posted P body t w'))).
  { intros t w' Hu Hc Ha HT.
    rewrite (@GET_task_reader Q (nextId w) _ t HT); [reflexivity| |].
    - unfold posted. cbn [snd Users set_outbox]. now rewrite Hu.
    - destruct Hreader as [E|E]; [left; congruence|right].
      rewrite Ha. unfold created. cbn [assignedTo]. now rewrite E. }
  destruct files as [|f files].
  - intros _. apply Hread; trivial.
    unfold existing_task, posted. cbn [snd Tasks set_outbox set_Tasks].
    rewrite find_by_upsert_task. simpl. now rewrite N.eqb_refl.
  - cbv zeta. destruct (forallb document_valid _); [|discriminate].
    intros _. apply Hread; trivial.
    unfold existing_task, posted. cbn [snd Tasks set_outbox set_Tasks].
    rewrite find_by_upsert_task. simpl. now rewrite N.eqb_refl.
Qed.

Lemma created_task_can_be_read_witness :
  statusCode
    (fst (GET_task Sample.carol 100%N
            (snd (POST_task Sample.now Sample.bob
                    (Sample.titled "Plan" (Some Sample.carol) None) [] Sample.world))))
  = 200.
Proof.
  pose proof (@created_task_can_be_read Sample.now Sample.bob Sample.carol
                (Sample.titled "Plan" (Some Sample.carol) None) [] Sample.world
                eq_refl eq_refl (or_intror eq_refl)) as H.
  exact (f_equal (fun r => statusCode (fst r)) H).
Defined.
